(** * womter: the pattern-matching and normalization engine, and the merger's
      deduplication

    A shallow embedding of [analyzer/src/analyzer.py] (class [Analyzer]) and
    of [merger/src/reader.py] ([DataReader.combine_data] and
    [DataReader.remove_duplicates]).

    Python text is a list of Unicode code points.  The services the code
    takes from the Python runtime ([unicodedata], [str.lower], [float],
    [datetime.strptime]) are the fields of the class [PyRuntime]; every
    definition of the analyzer is written over an arbitrary runtime, and the
    instance [latin1] gives the tables of the runtime on the code points
    U+0000..U+00FF, where concrete inputs are evaluated. *)

From Stdlib Require Import List NArith ZArith QArith Bool Lia String Ascii.
From Stdlib Require Import DecimalString.
Import ListNotations.
Close Scope Q_scope.
Close Scope string_scope.
Open Scope list_scope.
Open Scope N_scope.

(* ================================================================== *)
(** * Python values                                                     *)
(* ================================================================== *)

(** A Python [str]: the sequence of its code points. *)
Definition str := list N.

Fixpoint str_eqb (a b : str) : bool :=
  match a, b with
  | [], [] => true
  | x :: a', y :: b' => (x =? y) && str_eqb a' b'
  | _, _ => false
  end.

(** Decoding of the UTF-8 bytes of a literal of this file (sequences of one,
    two and three bytes), so that Python literals can be written as they are
    in the source. *)
Fixpoint utf8 (bs : list N) : str :=
  match bs with
  | [] => []
  | b :: r =>
      if b <? 128 then b :: utf8 r
      else if b <? 224 then
        match r with
        | c :: r' => ((b mod 32) * 64 + c mod 64) :: utf8 r'
        | [] => []
        end
      else
        match r with
        | c :: d :: r' =>
            ((b mod 16) * 4096 + (c mod 64) * 64 + d mod 64) :: utf8 r'
        | _ => []
        end
  end.

Definition py (s : string) : str :=
  utf8 (map N_of_ascii (list_ascii_of_string s)).

(** [b.startswith(a)] *)
Fixpoint startswith (b a : str) : bool :=
  match a, b with
  | [], _ => true
  | x :: a', y :: b' => (x =? y) && startswith b' a'
  | _ :: _, [] => false
  end.

(** [a in b] on strings: [a] begins at some position of [b]. *)
Fixpoint str_in (a b : str) : bool :=
  startswith b a ||
  match b with
  | [] => false
  | _ :: b' => str_in a b'
  end.

(** Membership of a string in a list of strings ([x in xs], and the
    elements of a [set]). *)
Definition str_mem (x : str) (xs : list str) : bool :=
  existsb (str_eqb x) xs.

(** A Python [set] of strings, kept as a duplicate-free list. *)
Definition set_add (x : str) (s : list str) : list str :=
  if str_mem x s then s else s ++ [x].

Definition set_of (xs : list str) : list str :=
  fold_left (fun s x => set_add x s) xs [].

Definition set_intersection (s1 s2 : list str) : list str :=
  filter (fun x => str_mem x s2) s1.

Definition set_union (s1 s2 : list str) : list str :=
  s1 ++ filter (fun x => negb (str_mem x s1)) s2.

(** A Python [dict] with string keys: the items in insertion order.
    Assigning to a key that is present replaces its value in place. *)
Module Dict.
Section Ops.
Context {V : Type}.

Definition t := list (str * V).

Definition empty : t := [].

Fixpoint get (k : str) (d : t) : option V :=
  match d with
  | [] => None
  | (k', v) :: d' => if str_eqb k k' then Some v else get k d'
  end.

Fixpoint set (k : str) (v : V) (d : t) : t :=
  match d with
  | [] => [(k, v)]
  | (k', v') :: d' =>
      if str_eqb k k' then (k', v) :: d' else (k', v') :: set k v d'
  end.

Definition keys (d : t) : list str := map fst d.

Definition mem (k : str) (d : t) : bool := str_mem k (keys d).
End Ops.
Arguments t : clear implicits.
End Dict.

(** The comparison operators of a numeric or date condition. *)
Inductive operator := OpLt | OpGt | OpEq.

Definition operator_of_char (c : N) : option operator :=
  if c =? 60 then Some OpLt
  else if c =? 62 then Some OpGt
  else if c =? 61 then Some OpEq
  else None.

(** Outcome of a call that may raise. *)
Inductive result (A : Type) :=
| Ok (a : A)
| Raise.
Arguments Ok {A} a.
Arguments Raise {A}.

(** Where a loop body leaves the function. *)
Inductive flow (S : Type) :=
| Next (s : S)
| Return (b : bool)
| Raised.
Arguments Next {S} s.
Arguments Return {S} b.
Arguments Raised {S}.

Fixpoint for_each {S X : Type} (body : S -> X -> flow S) (xs : list X)
    (s : S) : flow S :=
  match xs with
  | [] => Next s
  | x :: xs' =>
      match body s x with
      | Next s' => for_each body xs' s'
      | Return b => Return b
      | Raised => Raised
      end
  end.

Definition bind_flow {S : Type} (f : flow S) (k : S -> flow S) : flow S :=
  match f with
  | Next s => k s
  | Return b => Return b
  | Raised => Raised
  end.

(* ================================================================== *)
(** * The Python runtime                                                *)
(* ================================================================== *)

(** What the analyzer uses from the interpreter and its standard library.
    [isspace] is the whitespace class of [str.strip], [str.split] and of
    [\s]; [isdecimal] is the class [\d]; [nfd] is
    [unicodedata.normalize('NFD', _)]; [combining] is
    [unicodedata.combining]; [lower] is [str.lower].  [float_of_str] and
    [strptime_ymd] are [None] where [float(s)] and
    [datetime.strptime(s, '%Y-%m-%d')] raise [ValueError]. *)
Class PyRuntime := {
  isspace : N -> bool;
  isdecimal : N -> bool;
  nfd : str -> str;
  combining : N -> N;
  lower : str -> str;
  float : Type;
  float_of_str : str -> option float;
  float_of_int : Z -> float;
  float_eqb : float -> float -> bool;
  float_ltb : float -> float -> bool;
  float_isnan : float -> bool;
  float_str : float -> str;
  datetime : Type;
  strptime_ymd : str -> option datetime;
  datetime_eqb : datetime -> datetime -> bool;
  datetime_ltb : datetime -> datetime -> bool;
  datetime_str : datetime -> str;
  isspace_space : isspace 32 = true;
  lower_empty : lower [] = []
}.

Section Analyzer.
Context {RT : PyRuntime}.

(** The scalars that occur as spreadsheet cells and as JSON rule values. *)
Inductive pyval :=
| PNone
| PStr (s : str)
| PInt (z : Z)
| PFloat (f : float)
| PBool (b : bool)
| PDate (d : datetime).

(** [pd.isna(v)] on a scalar. *)
Definition pd_isna (v : pyval) : bool :=
  match v with
  | PNone => true
  | PFloat f => float_isnan f
  | _ => false
  end.

(** [bool(v)]; [not v] is its negation. *)
Definition truthy (v : pyval) : bool :=
  match v with
  | PNone => false
  | PStr s => match s with [] => false | _ => true end
  | PInt z => negb (z =? 0)%Z
  | PFloat f => negb (float_eqb f (float_of_int 0))
  | PBool b => b
  | PDate _ => true
  end.

(** [str(v)]. *)
Definition py_str (v : pyval) : str :=
  match v with
  | PNone => py "None"
  | PStr s => s
  | PInt z => py (NilZero.string_of_int (Z.to_int z))
  | PFloat f => float_str f
  | PBool true => py "True"
  | PBool false => py "False"
  | PDate d => datetime_str d
  end.

(** [float(v)] under [except (ValueError, TypeError)]: [None] when it
    raises.  Integer cells are 64-bit, so the conversion cannot overflow. *)
Definition py_float (v : pyval) : option float :=
  match v with
  | PStr s => float_of_str s
  | PInt z => Some (float_of_int z)
  | PFloat f => Some f
  | PBool b => Some (float_of_int (if b then 1 else 0))
  | PNone | PDate _ => None
  end.

(** ** Text helpers *)

Fixpoint lstrip (s : str) : str :=
  match s with
  | [] => []
  | c :: r => if isspace c then lstrip r else s
  end.

Definition rstrip (s : str) : str := rev (lstrip (rev s)).

(** [s.strip()] *)
Definition strip (s : str) : str := rstrip (lstrip s).

(** The character class of the regular expression that both cleaning
    functions remove: period, comma, exclamation and question mark,
    semicolon, colon, round, square and curly brackets, double and single
    quote, hyphen. *)
Definition punctuation : list N :=
  [46; 44; 33; 63; 59; 58; 40; 41; 91; 93; 123; 125; 34; 39; 45].

Definition is_punctuation (c : N) : bool := existsb (N.eqb c) punctuation.

(** [re.sub] of that class by the empty string. *)
Definition remove_punctuation (s : str) : str :=
  filter (fun c => negb (is_punctuation c)) s.

(** [''.join(char for char in s if not unicodedata.combining(char))] *)
Definition remove_combining (s : str) : str :=
  filter (fun c => combining c =? 0) s.

(** [re.sub(r'\s+', ' ', s)]: [in_run] tells that the previous character
    belonged to a run of whitespace that has already been replaced. *)
Fixpoint collapse_whitespace (in_run : bool) (s : str) : str :=
  match s with
  | [] => []
  | c :: r =>
      if isspace c then
        if in_run then collapse_whitespace true r
        else 32 :: collapse_whitespace true r
      else c :: collapse_whitespace false r
  end.

(** [s.split()]: the maximal blocks without whitespace; [cur] is the block
    being read, reversed. *)
Fixpoint split_from (cur : str) (s : str) : list str :=
  match s with
  | [] => match cur with [] => [] | _ => [rev cur] end
  | c :: r =>
      if isspace c then
        match cur with
        | [] => split_from [] r
        | _ => rev cur :: split_from [] r
        end
      else split_from (c :: cur) r
  end.

Definition split (s : str) : list str := split_from [] s.

(** ** Analyzer._normalize_text_for_comparison *)
Definition _normalize_text_for_comparison (text : pyval) : str :=
  if negb (truthy text) then []
  else
    let text_str := py_str text in
    let text_str := strip text_str in
    let normalized := nfd text_str in
    let cleaned := remove_combining normalized in
    let cleaned := remove_punctuation cleaned in
    lower cleaned.

(** ** Analyzer._clean_pattern_text *)
Definition _clean_pattern_text (text : pyval) : str :=
  if negb (truthy text) then []
  else
    let text_str := py_str text in
    let text_str := strip text_str in
    remove_punctuation text_str.

(** ** Analyzer._normalize_column_name *)
Definition column_mappings : list (str * str) :=
  [ (py "tweet id", py "tweet_id");
    (py "tweet_id", py "tweet_id");
    (py "usuario nombre", py "usuario_nombre");
    (py "usuario genero", py "usuario_genero");
    (py "tipo de verificacion", py "tipo_de_verificacion");
    (py "public metrics dump", py "public_metrics_dump");
    (py "user dump", py "user_dump");
    (py "tweet dump", py "tweet_dump");
    (py "source file", py "_source_file");
    (py "source path", py "_source_path");
    (py "sheet name", py "_sheet_name");
    (py "language", py "_language") ].

(** The loop over [column_mappings.items()], leaving at the first key
    equal to [normalized]. *)
Fixpoint apply_mappings (table : list (str * str)) (normalized : str) : str :=
  match table with
  | [] => normalized
  | (original, standard) :: table' =>
      if str_eqb normalized original then standard
      else apply_mappings table' normalized
  end.

Definition _normalize_column_name (column_name : str) : str :=
  match column_name with
  | [] => []
  | _ =>
      let col_str := column_name in
      let normalized := lower col_str in
      let normalized := strip (collapse_whitespace false normalized) in
      apply_mappings column_mappings normalized
  end.

(** ** Rule compilation: Analyzer._process_patterns *)

(** [re.match(r'^[<>=]\d+', value)] *)
Definition _is_numeric_field (value : str) : bool :=
  match value with
  | c :: d :: _ =>
      match operator_of_char c with
      | Some _ => isdecimal d
      | None => false
      end
  | _ => false
  end.

(** [re.match(r'^[<>=]\d{4}-\d{2}-\d{2}', value)] *)
Definition _is_date_field (value : str) : bool :=
  match value with
  | c :: y1 :: y2 :: y3 :: y4 :: h1 :: m1 :: m2 :: h2 :: d1 :: d2 :: _ =>
      match operator_of_char c with
      | Some _ =>
          forallb isdecimal [y1; y2; y3; y4] && (h1 =? 45) &&
          forallb isdecimal [m1; m2] && (h2 =? 45) &&
          forallb isdecimal [d1; d2]
      | None => false
      end
  | _ => false
  end.

Definition is_bool (v : pyval) : bool :=
  match v with PBool _ => true | _ => false end.

Definition _is_boolean_field (values : list pyval) : bool :=
  match values with
  | [] => false
  | _ => forallb is_bool values
  end.

(** The booleans of a list of values that passed [_is_boolean_field]. *)
Definition bools_of (values : list pyval) : list bool :=
  flat_map (fun v => match v with PBool b => [b] | _ => [] end) values.

(** [re.match(r'^([<>=])(.+)$', s)] and its two groups: the dot does not
    match a line feed, and the dollar also matches before a final one. *)
Definition match_operator (s : str) : option (operator * str) :=
  match s with
  | [] => None
  | c :: rest =>
      match operator_of_char c with
      | None => None
      | Some op =>
          let body := match rev rest with
                      | 10 :: b => rev b
                      | _ => rest
                      end in
          match body with
          | [] => None
          | _ => if existsb (N.eqb 10) body then None else Some (op, body)
          end
      end
  end.

Record numeric_condition := {
  num_operator : operator;
  num_value : float;
  num_original : pyval
}.

Record date_condition := {
  date_operator : operator;
  date_value : datetime;
  date_original : pyval
}.

(** A value whose conversion raises is logged and left out. *)
Definition _process_numeric_values (values : list pyval)
  : list numeric_condition :=
  flat_map
    (fun value =>
       match match_operator (py_str value) with
       | Some (op, num_str) =>
           match float_of_str num_str with
           | Some num_value => [ {| num_operator := op;
                                    num_value := num_value;
                                    num_original := value |} ]
           | None => []
           end
       | None =>
           match py_float value with
           | Some num_value => [ {| num_operator := OpEq;
                                    num_value := num_value;
                                    num_original := value |} ]
           | None => []
           end
       end)
    values.

Definition _process_date_values (values : list pyval)
  : list date_condition :=
  flat_map
    (fun value =>
       match match_operator (py_str value) with
       | Some (op, date_str) =>
           match strptime_ymd date_str with
           | Some date_value => [ {| date_operator := op;
                                     date_value := date_value;
                                     date_original := value |} ]
           | None => []
           end
       | None =>
           match value with
           | PStr s =>
               match strptime_ymd s with
               | Some date_value => [ {| date_operator := OpEq;
                                         date_value := date_value;
                                         date_original := value |} ]
               | None => []
               end
           | _ => []
           end
       end)
    values.

(** A rule as read from its file, and a compiled rule. *)
Definition raw_pattern := Dict.t (list pyval).

Record processed_pattern := {
  string_fields : Dict.t (list str);
  numeric_fields : Dict.t (list numeric_condition);
  date_fields : Dict.t (list date_condition);
  boolean_fields : Dict.t (list bool);
  original_pattern : raw_pattern
}.

(** The body of the loop over [pattern_data.items()]. *)
Definition process_column (processed : processed_pattern)
    (item : str * list pyval) : processed_pattern :=
  let '(column_name, values) := item in
  match values with
  | [] => processed
  | value0 :: _ =>
      let normalized_column_name := _normalize_column_name column_name in
      let first_value := py_str value0 in
      if _is_date_field first_value then
        {| string_fields := string_fields processed;
           numeric_fields := numeric_fields processed;
           date_fields := Dict.set normalized_column_name
                            (_process_date_values values)
                            (date_fields processed);
           boolean_fields := boolean_fields processed;
           original_pattern := original_pattern processed |}
      else if _is_numeric_field first_value then
        {| string_fields := string_fields processed;
           numeric_fields := Dict.set normalized_column_name
                               (_process_numeric_values values)
                               (numeric_fields processed);
           date_fields := date_fields processed;
           boolean_fields := boolean_fields processed;
           original_pattern := original_pattern processed |}
      else if _is_boolean_field values then
        {| string_fields := string_fields processed;
           numeric_fields := numeric_fields processed;
           date_fields := date_fields processed;
           boolean_fields := Dict.set normalized_column_name
                               (bools_of values)
                               (boolean_fields processed);
           original_pattern := original_pattern processed |}
      else
        {| string_fields := Dict.set normalized_column_name
                              (map _clean_pattern_text values)
                              (string_fields processed);
           numeric_fields := numeric_fields processed;
           date_fields := date_fields processed;
           boolean_fields := boolean_fields processed;
           original_pattern := original_pattern processed |}
  end.

Definition empty_processed (pattern_data : raw_pattern) : processed_pattern :=
  {| string_fields := Dict.empty;
     numeric_fields := Dict.empty;
     date_fields := Dict.empty;
     boolean_fields := Dict.empty;
     original_pattern := pattern_data |}.

Definition process_pattern (pattern_data : raw_pattern) : processed_pattern :=
  fold_left process_column pattern_data (empty_processed pattern_data).

(** [self.processed_patterns] after [_process_patterns(patterns)]. *)
Definition _process_patterns
    (processed_patterns : Dict.t processed_pattern)
    (patterns : Dict.t raw_pattern) : Dict.t processed_pattern :=
  fold_left
    (fun acc item => Dict.set (fst item) (process_pattern (snd item)) acc)
    patterns processed_patterns.

(** ** Condition evaluators *)

(** What [row[actual_column]] gives: the cell, or a [Series] of cells when
    the label occurs more than once in the row. *)
Inductive value :=
| Scalar (v : pyval)
| Series (vs : list pyval).

(** Analyzer._calculate_similarity.  The quotient of the two sizes is kept
    exact; the comparison of the float quotient with the float [0.7]
    agrees with the exact one as long as the union has fewer than 2^49
    words. *)
Definition _calculate_similarity (text1 text2 : str) : Q :=
  match text1, text2 with
  | [], _ | _, [] => 0%Q
  | _, _ =>
      let words1 := set_of (split text1) in
      let words2 := set_of (split text2) in
      match words1, words2 with
      | [], _ | _, [] => 0%Q
      | _, _ =>
          let intersection := List.length (set_intersection words1 words2) in
          let union := List.length (set_union words1 words2) in
          match union with
          | O => 0%Q
          | _ => (inject_Z (Z.of_nat intersection)
                  / inject_Z (Z.of_nat union))%Q
          end
      end
  end.

(** [a > b] on the exact quotients. *)
Definition Qgtb (a b : Q) : bool := negb (Qle_bool a b).

(** Analyzer._check_string_condition.  The test [if pd.isna(row_value)]
    raises [ValueError] on a [Series]. *)
Definition _check_string_condition (row_value : value)
    (pattern_values : list str) : result bool :=
  match row_value with
  | Series _ => Raise
  | Scalar cell =>
      if pd_isna cell then Ok false
      else
        let row_str := _normalize_text_for_comparison cell in
        Ok (existsb
              (fun pattern_value =>
                 let normalized_pattern :=
                   _normalize_text_for_comparison (PStr pattern_value) in
                 str_in normalized_pattern row_str
                 || str_in row_str normalized_pattern
                 || Qgtb (_calculate_similarity normalized_pattern row_str)
                         (7 # 10))
              pattern_values)
  end.

(** Analyzer._check_numeric_condition *)
Definition _check_numeric_condition (row_value : value)
    (pattern_conditions : list numeric_condition) : result bool :=
  match row_value with
  | Series _ => Raise
  | Scalar cell =>
      if pd_isna cell then Ok false
      else
        match py_float cell with
        | None => Ok false
        | Some row_num =>
            Ok (existsb
                  (fun condition =>
                     let pattern_value := num_value condition in
                     match num_operator condition with
                     | OpEq => float_eqb row_num pattern_value
                     | OpGt => float_ltb pattern_value row_num
                     | OpLt => float_ltb row_num pattern_value
                     end)
                  pattern_conditions)
        end
  end.

(** Analyzer._check_date_condition *)
Definition _check_date_condition (row_value : value)
    (pattern_conditions : list date_condition) : result bool :=
  match row_value with
  | Series _ => Raise
  | Scalar cell =>
      if pd_isna cell then Ok false
      else
        let parsed :=
          match cell with
          | PStr s => strptime_ymd s
          | PDate d => Some d
          | _ => None
          end in
        match parsed with
        | None => Ok false
        | Some row_date =>
            Ok (existsb
                  (fun condition =>
                     let pattern_value := date_value condition in
                     match date_operator condition with
                     | OpEq => datetime_eqb row_date pattern_value
                     | OpGt => datetime_ltb pattern_value row_date
                     | OpLt => datetime_ltb row_date pattern_value
                     end)
                  pattern_conditions)
        end
  end.

(** Analyzer._check_boolean_condition *)
Definition true_words : list str :=
  [py "true"; py "1"; py "yes"; py "verdadero"].

Definition _check_boolean_condition (row_value : value)
    (pattern_values : list bool) : result bool :=
  match row_value with
  | Series _ => Raise
  | Scalar cell =>
      if pd_isna cell then Ok false
      else
        let coerced :=
          match cell with
          | PBool b => Some b
          | PStr s => Some (str_mem (lower s) true_words)
          | PInt _ | PFloat _ => Some (truthy cell)
          | _ => None
          end in
        match coerced with
        | None => Ok false
        | Some row_bool => Ok (existsb (Bool.eqb row_bool) pattern_values)
        end
  end.

(** ** Row matching: Analyzer._check_row_matches_pattern *)

(** A row of a data frame ([pd.Series]): its labels with their cells, in
    column order. *)
Definition Row := list (str * pyval).

Definition row_index (row : Row) : list str := map fst row.

(** [row[label]] for a label of the index. *)
Definition row_getitem (row : Row) (label : str) : value :=
  match filter (fun item => str_eqb (fst item) label) row with
  | [(_, cell)] => Scalar cell
  | items => Series (map snd items)
  end.

(** The inner helper: the first label of the row whose normalized name is
    that of the rule column; [None] when there is none. *)
Definition find_column_case_insensitive (column_name : str)
    (index : list str) : option str :=
  let normalized_pattern_col := _normalize_column_name column_name in
  find
    (fun col =>
       let normalized_data_col := _normalize_column_name col in
       str_eqb normalized_data_col normalized_pattern_col)
    index.

(** The state of the four loops: [matched_columns] and [total_columns]. *)
Definition progress := (list str * nat)%type.

(** The body shared by the four loops, [check] being the evaluator of the
    bucket. *)
Definition check_column {C : Type} (check : value -> C -> result bool)
    (row : Row) (st : progress) (field : str * C) : flow progress :=
  let '(matched_columns, total_columns) := st in
  let '(column_name, conditions) := field in
  let total_columns := S total_columns in
  match find_column_case_insensitive column_name (row_index row) with
  | Some actual_column =>
      match check (row_getitem row actual_column) conditions with
      | Ok true => Next (set_add column_name matched_columns, total_columns)
      | Ok false => Next (matched_columns, total_columns)
      | Raise => Raised
      end
  | None => Return false
  end.

(** Matching a row against a compiled rule. *)
Definition matches (row : Row) (pattern : processed_pattern) : result bool :=
  let st0 : progress := ([], O) in
  let after :=
    bind_flow
      (for_each (check_column _check_string_condition row)
         (string_fields pattern) st0)
      (fun st =>
    bind_flow
      (for_each (check_column _check_numeric_condition row)
         (numeric_fields pattern) st)
      (fun st =>
    bind_flow
      (for_each (check_column _check_date_condition row)
         (date_fields pattern) st)
      (fun st =>
      for_each (check_column _check_boolean_condition row)
         (boolean_fields pattern) st))) in
  match after with
  | Next (matched_columns, total_columns) =>
      Ok (Nat.eqb (List.length matched_columns) total_columns)
  | Return b => Ok b
  | Raised => Raise
  end.

Definition _check_row_matches_pattern
    (processed_patterns : Dict.t processed_pattern)
    (row : Row) (pattern_name : str) : result bool :=
  match Dict.get pattern_name processed_patterns with
  | None => Ok false
  | Some pattern => matches row pattern
  end.

(** ** Analyzer.apply_patterns *)

Definition DataFrame := list Row.

Record analyzer := {
  processed_patterns : Dict.t processed_pattern;
  results : Dict.t (Dict.t DataFrame);
  column_mapping : Dict.t (list str)
}.

(** The rows kept for one rule: an exception while checking a row is
    logged and the row is passed over. *)
Definition matching_rows (processed : Dict.t processed_pattern)
    (df : DataFrame) (pattern_name : str) : list Row :=
  filter
    (fun row =>
       match _check_row_matches_pattern processed row pattern_name with
       | Ok true => true
       | _ => false
       end)
    df.

(** [results[pattern_name][language] = rows] *)
Definition store_result (res : Dict.t (Dict.t DataFrame))
    (pattern_name language : str) (rows : DataFrame)
  : Dict.t (Dict.t DataFrame) :=
  match Dict.get pattern_name res with
  | Some by_language =>
      Dict.set pattern_name (Dict.set language rows by_language) res
  | None => res
  end.

Definition apply_language (processed : Dict.t processed_pattern)
    (pattern_names : list str) (res : Dict.t (Dict.t DataFrame))
    (entry : str * DataFrame) : Dict.t (Dict.t DataFrame) :=
  let '(language, df) := entry in
  fold_left
    (fun res pattern_name =>
       match matching_rows processed df pattern_name with
       | [] => res
       | rows => store_result res pattern_name language rows
       end)
    pattern_names res.

Definition apply_patterns (self : analyzer) (data : Dict.t DataFrame)
    (patterns : Dict.t raw_pattern) : analyzer :=
  let processed := _process_patterns (processed_patterns self) patterns in
  let res0 : Dict.t (Dict.t DataFrame) :=
    fold_left (fun res pattern_name => Dict.set pattern_name Dict.empty res)
      (Dict.keys patterns) Dict.empty in
  let mapping :=
    fold_left
      (fun cm item =>
         Dict.set (fst item)
           (map _normalize_column_name (Dict.keys (snd item))) cm)
      patterns (column_mapping self) in
  let res :=
    fold_left (apply_language processed (Dict.keys patterns)) data res0 in
  {| processed_patterns := processed;
     results := res;
     column_mapping := mapping |}.

End Analyzer.

(* ================================================================== *)
(** * The merger: DataReader.combine_data and remove_duplicates         *)
(* ================================================================== *)

(** The merger never looks inside a cell: cells are compared for identity
    only, a missing cell being identical to a missing cell. *)
Module Merger.
Section Frames.
Context {cell : Type}.
Variable cell_eq_dec : forall x y : cell, {x = y} + {x <> y}.
Variable nan : cell.

Definition Row := list (str * cell).

Record DataFrame := {
  columns : list str;
  rows : list Row
}.

(** The cell of a row under a label, missing when the row has none. *)
Fixpoint cell_at (label : str) (row : Row) : cell :=
  match row with
  | [] => nan
  | (l, c) :: row' => if str_eqb l label then c else cell_at label row'
  end.

Definition reindex (cols : list str) (row : Row) : Row :=
  map (fun c => (c, cell_at c row)) cols.

(** The union of the column lists, each column at its first
    appearance. *)
Definition union_columns (dfs : list DataFrame) : list str :=
  fold_left
    (fun acc df =>
       fold_left
         (fun acc c => if str_mem c acc then acc else acc ++ [c])
         (columns df) acc)
    dfs [].

(** [pd.concat(dfs, ignore_index=True, sort=False)] *)
Definition concat (dfs : list DataFrame) : DataFrame :=
  let cols := union_columns dfs in
  {| columns := cols;
     rows := map (reindex cols) (flat_map rows dfs) |}.

(** DataReader.combine_data *)
Definition combine_data (data_frames : list DataFrame) : DataFrame :=
  concat data_frames.

Definition metadata_cols : list str :=
  [py "_source_file"; py "_source_path"; py "_language"; py "_sheet_name"].

(** The cells of a row that decide whether it is a duplicate. *)
Definition key (subset : list str) (row : Row) : list cell :=
  map (fun c => cell_at c row) subset.

Definition key_eqb (k1 k2 : list cell) : bool :=
  if list_eq_dec cell_eq_dec k1 k2 then true else false.

(** [df.duplicated(subset, keep='first')]: a row is marked when an
    earlier row has the same cells in the columns of [subset]; [seen]
    holds the keys of the rows already read.  [subset] is not empty. *)
Fixpoint duplicated (subset : list str) (seen : list (list cell))
    (rs : list Row) : list bool :=
  match rs with
  | [] => []
  | r :: rs' =>
      let k := key subset r in
      existsb (key_eqb k) seen :: duplicated subset (k :: seen) rs'
  end.

(** [df.drop_duplicates(subset=subset, keep='first')]: the rows that are
    not marked, in their order. *)
Definition drop_duplicates (subset : list str) (df : DataFrame)
  : DataFrame :=
  {| columns := columns df;
     rows := map snd
               (filter (fun flagged => negb (fst flagged))
                  (combine (duplicated subset [] (rows df)) (rows df))) |}.

(** The rows that are not marked, [seen] being the keys of the rows
    already read. *)
Definition kept (subset : list str) (seen : list (list cell))
    (rs : list Row) : list Row :=
  map snd
    (filter (fun flagged => negb (fst flagged))
       (combine (duplicated subset seen rs) rs)).

(** DataReader.remove_duplicates with [subset=None]. *)
Definition non_metadata_columns (df : DataFrame) : list str :=
  filter (fun col => negb (str_mem col metadata_cols)) (columns df).

Definition remove_duplicates (combined_data : DataFrame) : DataFrame :=
  let subset := non_metadata_columns combined_data in
  drop_duplicates subset combined_data.

End Frames.
End Merger.

(* ================================================================== *)
(** * The runtime on U+0000..U+00FF                                     *)
(* ================================================================== *)

(** The tables of the Python runtime for text whose code points are below
    U+0100.  Numbers are the integers (which a float holds exactly below
    2^53) and [float_of_str] reads an optionally signed run of ASCII digits;
    dates are calendar days and [strptime_ymd] reads the zero-padded form
    [YYYY-MM-DD].  Nothing is said of other code points, literals or
    formats. *)
Module Latin1.

Definition isspace (c : N) : bool :=
  ((9 <=? c) && (c <=? 13)) || ((28 <=? c) && (c <=? 32))
  || (c =? 133) || (c =? 160).

Definition isdecimal (c : N) : bool := (48 <=? c) && (c <=? 57).

(** The canonical decompositions of the block: code point, base letter,
    combining mark (768 grave, 769 acute, 770 circumflex, 771 tilde,
    776 diaeresis, 778 ring above, 807 cedilla). *)
Definition decompositions : list (N * (N * N)) :=
  [ (192, (65, 768)); (193, (65, 769)); (194, (65, 770)); (195, (65, 771));
    (196, (65, 776)); (197, (65, 778)); (199, (67, 807));
    (200, (69, 768)); (201, (69, 769)); (202, (69, 770)); (203, (69, 776));
    (204, (73, 768)); (205, (73, 769)); (206, (73, 770)); (207, (73, 776));
    (209, (78, 771));
    (210, (79, 768)); (211, (79, 769)); (212, (79, 770)); (213, (79, 771));
    (214, (79, 776));
    (217, (85, 768)); (218, (85, 769)); (219, (85, 770)); (220, (85, 776));
    (221, (89, 769));
    (224, (97, 768)); (225, (97, 769)); (226, (97, 770)); (227, (97, 771));
    (228, (97, 776)); (229, (97, 778)); (231, (99, 807));
    (232, (101, 768)); (233, (101, 769)); (234, (101, 770));
    (235, (101, 776));
    (236, (105, 768)); (237, (105, 769)); (238, (105, 770));
    (239, (105, 776));
    (241, (110, 771));
    (242, (111, 768)); (243, (111, 769)); (244, (111, 770));
    (245, (111, 771)); (246, (111, 776));
    (249, (117, 768)); (250, (117, 769)); (251, (117, 770));
    (252, (117, 776));
    (253, (121, 769)); (255, (121, 776)) ].

Definition decompose (c : N) : str :=
  match find (fun e => fst e =? c) decompositions with
  | Some (_, (base, mark)) => [base; mark]
  | None => [c]
  end.

Definition nfd (s : str) : str := flat_map decompose s.

Definition combining (c : N) : N :=
  if existsb (N.eqb c) [768; 769; 770; 771; 776; 778] then 230
  else if c =? 807 then 202
  else 0.

Definition lower_char (c : N) : N :=
  if ((65 <=? c) && (c <=? 90))
     || ((192 <=? c) && (c <=? 222) && negb (c =? 215))
  then c + 32 else c.

Definition lower (s : str) : str := map lower_char s.

Definition digit_value (c : N) : Z := Z.of_N (c - 48).

Definition digits_value (ds : str) : Z :=
  fold_left (fun acc d => (10 * acc + digit_value d)%Z) ds 0%Z.

Definition all_digits (ds : str) : bool :=
  match ds with
  | [] => false
  | _ => forallb isdecimal ds
  end.

Definition float_of_str (s : str) : option Z :=
  match s with
  | 45 :: ds => if all_digits ds then Some (- digits_value ds)%Z else None
  | 43 :: ds => if all_digits ds then Some (digits_value ds) else None
  | ds => if all_digits ds then Some (digits_value ds) else None
  end.

Definition float_str (f : Z) : str :=
  py (NilZero.string_of_int (Z.to_int f)) ++ py ".0".

Definition date := (Z * Z * Z)%type.

Definition leap (y : Z) : bool :=
  ((y mod 4 =? 0) && negb (y mod 100 =? 0) || (y mod 400 =? 0))%Z.

Definition days_in_month (y m : Z) : Z :=
  if (m =? 2)%Z then (if leap y then 29 else 28)%Z
  else if existsb (Z.eqb m) [4; 6; 9; 11]%Z then 30%Z
  else 31%Z.

Definition strptime_ymd (s : str) : option date :=
  match s with
  | [y1; y2; y3; y4; 45; m1; m2; 45; d1; d2] =>
      if forallb isdecimal [y1; y2; y3; y4; m1; m2; d1; d2] then
        let y := digits_value [y1; y2; y3; y4] in
        let m := digits_value [m1; m2] in
        let d := digits_value [d1; d2] in
        if ((1 <=? y) && (1 <=? m) && (m <=? 12) && (1 <=? d)
            && (d <=? days_in_month y m))%Z
        then Some (y, m, d) else None
      else None
  | _ => None
  end.

Definition date_eqb (a b : date) : bool :=
  let '(y1, m1, d1) := a in
  let '(y2, m2, d2) := b in
  ((y1 =? y2) && (m1 =? m2) && (d1 =? d2))%Z.

Definition date_ltb (a b : date) : bool :=
  let '(y1, m1, d1) := a in
  let '(y2, m2, d2) := b in
  ((y1 <? y2) || (y1 =? y2) && ((m1 <? m2) || (m1 =? m2) && (d1 <? d2)))%Z.

Definition two_digits (z : Z) : str :=
  [N.of_nat 48 + Z.to_N (z / 10); N.of_nat 48 + Z.to_N (z mod 10)].

Definition date_str (a : date) : str :=
  let '(y, m, d) := a in
  two_digits (y / 100) ++ two_digits (y mod 100) ++ [45] ++ two_digits m
  ++ [45] ++ two_digits d ++ py " 00:00:00".

End Latin1.

#[export] Instance latin1 : PyRuntime := {|
  isspace := Latin1.isspace;
  isdecimal := Latin1.isdecimal;
  nfd := Latin1.nfd;
  combining := Latin1.combining;
  lower := Latin1.lower;
  float := Z;
  float_of_str := Latin1.float_of_str;
  float_of_int := fun z => z;
  float_eqb := Z.eqb;
  float_ltb := Z.ltb;
  float_isnan := fun _ => false;
  float_str := Latin1.float_str;
  datetime := Latin1.date;
  strptime_ymd := Latin1.strptime_ymd;
  datetime_eqb := Latin1.date_eqb;
  datetime_ltb := Latin1.date_ltb;
  datetime_str := Latin1.date_str;
  isspace_space := eq_refl;
  lower_empty := eq_refl
|}.

(* ================================================================== *)
(** * Vocabulary of the statements                                      *)
(* ================================================================== *)

Module Latin1Defs.

(** A character that the steps after the stripping leave as it is. *)
Definition stableb (c : N) : bool :=
  str_eqb (Latin1.decompose c) [c] && (Latin1.combining c =? 0)
  && negb (is_punctuation c) && (Latin1.lower_char c =? c).

(** What one character becomes after the decomposition, the two removals
    and the lowercasing. *)
Definition fold_char (c : N) : str :=
  map Latin1.lower_char
    (remove_punctuation
       (remove_combining (RT := latin1) (Latin1.decompose c))).

Definition block : list N := map N.of_nat (seq 0 256).

End Latin1Defs.

(** [a] occurs in [b] as a contiguous block. *)
Definition substring (a b : str) : Prop :=
  exists pre post, b = pre ++ a ++ post.

(** [' '.join(words)] *)
Fixpoint join_words (words : list str) : str :=
  match words with
  | [] => []
  | [w] => w
  | w :: words' => w ++ 32 :: join_words words'
  end.

Section Vocabulary.
Context {RT : PyRuntime}.

(** An evaluator that returns on every cell. *)
Definition returns_on_cells {C : Type} (check : value -> C -> result bool)
  : Prop :=
  forall cell conditions, exists b, check (Scalar cell) conditions = Ok b.

(** The rule column has no column in the row. *)
Definition absent (row : Row) (column_name : str) : Prop :=
  forall label, In label (row_index row) ->
    _normalize_column_name label <> _normalize_column_name column_name.

(** The four buckets of a compiled rule. *)
Inductive kind := KString | KNumeric | KDate | KBoolean.

Definition kind_eqb (a b : kind) : bool :=
  match a, b with
  | KString, KString | KNumeric, KNumeric
  | KDate, KDate | KBoolean, KBoolean => true
  | _, _ => false
  end.

Definition in_bucket (pattern : processed_pattern) (k : kind)
    (column : str) : bool :=
  match k with
  | KString => Dict.mem column (string_fields pattern)
  | KNumeric => Dict.mem column (numeric_fields pattern)
  | KDate => Dict.mem column (date_fields pattern)
  | KBoolean => Dict.mem column (boolean_fields pattern)
  end.

(** The buckets in which a column appears. *)
Definition buckets_of (pattern : processed_pattern) (column : str)
  : list kind :=
  filter (fun k => in_bucket pattern k column)
    [KString; KNumeric; KDate; KBoolean].

(** The bucket that the shape of the values of a column designates: the
    first value, as a string, has the shape of a date condition; else
    that of a numeric condition; else every value is a boolean; else the
    values are strings. *)
Definition bucket_of_values (values : list pyval) : kind :=
  match values with
  | [] => KString
  | first :: _ =>
      if _is_date_field (py_str first) then KDate
      else if _is_numeric_field (py_str first) then KNumeric
      else if forallb is_bool values then KBoolean
      else KString
  end.

(** The columns of a raw rule that have values. *)
Definition has_values (item : str * list pyval) : bool :=
  match snd item with [] => false | _ => true end.

Definition compiled_columns (pattern_data : raw_pattern) : list str :=
  map _normalize_column_name (Dict.keys (filter has_values pattern_data)).

End Vocabulary.

(** [l1] is [l2] with some elements left out, the others in their order. *)
Inductive Sublist {A : Type} : list A -> list A -> Prop :=
| Sublist_nil : Sublist [] []
| Sublist_skip (x : A) (l1 l2 : list A) :
    Sublist l1 l2 -> Sublist l1 (x :: l2)
| Sublist_keep (x : A) (l1 l2 : list A) :
    Sublist l1 l2 -> Sublist (x :: l1) (x :: l2).

(** Cells that hold a text or are missing, for concrete frames. *)
Definition text_cell := option str.

Definition text_cell_eq_dec (x y : text_cell) : {x = y} + {x <> y}.
Proof.
  decide equality. apply (list_eq_dec N.eq_dec).
Defined.

(* ================================================================== *)
(** * Vocabulary of the further properties                              *)
(* ================================================================== *)

Section MatchVocabulary.
Context {RT : PyRuntime}.

(** The columns that a compiled rule refers to, bucket after bucket. *)
Definition all_keys (pattern : processed_pattern) : list str :=
  Dict.keys (string_fields pattern) ++ Dict.keys (numeric_fields pattern)
  ++ Dict.keys (date_fields pattern) ++ Dict.keys (boolean_fields pattern).

(** The column of a bucket has a column in the row, and the evaluator of
    the bucket returns [True] on its cell. *)
Definition satisfied {C : Type} (check : value -> C -> result bool)
    (row : Row) (field : str * C) : Prop :=
  exists actual_column,
    find_column_case_insensitive (fst field) (row_index row)
    = Some actual_column
    /\ check (row_getitem row actual_column) (snd field) = Ok true.

Definition all_satisfied (row : Row) (pattern : processed_pattern) : Prop :=
  Forall (satisfied _check_string_condition row) (string_fields pattern)
  /\ Forall (satisfied _check_numeric_condition row) (numeric_fields pattern)
  /\ Forall (satisfied _check_date_condition row) (date_fields pattern)
  /\ Forall (satisfied _check_boolean_condition row)
       (boolean_fields pattern).

End MatchVocabulary.

Section CompilerVocabulary.
Context {RT : PyRuntime}.

(** The conditions of one column of a compiled rule. *)
Inductive compiled :=
| CString (values : list str)
| CNumeric (conditions : list numeric_condition)
| CDate (conditions : list date_condition)
| CBoolean (values : list bool).

(** The entry of a column in a bucket of a compiled rule. *)
Definition bucket_entry (pattern : processed_pattern) (k : kind)
    (column : str) : option compiled :=
  match k with
  | KString => option_map CString (Dict.get column (string_fields pattern))
  | KNumeric =>
      option_map CNumeric (Dict.get column (numeric_fields pattern))
  | KDate => option_map CDate (Dict.get column (date_fields pattern))
  | KBoolean =>
      option_map CBoolean (Dict.get column (boolean_fields pattern))
  end.

(** What the values of a column are compiled to, by the function of the
    bucket that they designate. *)
Definition compile_values (values : list pyval) : compiled :=
  match bucket_of_values values with
  | KString => CString (map _clean_pattern_text values)
  | KNumeric => CNumeric (_process_numeric_values values)
  | KDate => CDate (_process_date_values values)
  | KBoolean => CBoolean (bools_of values)
  end.

(** The conversion of a numeric condition raises. *)
Definition unparsable_number (v : pyval) : Prop :=
  match match_operator (py_str v) with
  | Some (_, num_str) => float_of_str num_str = None
  | None => py_float v = None
  end.

(** The conversion of a date condition raises. *)
Definition unparsable_date (v : pyval) : Prop :=
  match match_operator (py_str v) with
  | Some (_, date_str) => strptime_ymd date_str = None
  | None => match v with
            | PStr s => strptime_ymd s = None
            | _ => True
            end
  end.

End CompilerVocabulary.

Section EngineVocabulary.
Context {RT : PyRuntime}.

(** What one language contributes to the entry of a rule: its matching
    rows under its tag, and nothing when no row matches. *)
Definition language_entry (processed : Dict.t processed_pattern)
    (pattern_name : str) (entry : str * DataFrame)
  : list (str * DataFrame) :=
  match matching_rows processed (snd entry) pattern_name with
  | [] => []
  | rows => [(fst entry, rows)]
  end.

(** What one language does to the entry of a rule. *)
Definition update_entry (processed : Dict.t processed_pattern)
    (language : str) (df : DataFrame)
    (pattern_name : str) (by_language : Dict.t DataFrame)
  : Dict.t DataFrame :=
  match matching_rows processed df pattern_name with
  | [] => by_language
  | rows => Dict.set language rows by_language
  end.

End EngineVocabulary.

(* ================================================================== *)
(** * Analyzer.get_summary                                              *)
(* ================================================================== *)

Section Summary.
Context {RT : PyRuntime}.

(** The entry of a rule in [results_by_pattern]. *)
Record pattern_summary := {
  languages : list str;
  total_rows : nat;
  rows_by_language : Dict.t nat
}.

(** The dictionary returned by [get_summary].  [languages_searched] is
    built as a Python set and turned into a list: its order is not fixed,
    and only membership in it is meaningful. *)
Record summary := {
  total_patterns : nat;
  patterns_processed : list str;
  results_by_pattern : Dict.t pattern_summary;
  total_matching_rows : nat;
  languages_searched : list str
}.

(** The body of the loop over the languages of a rule; the state is
    [rows_by_language], [total_rows], [total_matching_rows] and
    [languages_searched]. *)
Definition count_language (st : Dict.t nat * nat * nat * list str)
    (entry : str * DataFrame) : Dict.t nat * nat * nat * list str :=
  let '(by_language, rows_of_rule, rows_of_all, searched) := st in
  let '(language, df) := entry in
  let row_count := List.length df in
  (Dict.set language row_count by_language,
   (rows_of_rule + row_count)%nat,
   (rows_of_all + row_count)%nat,
   set_add language searched).

(** The body of the loop over the rules; the state is
    [results_by_pattern], [total_matching_rows] and
    [languages_searched]. *)
Definition count_pattern (st : Dict.t pattern_summary * nat * list str)
    (rule : str * Dict.t DataFrame)
  : Dict.t pattern_summary * nat * list str :=
  let '(by_pattern, rows_of_all, searched) := st in
  let '(pattern_name, language_results) := rule in
  let '(by_language, rows_of_rule, rows_of_all, searched) :=
    fold_left count_language language_results
      (Dict.empty, O, rows_of_all, searched) in
  (Dict.set pattern_name
     {| languages := Dict.keys language_results;
        total_rows := rows_of_rule;
        rows_by_language := by_language |}
     by_pattern,
   rows_of_all, searched).

Definition get_summary (self : analyzer) : summary :=
  let '(by_pattern, rows_of_all, searched) :=
    fold_left count_pattern (results self) (Dict.empty, O, []) in
  {| total_patterns := List.length (results self);
     patterns_processed := Dict.keys (processed_patterns self);
     results_by_pattern := by_pattern;
     total_matching_rows := rows_of_all;
     languages_searched := searched |}.

(** The rows held by the entry of a rule. *)
Definition rows_in (language_results : Dict.t DataFrame) : nat :=
  list_sum (map (fun entry => List.length (snd entry)) language_results).

End Summary.

(* ================================================================== *)
(** * Sheet names: Writter._sanitize_sheet_name (analyzer) and           *)
(** * DataWriter._sanitize_sheet_name (merger)                          *)
(* ================================================================== *)

(** The characters that a sheet name may not hold: backslash, slash, star,
    question mark, colon and the two square brackets. *)
Definition invalid_chars : list N := py "\/*?:[]".

(** [s.replace(old, new)] for one-character [old] and [new]. *)
Definition replace (old new : N) (s : str) : str :=
  map (fun c => if c =? old then new else c) s.

(** The loop [for char in invalid_chars: s = s.replace(char, '_')]. *)
Definition replace_invalid (s : str) : str :=
  fold_left (fun s char => replace char 95 s) invalid_chars s.

(** What the loop does to one character. *)
Definition clean_char (c : N) : N :=
  if existsb (N.eqb c) invalid_chars then 95 else c.

Module Writter.

Definition _sanitize_sheet_name (name : str) : str :=
  let sanitized := replace_invalid name in
  if Nat.ltb 31 (List.length sanitized)
  then firstn 28 sanitized ++ py "..."
  else sanitized.

End Writter.

Module DataWriter.

Definition _sanitize_sheet_name (sheet_name : str) : str :=
  let sheet_name :=
    if Nat.ltb 31 (List.length sheet_name)
    then firstn 31 sheet_name
    else sheet_name in
  replace_invalid sheet_name.

(** The frames that the merger writes.  [text s] is the cell that holds
    the text [s]. *)
Section Frames.
Context {cell : Type}.
Variable nan : cell.
Variable text : str -> cell.

(** [df.empty]: no column or no row. *)
Definition empty (df : @Merger.DataFrame cell) : bool :=
  match Merger.columns df, Merger.rows df with
  | [], _ => true
  | _, [] => true
  | _, _ => false
  end.

(** [df[col] = value] for a column that [df] does not have: the column
    is added after the others. *)
Definition add_column (col : str) (value : cell)
    (df : @Merger.DataFrame cell) : @Merger.DataFrame cell :=
  {| Merger.columns := Merger.columns df ++ [col];
     Merger.rows := map (fun row => row ++ [(col, value)])
                      (Merger.rows df) |}.

(** [df[cols]] for columns that [df] has. *)
Definition select (cols : list str) (df : @Merger.DataFrame cell)
  : @Merger.DataFrame cell :=
  {| Merger.columns := cols;
     Merger.rows := map (Merger.reindex nan cols) (Merger.rows df) |}.

Definition get_column_order
    (language_data : Dict.t (@Merger.DataFrame cell)) : list str :=
  match language_data with
  | [] => []
  | (_, first_df) :: _ =>
      let original_cols :=
        filter (fun col => negb (str_mem col Merger.metadata_cols))
          (Merger.columns first_df) in
      original_cols ++ Merger.metadata_cols
  end.

Definition prepare_dataframe_for_writing (df : @Merger.DataFrame cell)
    (column_order : list str) : @Merger.DataFrame cell :=
  let prepared_df :=
    fold_left
      (fun prepared_df col =>
         if negb (str_mem col (Merger.columns prepared_df))
         then add_column col (text []) prepared_df
         else prepared_df)
      column_order df in
  let existing_cols :=
    filter (fun col => str_mem col (Merger.columns prepared_df))
      column_order in
  select existing_cols prepared_df.

(** The frames of [all_dfs] in [_write_all_tab]. *)
Definition all_dfs (language_data : Dict.t (@Merger.DataFrame cell))
  : list (@Merger.DataFrame cell) :=
  flat_map
    (fun entry =>
       let '(language, df) := entry in
       if negb (empty df)
       then
         [if negb (str_mem (py "_language") (Merger.columns df))
          then add_column (py "_language") (text language) df
          else df]
       else [])
    language_data.

(** The sheets written by [_write_all_tab]. *)
Definition _write_all_tab
    (language_data : Dict.t (@Merger.DataFrame cell))
    (column_order : list str) : list (str * @Merger.DataFrame cell) :=
  match all_dfs language_data with
  | [] => []
  | dfs =>
      let combined_df := Merger.concat nan dfs in
      [(py "all", prepare_dataframe_for_writing combined_df column_order)]
  end.

(** The sheets of the languages: the body of the loop of
    [write_to_excel] over the languages. *)
Definition language_tabs
    (language_data : Dict.t (@Merger.DataFrame cell))
    (column_order : list str) : list (str * @Merger.DataFrame cell) :=
  flat_map
    (fun entry =>
       let '(language, df) := entry in
       if empty df then []
       else [(_sanitize_sheet_name language,
              prepare_dataframe_for_writing df column_order)])
    language_data.

(** The sheets written by [write_to_excel], as the calls of [to_excel]
    in their order: the name of the sheet and the frame.  [None] stands
    for the return of the empty path, without a file: for no data, for
    no column order, and when no sheet has been written, since a
    workbook without a sheet cannot be saved: leaving the [with] block
    raises, and the exception is caught. *)
Definition write_to_excel
    (language_data : Dict.t (@Merger.DataFrame cell))
    (include_all_tab : bool)
  : option (list (str * @Merger.DataFrame cell)) :=
  match language_data with
  | [] => None
  | _ =>
      match get_column_order language_data with
      | [] => None
      | column_order =>
          let sheets :=
            language_tabs language_data column_order
            ++ (if include_all_tab
                then _write_all_tab language_data column_order
                else []) in
          match sheets with
          | [] => None
          | _ => Some sheets
          end
      end
  end.

End Frames.

End DataWriter.

(** A name that a sheet may bear as far as the two functions look: at most
    31 characters, none of them invalid. *)
Definition valid_sheet_name (s : str) : Prop :=
  (List.length s <= 31)%nat /\ forall c, In c s -> ~ In c invalid_chars.

(* ================================================================== *)
(** * The order of the columns in the files that are written            *)
(* ================================================================== *)

(** Writter.write_analysis_results: the columns of the sheet of a rule.
    The columns of the rule that the data has come first, in the order of
    the rule, then the columns of the data that are not yet listed. *)
Definition final_columns (original_columns df_columns : list str)
  : list str :=
  let final_columns :=
    fold_left
      (fun final_columns col =>
         if str_mem col df_columns then final_columns ++ [col]
         else final_columns)
      original_columns [] in
  fold_left
    (fun final_columns col =>
       if negb (str_mem col final_columns) then final_columns ++ [col]
       else final_columns)
    df_columns final_columns.

(** Analyzer.save_results: the columns of the file of a rule and a
    language, [pattern_columns] being the column mapping of the rule. *)
Definition save_columns (pattern_columns df_columns : list str) : list str :=
  let existing_columns :=
    filter (fun col => str_mem col df_columns) pattern_columns in
  let other_columns :=
    filter (fun col => negb (str_mem col pattern_columns)) df_columns in
  existing_columns ++ other_columns.

(* ================================================================== *)
(** * The merger: the numbers kept by DataReader.remove_duplicates      *)
(* ================================================================== *)

Module DataReader.
Section Stats.
Context {cell : Type}.
Variable cell_eq_dec : forall x y : cell, {x = y} + {x <> y}.
Variable nan : cell.

(** [self.duplicate_stats]; the numbers are Python integers. *)
Record stats := {
  initial_rows : Z;
  final_rows : Z;
  duplicates_removed : Z
}.

(** [self.duplicate_stats] after [remove_duplicates()] on the combined
    data. *)
Definition duplicate_stats (combined_data : @Merger.DataFrame cell)
  : stats :=
  let initial_rows :=
    Z.of_nat (List.length (Merger.rows combined_data)) in
  let out := Merger.remove_duplicates cell_eq_dec nan combined_data in
  let final_rows := Z.of_nat (List.length (Merger.rows out)) in
  {| initial_rows := initial_rows;
     final_rows := final_rows;
     duplicates_removed := (initial_rows - final_rows)%Z |}.

End Stats.
End DataReader.

(* ================================================================== *)
(** * Strings, sets and dictionaries                                    *)
(* ================================================================== *)

Lemma str_eqb_eq (a b : str) : str_eqb a b = true <-> a = b.
Proof.
  revert b; induction a as [|x a IH]; intros [|y b]; simpl;
    try (split; [discriminate | congruence]); try tauto.
  rewrite andb_true_iff, N.eqb_eq, IH.
  split; [intros [-> ->]; reflexivity | intros H; inversion H; auto].
Qed.

Lemma str_eqb_refl (a : str) : str_eqb a a = true.
Proof. apply str_eqb_eq; reflexivity. Qed.

Lemma str_eqb_neq (a b : str) : str_eqb a b = false <-> a <> b.
Proof.
  rewrite <- str_eqb_eq. destruct (str_eqb a b); split; congruence.
Qed.

Lemma str_mem_In (x : str) (xs : list str) : str_mem x xs = true <-> In x xs.
Proof.
  unfold str_mem. rewrite existsb_exists. split.
  - intros (y & Hy & E). apply str_eqb_eq in E. subst; assumption.
  - intros H. exists x. split; [assumption | apply str_eqb_refl].
Qed.

Lemma str_mem_not_In (x : str) (xs : list str) :
  str_mem x xs = false <-> ~ In x xs.
Proof.
  rewrite <- str_mem_In. destruct (str_mem x xs); split; congruence.
Qed.

Lemma startswith_spec (a b : str) :
  startswith b a = true <-> exists post, b = a ++ post.
Proof.
  revert b; induction a as [|x a IH]; intros b.
  - destruct b; simpl; split; eauto.
  - destruct b as [|y b]; simpl.
    + split; [discriminate | intros [post H]; discriminate].
    + rewrite andb_true_iff, N.eqb_eq, IH. split.
      * intros [-> [post ->]]. exists post; reflexivity.
      * intros [post H]. inversion H; subst. split; eauto.
Qed.

(** The executable [in] is the occurrence of a contiguous block. *)
Lemma str_in_spec (a b : str) :
  str_in a b = true <-> exists pre post, b = pre ++ a ++ post.
Proof.
  induction b as [|y b IH].
  - change (str_in a []) with (startswith [] a || false).
    rewrite orb_false_r, startswith_spec. split.
    + intros [post H]. exists [], post. assumption.
    + intros (pre & post & H). destruct pre; simpl in H.
      * eauto.
      * discriminate.
  - change (str_in a (y :: b)) with (startswith (y :: b) a || str_in a b).
    rewrite orb_true_iff, startswith_spec, IH. split.
    + intros [[post H] | (pre & post & H)].
      * exists [], post. assumption.
      * exists (y :: pre), post. simpl. congruence.
    + intros (pre & post & H). destruct pre as [|z pre]; simpl in H.
      * left. eauto.
      * right. inversion H; subst. eauto.
Qed.

(* ================================================================== *)
(** * TextNormalizer                                                    *)
(* ================================================================== *)

Section TextFacts.
Context {RT : PyRuntime}.

Lemma lstrip_Forall (P : N -> Prop) (s : str) :
  Forall P s -> Forall P (lstrip s).
Proof.
  induction 1 as [|c r Hc Hr IH]; simpl; [constructor|].
  destruct (isspace c); [assumption | constructor; assumption].
Qed.

Lemma strip_Forall (P : N -> Prop) (s : str) :
  Forall P s -> Forall P (strip s).
Proof.
  intros H. unfold strip, rstrip.
  apply Forall_rev, lstrip_Forall, Forall_rev, lstrip_Forall, H.
Qed.

Lemma lstrip_head (s : str) (c : N) (r : str) :
  lstrip s = c :: r -> isspace c = false.
Proof.
  induction s as [|d s IH]; simpl; [discriminate|].
  destruct (isspace d) eqn:E; [exact IH|].
  intros H. inversion H; subst. exact E.
Qed.

Lemma lstrip_spec (s : str) :
  exists pre, s = pre ++ lstrip s /\ Forall (fun c => isspace c = true) pre.
Proof.
  induction s as [|c r (pre & E & H)]; simpl.
  - exists []. split; [reflexivity | constructor].
  - destruct (isspace c) eqn:Ec.
    + exists (c :: pre). split; [simpl; congruence | constructor; assumption].
    + exists []. split; [reflexivity | constructor].
Qed.

Lemma rstrip_spec (s : str) :
  exists post,
    s = rstrip s ++ post /\ Forall (fun c => isspace c = true) post.
Proof.
  destruct (lstrip_spec (rev s)) as (pre & E & H).
  exists (rev pre). split; [|apply Forall_rev, H].
  unfold rstrip. rewrite <- rev_app_distr, <- E, rev_involutive.
  reflexivity.
Qed.

(** [strip] removes a block of whitespace at each end, and what is left
    neither begins nor ends with whitespace. *)
Lemma strip_spec (s : str) :
  (exists pre post,
      s = pre ++ strip s ++ post
      /\ Forall (fun c => isspace c = true) pre
      /\ Forall (fun c => isspace c = true) post)
  /\ (forall c r, strip s = c :: r -> isspace c = false)
  /\ (forall r c, strip s = r ++ [c] -> isspace c = false).
Proof.
  destruct (lstrip_spec s) as (pre & E1 & H1).
  destruct (rstrip_spec (lstrip s)) as (post & E2 & H2).
  fold (strip s) in E2. split; [|split].
  - exists pre, post. rewrite <- E2. auto.
  - intros c r E. rewrite E in E2. simpl in E2.
    apply (lstrip_head s c (r ++ post)). exact E2.
  - intros r c E. unfold strip, rstrip in E.
    apply (f_equal (@rev N)) in E.
    rewrite rev_involutive, rev_app_distr in E. simpl in E.
    apply (lstrip_head _ _ _ E).
Qed.

Lemma remove_punctuation_In (s : str) (c : N) :
  In c (remove_punctuation s) <-> In c s /\ is_punctuation c = false.
Proof.
  unfold remove_punctuation. rewrite filter_In, negb_true_iff. tauto.
Qed.

Lemma remove_punctuation_all (s : str) :
  Forall (fun c => is_punctuation c = true) s -> remove_punctuation s = [].
Proof.
  induction 1 as [|c r Hc Hr IH]; simpl; [reflexivity|].
  rewrite Hc. simpl. exact IH.
Qed.

(** A value made of removed punctuation only is cleaned to the empty
    pattern. *)
Lemma clean_pattern_text_punctuation (s : str) :
  Forall (fun c => is_punctuation c = true) s ->
  _clean_pattern_text (PStr s) = [].
Proof.
  intros H. unfold _clean_pattern_text.
  destruct (negb (truthy (PStr s))); [reflexivity|].
  apply remove_punctuation_all. simpl. apply strip_Forall, H.
Qed.

End TextFacts.

Lemma is_punctuation_spec (c : N) :
  is_punctuation c = true <-> In c (py ".,!?;:()[]{}'-" ++ [34]).
Proof.
  unfold is_punctuation. rewrite existsb_exists. split.
  - intros (x & Hx & E). apply N.eqb_eq in E. subst x.
    vm_compute in Hx |- *. tauto.
  - intros H. exists c. split; [|apply N.eqb_refl].
    vm_compute in H |- *. tauto.
Qed.

(** C5: for a value that Python holds true, [normalize_for_comparison] is,
    in this order, the coercion to a string, the stripping of surrounding
    whitespace, the canonical decomposition, the removal of the combining
    marks, the removal of the punctuation . , ! ? ; : ( ) [ ] { } and the
    two quotes and the hyphen, and the lowercasing; every value that Python
    holds false gives the empty string: the empty string and the null
    value, and also the numbers 0 and 0.0 and the boolean False; the two
    examples of the specification evaluate as stated. *)
Theorem normalize_for_comparison_steps :
  (forall (RT : PyRuntime) (text : pyval),
      _normalize_text_for_comparison text =
      if truthy text
      then lower (remove_punctuation (remove_combining
                    (nfd (strip (py_str text)))))
      else [])
  /\ (forall (RT : PyRuntime),
         _normalize_text_for_comparison (PStr []) = []
         /\ _normalize_text_for_comparison PNone = [])
  /\ (forall (RT : PyRuntime) (s : str),
         (exists pre post,
             s = pre ++ strip s ++ post
             /\ Forall (fun c => isspace c = true) pre
             /\ Forall (fun c => isspace c = true) post)
         /\ (forall c r, strip s = c :: r -> isspace c = false)
         /\ (forall r c, strip s = r ++ [c] -> isspace c = false))
  /\ (forall (s : str) (c : N),
         In c (remove_punctuation s) <->
         In c s /\ ~ In c (py ".,!?;:()[]{}'-" ++ [34]))
  /\ (forall (RT : PyRuntime) (s : str) (c : N),
         In c (remove_combining s) <-> In c s /\ combining c = 0)
  /\ _normalize_text_for_comparison (RT := latin1) (PStr (py "Café!"))
     = py "cafe"
  /\ _normalize_text_for_comparison (RT := latin1)
       (PStr (py "  HELLO, World.  "))
     = py "hello world".
Proof.
  split; [|split; [|split; [|split; [|split; [|split]]]]].
  - intros RT text. unfold _normalize_text_for_comparison.
    destruct (truthy text); reflexivity.
  - intros RT. split; reflexivity.
  - intros RT s. apply strip_spec.
  - intros s c. rewrite remove_punctuation_In, <- is_punctuation_spec.
    destruct (is_punctuation c); intuition congruence.
  - intros RT s c. unfold remove_combining.
    rewrite filter_In, N.eqb_eq. tauto.
  - vm_compute. reflexivity.
  - vm_compute. reflexivity.
Qed.

Lemma normalize_for_comparison_steps_witness :
  isspace (PyRuntime := latin1) 97 = false
  /\ isspace (PyRuntime := latin1) 122 = false.
Proof.
  destruct normalize_for_comparison_steps as (_ & _ & Hstrip & _).
  destruct (Hstrip latin1 (py "  az ")) as (_ & Hfirst & Hlast).
  split.
  - apply (Hfirst 97 [122]). reflexivity.
  - apply (Hlast [97] 122). reflexivity.
Defined.

(** C5, counterexample: the number 0 and the boolean False are neither
    empty nor null, and the steps take them to the texts 0 and false; the
    function returns the empty string for both, because it returns before
    the coercion for every value that Python holds false. *)
Lemma normalize_false_values_are_empty :
  _normalize_text_for_comparison (RT := latin1) (PInt 0) = []
  /\ lower (PyRuntime := latin1)
       (remove_punctuation
          (remove_combining (nfd (strip (py_str (RT := latin1) (PInt 0))))))
     = py "0"
  /\ _normalize_text_for_comparison (RT := latin1) (PBool false) = []
  /\ lower (PyRuntime := latin1)
       (remove_punctuation
          (remove_combining
             (nfd (strip (py_str (RT := latin1) (PBool false))))))
     = py "false"
  /\ pd_isna (RT := latin1) (PInt 0) = false
  /\ pd_isna (RT := latin1) (PBool false) = false.
Proof.
  repeat split; vm_compute; reflexivity.
Qed.

(** ** Re-normalization on U+0000..U+00FF *)

Module Latin1Facts.
Import Latin1Defs.

Lemma block_In (c : N) : c < 256 -> In c block.
Proof.
  intros H. unfold block. apply in_map_iff. exists (N.to_nat c).
  split; [apply N2Nat.id|]. apply in_seq. lia.
Qed.

Lemma fold_char_stable (c : N) :
  c < 256 -> forallb stableb (fold_char c) = true.
Proof.
  intros H. apply block_In in H. revert c H. apply forallb_forall.
  vm_compute. reflexivity.
Qed.

Lemma fold_text (s : str) :
  lower (remove_punctuation (remove_combining (nfd s)))
  = flat_map fold_char s.
Proof.
  induction s as [|c r IH]; [reflexivity|].
  simpl flat_map. rewrite <- IH.
  change (nfd (c :: r)) with (Latin1.decompose c ++ nfd r).
  unfold remove_combining, remove_punctuation, fold_char.
  rewrite !filter_app.
  change (@lower latin1) with (map Latin1.lower_char).
  rewrite map_app. reflexivity.
Qed.

Lemma fold_text_stable (s : str) :
  Forall (fun c => c < 256) s ->
  Forall (fun c => stableb c = true) (flat_map fold_char s).
Proof.
  induction 1 as [|c r Hc Hr IH]; simpl; [constructor|].
  apply Forall_app. split; [|exact IH].
  apply Forall_forall. apply forallb_forall. apply fold_char_stable, Hc.
Qed.

Lemma stable_fixed (s : str) :
  Forall (fun c => stableb c = true) s -> flat_map fold_char s = s.
Proof.
  induction 1 as [|c r Hc Hr IH]; simpl; [reflexivity|].
  rewrite IH. unfold stableb in Hc.
  rewrite !andb_true_iff, negb_true_iff, str_eqb_eq, !N.eqb_eq in Hc.
  destruct Hc as [[[Hd Hm] Hp] Hl].
  unfold fold_char, remove_combining, remove_punctuation.
  rewrite Hd. simpl filter.
  change (@combining latin1 c) with (Latin1.combining c).
  rewrite Hm. simpl. rewrite Hp. simpl. rewrite Hl. reflexivity.
Qed.

(** Normalizing a normalized text only strips it. *)
Lemma renormalize (text : pyval) :
  Forall (fun c => c < 256) (py_str text) ->
  _normalize_text_for_comparison (PStr (_normalize_text_for_comparison text))
  = strip (_normalize_text_for_comparison text).
Proof.
  intros H.
  assert (St : Forall (fun c => stableb c = true)
                 (_normalize_text_for_comparison text)).
  { unfold _normalize_text_for_comparison.
    destruct (negb (truthy text)); [constructor|].
    rewrite fold_text. apply fold_text_stable, strip_Forall, H. }
  destruct (_normalize_text_for_comparison text) as [|c r] eqn:E;
    [reflexivity|].
  unfold _normalize_text_for_comparison at 1. simpl negb. cbv iota.
  simpl py_str. rewrite fold_text.
  apply stable_fixed, strip_Forall, St.
Qed.

End Latin1Facts.

(** C4, as the code has it: on text of the block U+0000..U+00FF, a second
    normalization only strips the whitespace that the removal of
    punctuation and of combining marks has uncovered at the ends; so the
    normalization of [t] is a fixed point exactly when it has no leading or
    trailing whitespace. *)
Theorem normalize_idempotent_when_stripped (text : pyval (RT := latin1)) :
  Forall (fun c => c < 256) (py_str text) ->
  _normalize_text_for_comparison (PStr (_normalize_text_for_comparison text))
  = strip (_normalize_text_for_comparison text)
  /\ (_normalize_text_for_comparison
        (PStr (_normalize_text_for_comparison text))
      = _normalize_text_for_comparison text
      <-> strip (_normalize_text_for_comparison text)
          = _normalize_text_for_comparison text).
Proof.
  intros H. rewrite (Latin1Facts.renormalize text H). tauto.
Qed.

Lemma normalize_idempotent_when_stripped_witness :
  _normalize_text_for_comparison (RT := latin1)
    (PStr (_normalize_text_for_comparison (PStr (py "  Café,  NOIR! "))))
  = _normalize_text_for_comparison (PStr (py "  Café,  NOIR! ")).
Proof.
  apply (proj2 (normalize_idempotent_when_stripped
                  (PStr (py "  Café,  NOIR! "))
                  ltac:(vm_compute; repeat constructor))).
  vm_compute. reflexivity.
Defined.

(** C4 as stated fails: the period of [". a"] is removed after the
    stripping, which leaves a leading space that a second normalization
    strips. *)
Lemma normalize_not_idempotent :
  _normalize_text_for_comparison (RT := latin1) (PStr (py ". a")) = py " a"
  /\ _normalize_text_for_comparison (RT := latin1)
       (PStr (_normalize_text_for_comparison (PStr (py ". a")))) = py "a"
  /\ _normalize_text_for_comparison (RT := latin1)
       (PStr (_normalize_text_for_comparison (PStr (py ". a"))))
     <> _normalize_text_for_comparison (PStr (py ". a")).
Proof.
  split; [|split]; vm_compute; [reflexivity | reflexivity | discriminate].
Qed.

(* ================================================================== *)
(** * Column names                                                      *)
(* ================================================================== *)

Section ColumnFacts.
Context {RT : PyRuntime}.

Lemma rstrip_snoc (x : str) (c : N) :
  rstrip (x ++ [c]) = if isspace c then rstrip x else x ++ [c].
Proof.
  unfold rstrip. rewrite rev_app_distr. simpl.
  destruct (isspace c); [reflexivity|].
  simpl. rewrite rev_involutive. reflexivity.
Qed.

Lemma rstrip_app (u x : str) :
  rstrip x <> [] -> rstrip (u ++ x) = u ++ rstrip x.
Proof.
  induction x as [|c y IH] using rev_ind; intros H.
  - exfalso. apply H. reflexivity.
  - rewrite app_assoc, !rstrip_snoc in *.
    destruct (isspace c); [apply IH, H|].
    rewrite app_assoc. reflexivity.
Qed.

Lemma rstrip_cons (c : N) (y : str) :
  isspace c = false -> rstrip (c :: y) = c :: rstrip y.
Proof.
  intros Hc. induction y as [|d z IH] using rev_ind.
  - change [c] with ([] ++ [c]). rewrite rstrip_snoc, Hc. reflexivity.
  - change (c :: z ++ [d]) with ((c :: z) ++ [d]).
    rewrite !rstrip_snoc. destruct (isspace d); [exact IH | reflexivity].
Qed.

Lemma lstrip_collapse (b : bool) (s : str) :
  lstrip (collapse_whitespace b s) = collapse_whitespace false (lstrip s).
Proof.
  revert b. induction s as [|c r IH]; intros b; simpl; [reflexivity|].
  destruct (isspace c) eqn:E.
  - destruct b; simpl; [|rewrite isspace_space]; apply IH.
  - simpl. rewrite E. reflexivity.
Qed.

Lemma split_lstrip (s : str) : split_from [] s = split_from [] (lstrip s).
Proof.
  induction s as [|c r IH]; simpl; [reflexivity|].
  destruct (isspace c) eqn:E; [exact IH|].
  simpl. rewrite E. reflexivity.
Qed.

Lemma split_from_word (c : N) (cur s : str) : split_from (c :: cur) s <> [].
Proof.
  revert c cur. induction s as [|d r IH]; intros c cur; simpl.
  - discriminate.
  - destruct (isspace d); [discriminate | apply IH].
Qed.

(** The two states of the scan: inside a word whose characters read so
    far are [cur], and after a run of whitespace that follows the text
    [pre]. *)
Lemma collapse_split (s : str) :
  (forall (c0 : N) (cur : str),
      isspace c0 = false ->
      rstrip (rev (c0 :: cur) ++ collapse_whitespace false s)
      = join_words (split_from (c0 :: cur) s))
  /\ (forall pre : str,
         rstrip (pre ++ 32 :: collapse_whitespace true s)
         = match split_from [] s with
           | [] => rstrip pre
           | words => pre ++ 32 :: join_words words
           end).
Proof.
  induction s as [|c r [IH1 IH2]]; split.
  - intros c0 cur H0. simpl collapse_whitespace. rewrite app_nil_r.
    simpl rev. rewrite rstrip_snoc, H0. reflexivity.
  - intros pre. simpl. rewrite rstrip_snoc, isspace_space. reflexivity.
  - intros c0 cur H0. simpl collapse_whitespace. simpl split_from.
    destruct (isspace c) eqn:E.
    + rewrite IH2. destruct (split_from [] r) eqn:W.
      * simpl rev. rewrite rstrip_snoc, H0. reflexivity.
      * reflexivity.
    + specialize (IH1 c (c0 :: cur) E).
      simpl rev in IH1 |- *. rewrite <- IH1.
      rewrite <- !app_assoc. reflexivity.
  - intros pre. simpl collapse_whitespace. simpl split_from.
    destruct (isspace c) eqn:E; [apply IH2|].
    specialize (IH1 c [] E). simpl rev in IH1. simpl app in IH1.
    destruct (split_from [c] r) eqn:W;
      [exfalso; exact (split_from_word c [] r W)|].
    rewrite <- IH1.
    change (pre ++ 32 :: c :: collapse_whitespace false r)
      with (pre ++ [32] ++ (c :: collapse_whitespace false r)).
    rewrite app_assoc, rstrip_app.
    * rewrite <- app_assoc. reflexivity.
    * rewrite rstrip_cons by exact E. discriminate.
Qed.

(** Collapsing the runs of whitespace and stripping leaves the words,
    separated by single spaces. *)
Lemma strip_collapse (s : str) :
  strip (collapse_whitespace false s) = join_words (split s).
Proof.
  unfold strip, split. rewrite lstrip_collapse, split_lstrip.
  destruct (lstrip s) as [|c r] eqn:E; [reflexivity|].
  apply lstrip_head in E.
  simpl collapse_whitespace. rewrite E. simpl split_from. rewrite E.
  exact (proj1 (collapse_split r) c [] E).
Qed.

Lemma normalize_column_name_words (name : str) :
  _normalize_column_name name
  = apply_mappings column_mappings (join_words (split (lower name))).
Proof.
  unfold _normalize_column_name. destruct name as [|c r].
  - rewrite lower_empty. reflexivity.
  - rewrite strip_collapse. reflexivity.
Qed.

Lemma find_column_spec (column_name : str) (index : list str) :
  match find_column_case_insensitive column_name index with
  | Some col =>
      exists before after,
        index = before ++ col :: after
        /\ _normalize_column_name col = _normalize_column_name column_name
        /\ forall other, In other before ->
             _normalize_column_name other
             <> _normalize_column_name column_name
  | None =>
      forall other, In other index ->
        _normalize_column_name other <> _normalize_column_name column_name
  end.
Proof.
  unfold find_column_case_insensitive.
  induction index as [|col rest IH]; simpl.
  - intros other [].
  - destruct (str_eqb (_normalize_column_name col)
                (_normalize_column_name column_name)) eqn:E.
    + exists [], rest. apply str_eqb_eq in E.
      split; [reflexivity | split; [exact E | intros other []]].
    + apply str_eqb_neq in E.
      destruct (find _ rest) as [found|].
      * destruct IH as (before & after & -> & Hn & Hb).
        exists (col :: before), after. repeat split; auto.
        intros other [<- | Ho]; auto.
      * intros other [<- | Ho]; auto.
Qed.

Lemma find_column_none (column_name : str) (index : list str) :
  find_column_case_insensitive column_name index = None <->
  forall other, In other index ->
    _normalize_column_name other <> _normalize_column_name column_name.
Proof.
  pose proof (find_column_spec column_name index) as H.
  destruct (find_column_case_insensitive column_name index) as [col|].
  - destruct H as (before & after & -> & Hn & _). split; [discriminate|].
    intros Hall. exfalso. apply (Hall col); [|exact Hn].
    apply in_or_app. right. left. reflexivity.
  - tauto.
Qed.

Lemma find_column_In (column_name : str) (index : list str) (col : str) :
  find_column_case_insensitive column_name index = Some col -> In col index.
Proof.
  unfold find_column_case_insensitive. intros H.
  apply find_some in H. tauto.
Qed.

End ColumnFacts.

(** C7, as the code has it: the row column of a rule column is the first
    label of the row whose [normalize_column_name] equals that of the rule
    column, and there is none exactly when no label has that normalized
    name; two names with the same words after lowercasing (they differ in
    case or in the whitespace around and between the words only) have the
    same normalized name, so that each is found for the other.  Accents are
    not folded by this function. *)
Theorem find_column_case_and_whitespace (RT : PyRuntime) :
  (forall (column_name : str) (index : list str),
      match find_column_case_insensitive column_name index with
      | Some col =>
          exists before after,
            index = before ++ col :: after
            /\ _normalize_column_name col = _normalize_column_name column_name
            /\ forall other, In other before ->
                 _normalize_column_name other
                 <> _normalize_column_name column_name
      | None =>
          forall other, In other index ->
            _normalize_column_name other <> _normalize_column_name column_name
      end)
  /\ (forall a b : str,
         split (lower a) = split (lower b) ->
         _normalize_column_name a = _normalize_column_name b
         /\ find_column_case_insensitive a [b] = Some b).
Proof.
  split; [apply find_column_spec|].
  intros a b H.
  assert (E : _normalize_column_name a = _normalize_column_name b).
  { rewrite !normalize_column_name_words, H. reflexivity. }
  split; [exact E|].
  unfold find_column_case_insensitive. simpl. rewrite E, str_eqb_refl.
  reflexivity.
Qed.

(** C7 as stated fails for accents: the names differ in an accent only, and
    the row column is not found. *)
Lemma find_column_accent_sensitive :
  remove_combining (RT := latin1) (nfd (py "género")) = py "genero"
  /\ remove_combining (RT := latin1) (nfd (py "genero")) = py "genero"
  /\ find_column_case_insensitive (RT := latin1) (py "genero") [py "género"]
     = None.
Proof.
  split; [|split]; vm_compute; reflexivity.
Qed.

Lemma find_column_case_and_whitespace_witness :
  _normalize_column_name (RT := latin1) (py "  Tweet   ID ")
  = _normalize_column_name (py "tweet id")
  /\ find_column_case_insensitive (RT := latin1) (py "  Tweet   ID ")
       [py "tweet id"] = Some (py "tweet id").
Proof.
  apply (proj2 (find_column_case_and_whitespace latin1)).
  vm_compute. reflexivity.
Defined.

(* ================================================================== *)
(** * RowMatcher                                                        *)
(* ================================================================== *)

Section MatchFacts.
Context {RT : PyRuntime}.

(** A label that occurs once in the row selects a cell. *)
Lemma row_getitem_scalar (row : Row) (label : str) :
  NoDup (row_index row) -> In label (row_index row) ->
  exists cell, row_getitem row label = Scalar cell.
Proof.
  unfold row_getitem, row_index.
  induction row as [|[l c] row IH]; simpl; intros Hnd Hin; [contradiction|].
  inversion Hnd as [|? ? Hnotin Hnd']; subst.
  destruct (str_eqb l label) eqn:E.
  - apply str_eqb_eq in E. subst l.
    assert (F : filter (fun item => str_eqb (fst item) label) row = []).
    { clear -Hnotin. induction row as [|[l' c'] row IH]; simpl;
        [reflexivity|].
      simpl in Hnotin.
      destruct (str_eqb l' label) eqn:E.
      - apply str_eqb_eq in E. tauto.
      - apply IH. tauto. }
    rewrite F. eauto.
  - apply str_eqb_neq in E. destruct Hin as [Hin | Hin]; [congruence|].
    apply IH; assumption.
Qed.

Lemma string_condition_returns :
  returns_on_cells _check_string_condition.
Proof.
  intros cell conds. simpl. destruct (pd_isna cell); eauto.
Qed.

Lemma numeric_condition_returns :
  returns_on_cells _check_numeric_condition.
Proof.
  intros cell conds. simpl. destruct (pd_isna cell); eauto.
  destruct (py_float cell); eauto.
Qed.

Lemma date_condition_returns : returns_on_cells _check_date_condition.
Proof.
  intros cell conds. simpl. destruct (pd_isna cell); eauto.
  destruct cell; eauto. destruct (strptime_ymd s); eauto.
Qed.

Lemma boolean_condition_returns :
  returns_on_cells _check_boolean_condition.
Proof.
  intros cell conds. simpl. destruct (pd_isna cell); eauto.
  destruct cell; eauto.
Qed.

(** One loop over a bucket: it leaves with [False] when a column of the
    bucket is absent from the row, and goes on to the next loop when
    none is. *)
Lemma loop_outcome {C : Type} (check : value -> C -> result bool)
    (row : Row) (fields : Dict.t C) :
  NoDup (row_index row) -> returns_on_cells check ->
  forall st : progress,
    ((exists column_name, In column_name (Dict.keys fields)
                          /\ absent row column_name)
     /\ for_each (check_column check row) fields st = Return false)
    \/ ((forall column_name, In column_name (Dict.keys fields) ->
           ~ absent row column_name)
        /\ exists st', for_each (check_column check row) fields st
                       = Next st').
Proof.
  intros Hnd Hret. induction fields as [|[col conds] fields IH]; intros st.
  - right. split; [intros c []|]. simpl. eauto.
  - simpl for_each. destruct st as [matched total].
    assert (Hbody :
              check_column check row (matched, total) (col, conds)
              = match find_column_case_insensitive col (row_index row) with
                | Some actual_column =>
                    match check (row_getitem row actual_column) conds with
                    | Ok true => Next (set_add col matched, S total)
                    | Ok false => Next (matched, S total)
                    | Raise => Raised
                    end
                | None => Return false
                end) by reflexivity.
    rewrite Hbody. clear Hbody.
    pose proof (find_column_none col (row_index row)) as Hnone.
    destruct (find_column_case_insensitive col (row_index row))
      as [actual|] eqn:F.
    + assert (Hpresent : ~ absent row col).
      { unfold absent. intros Ha. apply Hnone in Ha. discriminate. }
      apply find_column_In in F.
      destruct (row_getitem_scalar row actual Hnd F) as [cell ->].
      destruct (Hret cell conds) as [b ->].
      assert (Hstep : forall st1 : progress,
                 ((exists column_name,
                      In column_name (Dict.keys ((col, conds) :: fields))
                      /\ absent row column_name)
                  /\ for_each (check_column check row) fields st1
                     = Return false)
                 \/ ((forall column_name,
                        In column_name (Dict.keys ((col, conds) :: fields))
                        -> ~ absent row column_name)
                     /\ exists st', for_each (check_column check row)
                                      fields st1 = Next st')).
      { intros st1. destruct (IH st1) as [[Hex Hr] | [Hall Hn]].
        - left. split; [|exact Hr].
          destruct Hex as (c & Hc & Ha). exists c. split; [right|]; auto.
        - right. split; [|exact Hn].
          intros c [<- | Hc]; auto. }
      destruct b; apply Hstep.
    + left. split; [|reflexivity].
      exists col. split; [left; reflexivity|].
      unfold absent. apply Hnone. reflexivity.
Qed.

(** Whatever the labels of the row: a loop never leaves with [True], and
    it does not reach the next loop when a column of its bucket is
    absent. *)
Lemma loop_return_false {C : Type} (check : value -> C -> result bool)
    (row : Row) (fields : Dict.t C) :
  forall (st : progress) (b : bool),
    for_each (check_column check row) fields st = Return b -> b = false.
Proof.
  induction fields as [|[col conds] fields IH]; intros st b; simpl;
    [discriminate|].
  destruct st as [matched total]. unfold check_column at 1.
  destruct (find_column_case_insensitive col (row_index row));
    [|intros H; inversion H; reflexivity].
  destruct (check (row_getitem row s) conds) as [[|]|];
    [apply IH | apply IH | discriminate].
Qed.

Lemma loop_absent {C : Type} (check : value -> C -> result bool)
    (row : Row) (fields : Dict.t C) (column_name : str) :
  In column_name (Dict.keys fields) -> absent row column_name ->
  forall (st st' : progress),
    for_each (check_column check row) fields st <> Next st'.
Proof.
  intros Hin Ha.
  induction fields as [|[col conds] fields IH]; intros st st';
    [contradiction|].
  simpl. destruct st as [matched total]. unfold check_column at 1.
  destruct (find_column_case_insensitive col (row_index row)) eqn:F.
  - destruct Hin as [E | Hin].
    + simpl in E. subst col. apply find_column_none in Ha. congruence.
    + destruct (check (row_getitem row s) conds) as [[|]|];
        [apply IH, Hin | apply IH, Hin | discriminate].
  - discriminate.
Qed.

Lemma matches_never_true (row : Row) (pattern : processed_pattern)
    (column_name : str) :
  In column_name
     (Dict.keys (string_fields pattern) ++ Dict.keys (numeric_fields pattern)
      ++ Dict.keys (date_fields pattern)
      ++ Dict.keys (boolean_fields pattern)) ->
  absent row column_name ->
  matches row pattern <> Ok true.
Proof.
  intros Hin Ha. unfold matches.
  rewrite !in_app_iff in Hin.
  destruct (for_each (check_column _check_string_condition row)
              (string_fields pattern) ([], O)) as [st1 | b1 |] eqn:L1;
    simpl bind_flow;
    [| apply loop_return_false in L1; subst; discriminate | discriminate].
  destruct (for_each (check_column _check_numeric_condition row)
              (numeric_fields pattern) st1) as [st2 | b2 |] eqn:L2;
    simpl bind_flow;
    [| apply loop_return_false in L2; subst; discriminate | discriminate].
  destruct (for_each (check_column _check_date_condition row)
              (date_fields pattern) st2) as [st3 | b3 |] eqn:L3;
    simpl bind_flow;
    [| apply loop_return_false in L3; subst; discriminate | discriminate].
  destruct (for_each (check_column _check_boolean_condition row)
              (boolean_fields pattern) st3) as [st4 | b4 |] eqn:L4;
    [| apply loop_return_false in L4; subst; discriminate | discriminate].
  exfalso. destruct Hin as [H | [H | [H | H]]].
  - exact (loop_absent _ row _ column_name H Ha _ _ L1).
  - exact (loop_absent _ row _ column_name H Ha _ _ L2).
  - exact (loop_absent _ row _ column_name H Ha _ _ L3).
  - exact (loop_absent _ row _ column_name H Ha _ _ L4).
Qed.

Lemma matches_absent_column (row : Row) (pattern : processed_pattern)
    (column_name : str) :
  NoDup (row_index row) ->
  In column_name
     (Dict.keys (string_fields pattern) ++ Dict.keys (numeric_fields pattern)
      ++ Dict.keys (date_fields pattern)
      ++ Dict.keys (boolean_fields pattern)) ->
  absent row column_name ->
  matches row pattern = Ok false.
Proof.
  intros Hnd Hin Ha. unfold matches.
  destruct (loop_outcome _check_string_condition row
              (string_fields pattern) Hnd string_condition_returns ([], O))
    as [[_ ->] | [Hs [st1 ->]]]; [reflexivity|].
  simpl bind_flow.
  destruct (loop_outcome _check_numeric_condition row
              (numeric_fields pattern) Hnd numeric_condition_returns st1)
    as [[_ ->] | [Hn [st2 ->]]]; [reflexivity|].
  simpl bind_flow.
  destruct (loop_outcome _check_date_condition row
              (date_fields pattern) Hnd date_condition_returns st2)
    as [[_ ->] | [Hd [st3 ->]]]; [reflexivity|].
  simpl bind_flow.
  destruct (loop_outcome _check_boolean_condition row
              (boolean_fields pattern) Hnd boolean_condition_returns st3)
    as [[_ ->] | [Hb [st4 Hst4]]]; [reflexivity|].
  exfalso.
  rewrite !in_app_iff in Hin.
  destruct Hin as [H | [H | [H | H]]];
    [apply (Hs _ H) | apply (Hn _ H) | apply (Hd _ H) | apply (Hb _ H)];
    exact Ha.
Qed.

Lemma matches_empty_buckets (row : Row) (pattern : processed_pattern) :
  string_fields pattern = [] -> numeric_fields pattern = [] ->
  date_fields pattern = [] -> boolean_fields pattern = [] ->
  matches row pattern = Ok true.
Proof.
  intros Hs Hn Hd Hb. unfold matches. rewrite Hs, Hn, Hd, Hb. reflexivity.
Qed.

(** Columns with an empty list of values leave the compiled rule as it
    is. *)
Lemma process_pattern_skips (items : raw_pattern)
    (processed : processed_pattern) :
  (forall column_name values, In (column_name, values) items ->
     values = []) ->
  fold_left process_column items processed = processed.
Proof.
  revert processed. induction items as [|[col values] items IH];
    intros processed H; simpl; [reflexivity|].
  rewrite (H col values (or_introl eq_refl)). simpl.
  apply IH. intros c v Hin. apply (H c v). right. exact Hin.
Qed.

End MatchFacts.

(** C1: when a column of any of the four buckets of a compiled rule has no
    column in the row, no label of the row having its normalized name, the
    matching of the row against the rule returns [False], whatever the other
    columns; the row being an ordered mapping, its labels are distinct.
    Without this, the evaluation of a column whose label is repeated raises
    before the absent column is reached, and [True] is still never
    returned. *)
Theorem absent_column_never_matches (RT : PyRuntime)
    (processed : Dict.t processed_pattern) (pattern_name : str)
    (pattern : processed_pattern) (row : Row) (column_name : str) :
  Dict.get pattern_name processed = Some pattern ->
  In column_name
     (Dict.keys (string_fields pattern) ++ Dict.keys (numeric_fields pattern)
      ++ Dict.keys (date_fields pattern)
      ++ Dict.keys (boolean_fields pattern)) ->
  (forall label, In label (row_index row) ->
     _normalize_column_name label <> _normalize_column_name column_name) ->
  (NoDup (row_index row) ->
   matches row pattern = Ok false
   /\ _check_row_matches_pattern processed row pattern_name = Ok false)
  /\ _check_row_matches_pattern processed row pattern_name <> Ok true.
Proof.
  intros Hget Hin Habs. split.
  - intros Hnd.
    assert (M : matches row pattern = Ok false)
      by (apply (matches_absent_column row pattern column_name); assumption).
    split; [exact M|].
    unfold _check_row_matches_pattern. rewrite Hget. exact M.
  - unfold _check_row_matches_pattern. rewrite Hget.
    apply (matches_never_true row pattern column_name); assumption.
Qed.

(** C2: a compiled rule whose four buckets are empty matches every row; the
    rule compiled from a pattern whose columns all have an empty list of
    values, the empty pattern among them, is such a rule. *)
Theorem empty_rule_matches_every_row (RT : PyRuntime) :
  (forall (row : Row) (pattern : processed_pattern),
      string_fields pattern = [] -> numeric_fields pattern = [] ->
      date_fields pattern = [] -> boolean_fields pattern = [] ->
      matches row pattern = Ok true)
  /\ (forall (row : Row) (pattern_data : raw_pattern),
         (forall column_name values,
             In (column_name, values) pattern_data -> values = []) ->
         process_pattern pattern_data = empty_processed pattern_data
         /\ matches row (process_pattern pattern_data) = Ok true)
  /\ (forall row : Row, matches row (process_pattern []) = Ok true).
Proof.
  split; [|split].
  - apply matches_empty_buckets.
  - intros row pattern_data H.
    assert (E : process_pattern pattern_data = empty_processed pattern_data)
      by (apply process_pattern_skips, H).
    split; [exact E|]. rewrite E. reflexivity.
  - intros row. reflexivity.
Qed.

Lemma absent_column_never_matches_witness :
  let pattern :=
    process_pattern (RT := latin1)
      [(py "foro", [PStr (py "cafe")]); (py "idioma", [PStr (py "es")])] in
  let row : Row := [(py "Foro", PStr (py "Café"))] in
  matches row pattern = Ok false
  /\ _check_row_matches_pattern [(py "regla", pattern)] row (py "regla")
     = Ok false.
Proof.
  intros pattern row.
  apply (absent_column_never_matches latin1 [(py "regla", pattern)]
           (py "regla") pattern row (py "idioma")).
  - reflexivity.
  - vm_compute. tauto.
  - intros label [<- | []]. vm_compute. discriminate.
  - repeat constructor. simpl. tauto.
Defined.

Lemma empty_rule_matches_every_row_witness :
  process_pattern (RT := latin1) [(py "foro", [])]
  = empty_processed [(py "foro", [])]
  /\ matches [(py "foro", PStr (py "cnn"))]
       (process_pattern (RT := latin1) [(py "foro", [])]) = Ok true.
Proof.
  apply (proj1 (proj2 (empty_rule_matches_every_row latin1))).
  intros column_name values [H | []]. inversion H. reflexivity.
Defined.

(* ================================================================== *)
(** * The string evaluator                                              *)
(* ================================================================== *)

Lemma set_add_In (x y : str) (s : list str) :
  In y (set_add x s) <-> y = x \/ In y s.
Proof.
  unfold set_add. destruct (str_mem x s) eqn:E.
  - apply str_mem_In in E. split; [tauto|]. intros [-> | H]; assumption.
  - rewrite in_app_iff. simpl. intuition congruence.
Qed.

Lemma set_add_NoDup (x : str) (s : list str) :
  NoDup s -> NoDup (set_add x s).
Proof.
  intros H. unfold set_add. destruct (str_mem x s) eqn:E; [exact H|].
  apply str_mem_not_In in E.
  apply NoDup_app; [exact H | repeat constructor; intros [] |].
  intros w Hw [<- | []]. exact (E Hw).
Qed.

Lemma set_of_acc (xs acc : list str) :
  NoDup acc ->
  NoDup (fold_left (fun s x => set_add x s) xs acc)
  /\ forall y, In y (fold_left (fun s x => set_add x s) xs acc)
               <-> In y xs \/ In y acc.
Proof.
  revert acc. induction xs as [|x xs IH]; intros acc H; simpl.
  - split; [exact H | tauto].
  - destruct (IH (set_add x acc) (set_add_NoDup x acc H)) as [Hn Hi].
    split; [exact Hn|]. intros y. rewrite Hi, set_add_In.
    intuition congruence.
Qed.

Lemma set_of_NoDup (xs : list str) : NoDup (set_of xs).
Proof. apply (set_of_acc xs []). constructor. Qed.

Lemma set_of_In (xs : list str) (y : str) : In y (set_of xs) <-> In y xs.
Proof.
  unfold set_of. rewrite (proj2 (set_of_acc xs [] (NoDup_nil _))).
  simpl. tauto.
Qed.

Lemma set_intersection_spec (s1 s2 : list str) :
  NoDup s1 ->
  NoDup (set_intersection s1 s2)
  /\ forall w, In w (set_intersection s1 s2) <-> In w s1 /\ In w s2.
Proof.
  intros H. unfold set_intersection. split.
  - apply NoDup_filter, H.
  - intros w. rewrite filter_In, str_mem_In. tauto.
Qed.

Lemma set_union_spec (s1 s2 : list str) :
  NoDup s1 -> NoDup s2 ->
  NoDup (set_union s1 s2)
  /\ forall w, In w (set_union s1 s2) <-> In w s1 \/ In w s2.
Proof.
  intros H1 H2. unfold set_union.
  assert (Hi : forall w,
             In w (s1 ++ filter (fun x => negb (str_mem x s1)) s2)
             <-> In w s1 \/ In w s2).
  { intros w. rewrite in_app_iff, filter_In, negb_true_iff, str_mem_not_In.
    destruct (in_dec (list_eq_dec N.eq_dec) w s1); tauto. }
  split; [|exact Hi].
  apply NoDup_app; [exact H1 | apply NoDup_filter, H2 |].
  intros w Hw. rewrite filter_In, negb_true_iff, str_mem_not_In. tauto.
Qed.

Lemma Qgtb_lt (a b : Q) : Qgtb a b = true <-> (b < a)%Q.
Proof.
  unfold Qgtb. rewrite negb_true_iff. split.
  - intros H. apply Qnot_le_lt. intros Hle.
    apply Qle_bool_iff in Hle. congruence.
  - intros H. destruct (Qle_bool a b) eqn:E; [|reflexivity].
    apply Qle_bool_iff in E. exfalso. exact (Qlt_not_le _ _ H E).
Qed.

Section StringEvaluator.
Context {RT : PyRuntime}.

(** The similarity is the size of the intersection of the two sets of
    words over the size of their union, and 0 when a side has no word. *)
Lemma calculate_similarity_jaccard (text1 text2 : str) :
  exists intersection union : list str,
    NoDup intersection /\ NoDup union
    /\ (forall w, In w intersection
                  <-> In w (split text1) /\ In w (split text2))
    /\ (forall w, In w union <-> In w (split text1) \/ In w (split text2))
    /\ _calculate_similarity text1 text2
       = match split text1, split text2 with
         | [], _ | _, [] => 0%Q
         | _, _ => (inject_Z (Z.of_nat (List.length intersection))
                    / inject_Z (Z.of_nat (List.length union)))%Q
         end.
Proof.
  remember (set_of (split text1)) as words1 eqn:W1.
  remember (set_of (split text2)) as words2 eqn:W2.
  assert (N1 : NoDup words1) by (subst; apply set_of_NoDup).
  assert (N2 : NoDup words2) by (subst; apply set_of_NoDup).
  destruct (set_intersection_spec words1 words2 N1) as [Hni Hi].
  destruct (set_union_spec words1 words2 N1 N2) as [Hnu Hu].
  exists (set_intersection words1 words2), (set_union words1 words2).
  split; [exact Hni|]. split; [exact Hnu|].
  split; [intros w; rewrite Hi; subst; rewrite !set_of_In; tauto|].
  split; [intros w; rewrite Hu; subst; rewrite !set_of_In; tauto|].
  unfold _calculate_similarity. rewrite <- W1, <- W2.
  destruct text1 as [|c1 r1]; [reflexivity|].
  destruct text2 as [|c2 r2];
    [destruct (split (c1 :: r1)); reflexivity|].
  destruct (split (c1 :: r1)) as [|w1 l1] eqn:E1;
    [subst words1; reflexivity|].
  destruct (split (c2 :: r2)) as [|w2 l2] eqn:E2;
    [subst words2; destruct words1; reflexivity|].
  assert (I1 : In w1 words1)
    by (subst words1; apply set_of_In; left; reflexivity).
  assert (I2 : In w2 words2)
    by (subst words2; apply set_of_In; left; reflexivity).
  destruct words1 as [|x1 s1]; [contradiction|].
  destruct words2 as [|x2 s2]; [contradiction|].
  destruct (List.length (set_union (x1 :: s1) (x2 :: s2))) eqn:L;
    [discriminate | reflexivity].
Qed.

Lemma check_string_condition_spec (cell : pyval) (pattern_values : list str) :
  pd_isna cell = false ->
  exists b,
    _check_string_condition (Scalar cell) pattern_values = Ok b
    /\ (b = true <->
        exists pattern_value,
          In pattern_value pattern_values
          /\ let normalized_pattern :=
               _normalize_text_for_comparison (PStr pattern_value) in
             let row_str := _normalize_text_for_comparison cell in
             substring normalized_pattern row_str
             \/ substring row_str normalized_pattern
             \/ (7 # 10
                 < _calculate_similarity normalized_pattern row_str)%Q).
Proof.
  intros Hna. simpl. rewrite Hna. eexists. split; [reflexivity|].
  rewrite existsb_exists. split.
  - intros (p & Hp & H). exists p. split; [exact Hp|].
    rewrite !orb_true_iff, !str_in_spec, Qgtb_lt in H.
    unfold substring. tauto.
  - intros (p & Hp & H). exists p. split; [exact Hp|].
    rewrite !orb_true_iff, !str_in_spec, Qgtb_lt.
    unfold substring in H. tauto.
Qed.

Lemma check_string_condition_empty_pattern (cell : pyval)
    (pattern_values : list str) (pattern_value : str) :
  pd_isna cell = false ->
  In pattern_value pattern_values ->
  _normalize_text_for_comparison (PStr pattern_value) = [] ->
  _check_string_condition (Scalar cell) pattern_values = Ok true.
Proof.
  intros Hna Hin He.
  destruct (check_string_condition_spec cell pattern_values Hna)
    as (b & -> & Hb).
  f_equal. apply Hb. exists pattern_value. split; [exact Hin|].
  simpl. rewrite He. left. exists [], (_normalize_text_for_comparison cell).
  reflexivity.
Qed.

End StringEvaluator.

(** C3: the string evaluator returns [False] on a missing cell; on a cell
    that is present it returns [True] exactly when, for some pattern value,
    the normalized pattern occurs in the normalized cell, or the normalized
    cell occurs in the normalized pattern, or the similarity of the two
    normalized texts exceeds 0.7; the similarity is the size of the
    intersection over the size of the union of the two sets of words, and 0
    when a side has no word.  The rule with the string column [foro] and the
    value [cafe] matches the rows whose cell is [Café] and
    [mi cafe favorito]. *)
Theorem string_condition_spec :
  (forall (RT : PyRuntime) (cell : pyval) (pattern_values : list str),
      pd_isna cell = true ->
      _check_string_condition (Scalar cell) pattern_values = Ok false)
  /\ (forall (RT : PyRuntime) (cell : pyval) (pattern_values : list str),
         pd_isna cell = false ->
         exists b,
           _check_string_condition (Scalar cell) pattern_values = Ok b
           /\ (b = true <->
               exists pattern_value,
                 In pattern_value pattern_values
                 /\ let normalized_pattern :=
                      _normalize_text_for_comparison (PStr pattern_value) in
                    let row_str := _normalize_text_for_comparison cell in
                    substring normalized_pattern row_str
                    \/ substring row_str normalized_pattern
                    \/ (7 # 10
                        < _calculate_similarity normalized_pattern row_str)%Q))
  /\ (forall (RT : PyRuntime) (text1 text2 : str),
         exists intersection union : list str,
           NoDup intersection /\ NoDup union
           /\ (forall w, In w intersection
                         <-> In w (split text1) /\ In w (split text2))
           /\ (forall w, In w union
                         <-> In w (split text1) \/ In w (split text2))
           /\ _calculate_similarity text1 text2
              = match split text1, split text2 with
                | [], _ | _, [] => 0%Q
                | _, _ => (inject_Z (Z.of_nat (List.length intersection))
                           / inject_Z (Z.of_nat (List.length union)))%Q
                end)
  /\ matches (RT := latin1) [(py "foro", PStr (py "Café"))]
       (process_pattern [(py "foro", [PStr (py "cafe")])]) = Ok true
  /\ matches (RT := latin1) [(py "foro", PStr (py "mi cafe favorito"))]
       (process_pattern [(py "foro", [PStr (py "cafe")])]) = Ok true.
Proof.
  split; [|split; [|split; [|split]]].
  - intros RT cell pattern_values H. simpl. rewrite H. reflexivity.
  - intros RT. apply check_string_condition_spec.
  - intros RT. apply calculate_similarity_jaccard.
  - vm_compute. reflexivity.
  - vm_compute. reflexivity.
Qed.

Lemma string_condition_spec_witness :
  _check_string_condition (RT := latin1) (Scalar PNone) [py "cafe"] = Ok false
  /\ exists b,
       _check_string_condition (RT := latin1)
         (Scalar (PStr (py "hola mundo cruel hoy"))) [py "hola mundo cruel"]
       = Ok b.
Proof.
  split.
  - apply (proj1 string_condition_spec latin1 PNone [py "cafe"]).
    reflexivity.
  - destruct (proj1 (proj2 string_condition_spec) latin1
                (PStr (py "hola mundo cruel hoy")) [py "hola mundo cruel"]
                eq_refl) as (b & Hb & _).
    exists b. exact Hb.
Defined.

(** C10: when a list of string pattern values holds a value whose
    normalized form is the empty string, as is the cleaned form of a value
    made of removed punctuation only, the string evaluator returns [True]
    on every cell that is not missing, the empty string occurring in every
    normalized cell; a rule whose only column holds such a value matches
    every row that has the column with a cell that is present. *)
Theorem empty_pattern_matches_any_cell (RT : PyRuntime) :
  (forall (cell : pyval) (pattern_values : list str) (pattern_value : str),
      pd_isna cell = false ->
      In pattern_value pattern_values ->
      _normalize_text_for_comparison (PStr pattern_value) = [] ->
      _check_string_condition (Scalar cell) pattern_values = Ok true)
  /\ (forall raw_value : str,
         Forall (fun c => is_punctuation c = true) raw_value ->
         _normalize_text_for_comparison
           (PStr (_clean_pattern_text (PStr raw_value))) = [])
  /\ (forall (row : Row) (column_name actual_column : str) (cell : pyval)
             (pattern_values : list str) (pattern_value : str),
         find_column_case_insensitive column_name (row_index row)
         = Some actual_column ->
         row_getitem row actual_column = Scalar cell ->
         pd_isna cell = false ->
         In pattern_value pattern_values ->
         _normalize_text_for_comparison (PStr pattern_value) = [] ->
         matches row
           {| string_fields := [(column_name, pattern_values)];
              numeric_fields := [];
              date_fields := [];
              boolean_fields := [];
              original_pattern := [] |} = Ok true).
Proof.
  split; [|split].
  - apply check_string_condition_empty_pattern.
  - intros raw_value H. rewrite (clean_pattern_text_punctuation raw_value H).
    reflexivity.
  - intros row column_name actual_column cell pattern_values pattern_value
      Hfind Hget Hna Hin He.
    unfold matches. cbn [string_fields numeric_fields date_fields
                         boolean_fields for_each bind_flow].
    unfold check_column. rewrite Hfind, Hget.
    rewrite (check_string_condition_empty_pattern cell pattern_values
               pattern_value Hna Hin He).
    reflexivity.
Qed.

Lemma empty_pattern_matches_any_cell_witness :
  _check_string_condition (RT := latin1) (Scalar (PStr (py "zzz")))
    (map _clean_pattern_text [PStr (py "cnn"); PStr (py "--")]) = Ok true.
Proof.
  apply (proj1 (empty_pattern_matches_any_cell latin1)
           (PStr (py "zzz"))
           (map _clean_pattern_text [PStr (py "cnn"); PStr (py "--")])
           (_clean_pattern_text (PStr (py "--")))).
  - reflexivity.
  - simpl. tauto.
  - apply (proj1 (proj2 (empty_pattern_matches_any_cell latin1)) (py "--")).
    repeat constructor.
Defined.

(* ================================================================== *)
(** * RuleCompiler                                                      *)
(* ================================================================== *)

Lemma dict_mem_set {V : Type} (k n : str) (v : V) (d : Dict.t V) :
  Dict.mem n (Dict.set k v d) = str_eqb n k || Dict.mem n d.
Proof.
  unfold Dict.mem, Dict.keys, str_mem.
  induction d as [|[k' v'] d IH]; simpl.
  - reflexivity.
  - destruct (str_eqb k k') eqn:E; simpl.
    + apply str_eqb_eq in E. subst k'.
      destruct (str_eqb n k); reflexivity.
    + rewrite IH. destruct (str_eqb n k), (str_eqb n k'); reflexivity.
Qed.

Lemma NoDup_map_injective {A B : Type} (f : A -> B) (l : list A) (x y : A) :
  NoDup (map f l) -> In x l -> In y l -> f x = f y -> x = y.
Proof.
  induction l as [|a l IH]; simpl; intros Hnd Hx Hy E; [contradiction|].
  inversion Hnd as [|? ? Hnotin Hnd']; subst.
  destruct Hx as [-> | Hx], Hy as [-> | Hy].
  - reflexivity.
  - exfalso. apply Hnotin. rewrite E. apply in_map, Hy.
  - exfalso. apply Hnotin. rewrite <- E. apply in_map, Hx.
  - apply IH; assumption.
Qed.

Section CompilerFacts.
Context {RT : PyRuntime}.

Lemma kind_eqb_eq (a b : kind) : kind_eqb a b = true <-> a = b.
Proof. destruct a, b; simpl; split; congruence. Qed.

(** What compiling one column adds to the buckets. *)
Lemma process_column_bucket (processed : processed_pattern)
    (item : str * list pyval) (k : kind) (column : str) :
  in_bucket (process_column processed item) k column
  = has_values item && kind_eqb k (bucket_of_values (snd item))
    && str_eqb column (_normalize_column_name (fst item))
    || in_bucket processed k column.
Proof.
  destruct item as [column_name values]. unfold has_values. simpl.
  destruct values as [|first rest]; [reflexivity|].
  unfold bucket_of_values, _is_boolean_field.
  destruct (_is_date_field (py_str first));
    [|destruct (_is_numeric_field (py_str first));
      [|destruct (forallb is_bool (first :: rest))]];
    destruct k; simpl; rewrite ?dict_mem_set; reflexivity.
Qed.

Lemma fold_process_column_bucket (items : raw_pattern)
    (processed : processed_pattern) (k : kind) (column : str) :
  in_bucket (fold_left process_column items processed) k column
  = existsb
      (fun item =>
         has_values item && kind_eqb k (bucket_of_values (snd item))
         && str_eqb column (_normalize_column_name (fst item)))
      items
    || in_bucket processed k column.
Proof.
  revert processed. induction items as [|item items IH]; intros processed.
  - reflexivity.
  - simpl. rewrite IH, process_column_bucket.
    rewrite orb_assoc. f_equal. apply orb_comm.
Qed.

(** A column is in a bucket of the compiled rule exactly when a column of
    the raw rule that has values has this normalized name and designates
    this bucket. *)
Lemma in_bucket_process_pattern (pattern_data : raw_pattern) (k : kind)
    (column : str) :
  in_bucket (process_pattern pattern_data) k column = true <->
  exists column_name values,
    In (column_name, values) pattern_data /\ values <> []
    /\ k = bucket_of_values values
    /\ column = _normalize_column_name column_name.
Proof.
  unfold process_pattern. rewrite fold_process_column_bucket.
  replace (in_bucket (empty_processed pattern_data) k column) with false
    by (destruct k; reflexivity).
  rewrite orb_false_r, existsb_exists. split.
  - intros ([column_name values] & Hin & H).
    rewrite !andb_true_iff, kind_eqb_eq, str_eqb_eq in H.
    destruct H as [[Hv Hk] Hc]. exists column_name, values.
    repeat split; auto. unfold has_values in Hv. simpl in Hv.
    destruct values; [discriminate | discriminate].
  - intros (column_name & values & Hin & Hv & Hk & Hc).
    exists (column_name, values). split; [exact Hin|].
    rewrite !andb_true_iff, kind_eqb_eq, str_eqb_eq.
    repeat split; auto. unfold has_values. simpl.
    destruct values; [congruence | reflexivity].
Qed.

Lemma buckets_of_single (pattern : processed_pattern) (column : str)
    (k0 : kind) :
  (forall k, in_bucket pattern k column = kind_eqb k k0) ->
  buckets_of pattern column = [k0].
Proof.
  intros H. unfold buckets_of. cbn [filter]. rewrite !H.
  destruct k0; reflexivity.
Qed.

End CompilerFacts.

(** C6, as the code has it: every column of a raw rule that has values is
    put, under its normalized name, in the bucket that its values
    designate: the date bucket when the first value has the shape of a date
    condition, else the numeric bucket when it has the shape of a numeric
    condition, else the boolean bucket when every value is a boolean, else
    the string bucket; nothing else is in a bucket.  When the columns that
    have values have distinct normalized names, each is in exactly this one
    bucket. *)
Theorem compiled_column_buckets (RT : PyRuntime) (pattern_data : raw_pattern) :
  (forall column_name values,
      In (column_name, values) pattern_data -> values <> [] ->
      in_bucket (process_pattern pattern_data) (bucket_of_values values)
        (_normalize_column_name column_name) = true)
  /\ (forall k column,
         in_bucket (process_pattern pattern_data) k column = true ->
         exists column_name values,
           In (column_name, values) pattern_data /\ values <> []
           /\ k = bucket_of_values values
           /\ column = _normalize_column_name column_name)
  /\ (NoDup (compiled_columns pattern_data) ->
      forall column_name values,
        In (column_name, values) pattern_data -> values <> [] ->
        buckets_of (process_pattern pattern_data)
          (_normalize_column_name column_name)
        = [bucket_of_values values]).
Proof.
  split; [|split].
  - intros column_name values Hin Hv. apply in_bucket_process_pattern.
    exists column_name, values. auto.
  - intros k column H. apply in_bucket_process_pattern, H.
  - intros Hnd column_name values Hin Hv. apply buckets_of_single.
    intros k.
    destruct (kind_eqb k (bucket_of_values values)) eqn:E.
    + apply kind_eqb_eq in E. subst k. apply in_bucket_process_pattern.
      exists column_name, values. auto.
    + destruct (in_bucket (process_pattern pattern_data) k
                  (_normalize_column_name column_name)) eqn:B;
        [|reflexivity].
      apply in_bucket_process_pattern in B.
      destruct B as (column_name' & values' & Hin' & Hv' & Hk & Hc).
      unfold compiled_columns, Dict.keys in Hnd. rewrite map_map in Hnd.
      assert (Same : (column_name, values) = (column_name', values')).
      { apply (NoDup_map_injective _ _ _ _ Hnd).
        - apply filter_In. split; [exact Hin|]. unfold has_values. simpl.
          destruct values; [congruence | reflexivity].
        - apply filter_In. split; [exact Hin'|]. unfold has_values. simpl.
          destruct values'; [congruence | reflexivity].
        - exact Hc. }
      inversion Same; subst. rewrite <- E. symmetry.
      apply kind_eqb_eq. reflexivity.
Qed.

Lemma compiled_column_buckets_witness :
  buckets_of
    (process_pattern (RT := latin1)
       [(py "Foro", [PStr (py "cnn")]);
        (py "seguidores", [PStr (py ">1000")]);
        (py "fecha", [PStr (py ">2024-01-01")]);
        (py "verificado", [PBool true]);
        (py "vacio", [])])
    (_normalize_column_name (py "seguidores"))
  = [KNumeric].
Proof.
  apply (proj2 (proj2 (compiled_column_buckets latin1
           [(py "Foro", [PStr (py "cnn")]);
            (py "seguidores", [PStr (py ">1000")]);
            (py "fecha", [PStr (py ">2024-01-01")]);
            (py "verificado", [PBool true]);
            (py "vacio", [])]))
         : _ -> forall column_name values, _ -> _ ->
             _ = [bucket_of_values values])
    with (column_name := py "seguidores") (values := [PStr (py ">1000")]).
  - vm_compute. repeat constructor; simpl; intuition discriminate.
  - simpl. tauto.
  - discriminate.
Defined.

(** C6 as stated fails: two columns of a rule with the same normalized name
    and values of different shapes put this name in two buckets. *)
Lemma compiled_column_in_two_buckets :
  let pattern_data : raw_pattern (RT := latin1) :=
    [(py "tweet id", [PStr (py "abc")]); (py "tweet_id", [PBool true])] in
  NoDup (Dict.keys pattern_data)
  /\ _normalize_column_name (py "tweet id") = py "tweet_id"
  /\ buckets_of (process_pattern pattern_data) (py "tweet_id")
     = [KString; KBoolean].
Proof.
  split; [|split].
  - vm_compute. repeat constructor; simpl; intuition discriminate.
  - vm_compute. reflexivity.
  - vm_compute. reflexivity.
Qed.

(* ================================================================== *)
(** * MatchEngine                                                       *)
(* ================================================================== *)

Lemma dict_get_set_same {V : Type} (k : str) (v : V) (d : Dict.t V) :
  Dict.get k (Dict.set k v d) = Some v.
Proof.
  induction d as [|[k' v'] d IH]; simpl.
  - rewrite str_eqb_refl. reflexivity.
  - destruct (str_eqb k k') eqn:E; simpl; rewrite E; [reflexivity | exact IH].
Qed.

Lemma dict_get_set_other {V : Type} (k k0 : str) (v : V) (d : Dict.t V) :
  k0 <> k -> Dict.get k0 (Dict.set k v d) = Dict.get k0 d.
Proof.
  intros Hne. induction d as [|[k' v'] d IH]; simpl.
  - apply str_eqb_neq in Hne. rewrite Hne. reflexivity.
  - destruct (str_eqb k k') eqn:E; simpl.
    + apply str_eqb_eq in E. subst k'.
      apply str_eqb_neq in Hne. rewrite Hne. reflexivity.
    + destruct (str_eqb k0 k'); [reflexivity | exact IH].
Qed.

Lemma dict_get_set {V : Type} (k k0 : str) (v : V) (d : Dict.t V) :
  Dict.get k0 (Dict.set k v d)
  = if str_eqb k0 k then Some v else Dict.get k0 d.
Proof.
  destruct (str_eqb k0 k) eqn:E.
  - apply str_eqb_eq in E. subst. apply dict_get_set_same.
  - apply str_eqb_neq in E. apply dict_get_set_other, E.
Qed.

Lemma dict_get_none {V : Type} (k : str) (d : Dict.t V) :
  Dict.get k d = None <-> ~ In k (Dict.keys d).
Proof.
  induction d as [|[k' v'] d IH]; simpl.
  - tauto.
  - destruct (str_eqb k k') eqn:E.
    + apply str_eqb_eq in E. subst. split; [discriminate | tauto].
    + apply str_eqb_neq in E. rewrite IH. intuition congruence.
Qed.

(** After [_process_patterns], the compiled rule of a name is that of its
    raw rule. *)
Lemma process_patterns_get (RT : PyRuntime) (patterns : Dict.t raw_pattern)
    (pattern_name : str) :
  NoDup (Dict.keys patterns) ->
  forall acc : Dict.t processed_pattern,
    Dict.get pattern_name (_process_patterns acc patterns)
    = match Dict.get pattern_name patterns with
      | Some pattern_data => Some (process_pattern pattern_data)
      | None => Dict.get pattern_name acc
      end.
Proof.
  unfold _process_patterns.
  induction patterns as [|[name pattern_data] patterns IH]; intros Hnd acc;
    [reflexivity|].
  simpl in Hnd. inversion Hnd as [|? ? Hnotin Hnd']; subst.
  simpl fold_left. rewrite (IH Hnd'). simpl Dict.get.
  destruct (str_eqb pattern_name name) eqn:E.
  - apply str_eqb_eq in E. subst name.
    apply dict_get_none in Hnotin. rewrite Hnotin.
    apply dict_get_set_same.
  - destruct (Dict.get pattern_name patterns); [reflexivity|].
    apply dict_get_set_other. apply str_eqb_neq, E.
Qed.

Section EngineFacts.
Context {RT : PyRuntime}.
Variable processed : Dict.t processed_pattern.

(** The rows kept are not empty exactly when a row matches. *)
Lemma matching_rows_nonempty (df : DataFrame) (pattern_name : str) :
  matching_rows processed df pattern_name <> [] <->
  exists row, In row df
              /\ _check_row_matches_pattern processed row pattern_name
                 = Ok true.
Proof.
  unfold matching_rows. split.
  - intros H.
    destruct (filter _ df) as [|row rows] eqn:E; [congruence|].
    assert (Hin : In row (filter
              (fun row =>
                 match _check_row_matches_pattern processed row pattern_name
                 with Ok true => true | _ => false end) df))
      by (rewrite E; left; reflexivity).
    apply filter_In in Hin. destruct Hin as [Hin Hm]. exists row.
    split; [exact Hin|].
    destruct (_check_row_matches_pattern processed row pattern_name)
      as [[|]|]; congruence.
  - intros (row & Hin & Hm) E.
    assert (Hf : In row (filter
              (fun row =>
                 match _check_row_matches_pattern processed row pattern_name
                 with Ok true => true | _ => false end) df))
      by (apply filter_In; split; [exact Hin | rewrite Hm; reflexivity]).
    rewrite E in Hf. exact Hf.
Qed.

(** The entry of a rule after one language has been processed. *)
Lemma apply_language_entry (pattern_names : list str) (language : str)
    (df : DataFrame) (pattern_name : str) :
  forall (res : Dict.t (Dict.t DataFrame)) (by_language : Dict.t DataFrame),
    Dict.get pattern_name res = Some by_language ->
    exists by_language',
      Dict.get pattern_name
        (apply_language processed pattern_names res (language, df))
      = Some by_language'
      /\ forall l,
           Dict.get l by_language'
           = if str_eqb l language && str_mem pattern_name pattern_names
             then match matching_rows processed df pattern_name with
                  | [] => Dict.get l by_language
                  | rows => Some rows
                  end
             else Dict.get l by_language.
Proof.
  unfold apply_language.
  induction pattern_names as [|name names IH]; intros res by_language Hget.
  - exists by_language. split; [exact Hget|]. intros l.
    rewrite andb_false_r. reflexivity.
  - simpl fold_left.
    set (res1 := match matching_rows processed df name with
                 | [] => res
                 | r :: rs => store_result res name language (r :: rs)
                 end).
    assert (H1 : exists by_language1,
               Dict.get pattern_name res1 = Some by_language1
               /\ forall l,
                    Dict.get l by_language1
                    = if str_eqb l language && str_eqb pattern_name name
                      then match matching_rows processed df pattern_name with
                           | [] => Dict.get l by_language
                           | rows => Some rows
                           end
                      else Dict.get l by_language).
    { unfold res1.
      destruct (str_eqb pattern_name name) eqn:E.
      - apply str_eqb_eq in E. subst name.
        destruct (matching_rows processed df pattern_name) as [|r rs] eqn:M.
        + exists by_language. split; [exact Hget|]. intros l.
          destruct (str_eqb l language); reflexivity.
        + unfold store_result. rewrite Hget.
          exists (Dict.set language (r :: rs) by_language).
          split; [apply dict_get_set_same|]. intros l.
          rewrite dict_get_set, andb_true_r. reflexivity.
      - exists by_language. split.
        + destruct (matching_rows processed df name) as [|r rs];
            [exact Hget|].
          unfold store_result.
          destruct (Dict.get name res); [|exact Hget].
          rewrite dict_get_set_other; [exact Hget|].
          apply str_eqb_neq, E.
        + intros l. rewrite andb_false_r. reflexivity. }
    destruct H1 as (by_language1 & Hget1 & Hl1).
    destruct (IH res1 by_language1 Hget1) as (by_language' & Hget' & Hl').
    exists by_language'. split; [exact Hget'|]. intros l.
    rewrite Hl', Hl1.
    change (str_mem pattern_name (name :: names))
      with (str_eqb pattern_name name || str_mem pattern_name names).
    destruct (str_eqb l language), (str_eqb pattern_name name),
      (str_mem pattern_name names),
      (matching_rows processed df pattern_name); reflexivity.
Qed.

Lemma apply_language_keys (pattern_names : list str)
    (entry : str * DataFrame) (pattern_name : str) :
  forall res : Dict.t (Dict.t DataFrame),
    Dict.get pattern_name res = None ->
    Dict.get pattern_name (apply_language processed pattern_names res entry)
    = None.
Proof.
  destruct entry as [language df]. unfold apply_language.
  induction pattern_names as [|name names IH]; intros res Hget;
    [exact Hget|].
  simpl fold_left. apply IH.
  destruct (matching_rows processed df name) as [|r rs]; [exact Hget|].
  unfold store_result. destruct (Dict.get name res) eqn:G; [|exact Hget].
  rewrite dict_get_set_other; [exact Hget|].
  intros ->. congruence.
Qed.

(** The entry of a rule after all the languages have been processed. *)
Lemma apply_data_entry (pattern_names : list str) (pattern_name : str) :
  forall (data : Dict.t DataFrame) (res : Dict.t (Dict.t DataFrame))
         (by_language : Dict.t DataFrame),
    NoDup (Dict.keys data) ->
    Dict.get pattern_name res = Some by_language ->
    exists by_language',
      Dict.get pattern_name
        (fold_left (apply_language processed pattern_names) data res)
      = Some by_language'
      /\ forall l,
           Dict.get l by_language'
           = match Dict.get l data with
             | Some df =>
                 if str_mem pattern_name pattern_names
                 then match matching_rows processed df pattern_name with
                      | [] => Dict.get l by_language
                      | rows => Some rows
                      end
                 else Dict.get l by_language
             | None => Dict.get l by_language
             end.
Proof.
  induction data as [|[language df] data IH]; intros res by_language Hnd Hget.
  - exists by_language. split; [exact Hget | reflexivity].
  - simpl fold_left. simpl in Hnd.
    inversion Hnd as [|? ? Hnotin Hnd']; subst.
    destruct (apply_language_entry pattern_names language df pattern_name
                res by_language Hget) as (by1 & Hget1 & Hl1).
    destruct (IH _ by1 Hnd' Hget1) as (by' & Hget' & Hl').
    exists by'. split; [exact Hget'|]. intros l.
    rewrite Hl', Hl1. simpl Dict.get.
    destruct (str_eqb l language) eqn:E.
    + apply str_eqb_eq in E. subst l.
      apply dict_get_none in Hnotin. rewrite Hnotin. reflexivity.
    + simpl. reflexivity.
Qed.

Lemma apply_data_keys (pattern_names : list str) (pattern_name : str) :
  forall (data : Dict.t DataFrame) (res : Dict.t (Dict.t DataFrame)),
    Dict.get pattern_name res = None ->
    Dict.get pattern_name
      (fold_left (apply_language processed pattern_names) data res) = None.
Proof.
  induction data as [|entry data IH]; intros res Hget; [exact Hget|].
  simpl. apply IH, apply_language_keys, Hget.
Qed.

(** [{pattern_name: {} for pattern_name in patterns.keys()}] *)
Lemma initial_results (pattern_names : list str) (pattern_name : str) :
  forall acc : Dict.t (Dict.t DataFrame),
    Dict.get pattern_name
      (fold_left (fun res name => Dict.set name Dict.empty res)
         pattern_names acc)
    = if str_mem pattern_name pattern_names then Some Dict.empty
      else Dict.get pattern_name acc.
Proof.
  induction pattern_names as [|name names IH]; intros acc; [reflexivity|].
  simpl fold_left. rewrite IH, dict_get_set.
  change (str_mem pattern_name (name :: names))
    with (str_eqb pattern_name name || str_mem pattern_name names).
  destruct (str_mem pattern_name names), (str_eqb pattern_name name);
    reflexivity.
Qed.

End EngineFacts.

(** The entries of the result of [apply_patterns]. *)
Lemma apply_patterns_results (RT : PyRuntime) (self : analyzer)
    (data : Dict.t DataFrame) (patterns : Dict.t raw_pattern)
    (pattern_name : str) :
  NoDup (Dict.keys data) ->
  let after := apply_patterns self data patterns in
  (Dict.get pattern_name (results after) = None
   <-> ~ In pattern_name (Dict.keys patterns))
  /\ forall by_language,
       Dict.get pattern_name (results after) = Some by_language ->
       forall language,
         ((exists rows, Dict.get language by_language = Some rows)
          <-> exists df row,
                Dict.get language data = Some df /\ In row df
                /\ _check_row_matches_pattern (processed_patterns after)
                     row pattern_name = Ok true)
         /\ forall rows,
              Dict.get language by_language = Some rows ->
              rows <> []
              /\ exists df,
                   Dict.get language data = Some df
                   /\ rows = matching_rows (processed_patterns after)
                               df pattern_name.
Proof.
  intros Hnd after.
  set (processed := _process_patterns (processed_patterns self) patterns).
  set (names := Dict.keys patterns).
  set (res0 := fold_left (fun res name => Dict.set name Dict.empty res)
                 names (Dict.empty : Dict.t (Dict.t DataFrame))).
  assert (Hres : results after
                 = fold_left (apply_language processed names) data res0)
    by reflexivity.
  assert (Hproc : processed_patterns after = processed) by reflexivity.
  rewrite Hres, Hproc. clear Hres Hproc.
  pose proof (initial_results names pattern_name Dict.empty) as H0.
  fold res0 in H0. simpl (Dict.get pattern_name Dict.empty) in H0.
  destruct (str_mem pattern_name names) eqn:M.
  - apply str_mem_In in M.
    destruct (apply_data_entry processed names pattern_name data res0
                Dict.empty Hnd H0) as (by' & Hget & Hl).
    rewrite Hget. split; [split; [discriminate | tauto]|].
    intros by_language Heq language. inversion Heq; subst by'. clear Heq.
    apply str_mem_In in M.
    assert (Hrows : forall rows,
               Dict.get language by_language = Some rows ->
               rows <> []
               /\ exists df,
                    Dict.get language data = Some df
                    /\ rows = matching_rows processed df pattern_name).
    { intros rows Hr. rewrite Hl, M in Hr.
      destruct (Dict.get language data) as [df|]; [|discriminate].
      destruct (matching_rows processed df pattern_name) as [|r rs] eqn:E;
        [discriminate|].
      inversion Hr; subst. split; [discriminate|].
      exists df. split; [reflexivity | symmetry; exact E]. }
    split; [|exact Hrows]. split.
    + intros [rows Hr]. destruct (Hrows rows Hr) as [Hne (df & Hd & ->)].
      apply matching_rows_nonempty in Hne. destruct Hne as (row & Hin & Hm).
      exists df, row. auto.
    + intros (df & row & Hd & Hin & Hm). rewrite Hl, Hd, M.
      assert (Hne : matching_rows processed df pattern_name <> [])
        by (apply matching_rows_nonempty; exists row; auto).
      destruct (matching_rows processed df pattern_name) as [|r rs];
        [congruence|]. eauto.
  - apply str_mem_not_In in M.
    rewrite (apply_data_keys processed names pattern_name data res0 H0).
    split; [tauto|]. intros by_language Heq. discriminate.
Qed.


(** C8: in the result of [apply], the rules of the result are the rules
    that were applied, each matched in its compiled form, and under a rule a
    language is a key exactly when at least one row of that language
    matched the rule; the rows stored under it are then the matching rows,
    in source order, and they are never an empty collection.  The rules and
    the data are mappings: their keys are distinct. *)
Theorem result_omits_empty_matches (RT : PyRuntime) (self : analyzer)
    (data : Dict.t DataFrame) (patterns : Dict.t raw_pattern)
    (pattern_name : str) :
  NoDup (Dict.keys data) -> NoDup (Dict.keys patterns) ->
  let after := apply_patterns self data patterns in
  (Dict.get pattern_name (results after) = None
   <-> ~ In pattern_name (Dict.keys patterns))
  /\ (forall pattern_data,
         Dict.get pattern_name patterns = Some pattern_data ->
         Dict.get pattern_name (processed_patterns after)
         = Some (process_pattern pattern_data))
  /\ forall by_language,
       Dict.get pattern_name (results after) = Some by_language ->
       forall language,
         ((exists rows, Dict.get language by_language = Some rows)
          <-> exists df row,
                Dict.get language data = Some df /\ In row df
                /\ _check_row_matches_pattern (processed_patterns after)
                     row pattern_name = Ok true)
         /\ forall rows,
              Dict.get language by_language = Some rows ->
              rows <> []
              /\ exists df,
                   Dict.get language data = Some df
                   /\ rows = matching_rows (processed_patterns after)
                               df pattern_name.
Proof.
  intros Hnd Hndp after.
  destruct (apply_patterns_results RT self data patterns pattern_name Hnd)
    as [Hkeys Hrows].
  split; [exact Hkeys|]. split; [|exact Hrows].
  intros pattern_data Hraw.
  change (processed_patterns after)
    with (_process_patterns (processed_patterns self) patterns).
  rewrite (process_patterns_get RT patterns pattern_name Hndp), Hraw.
  reflexivity.
Qed.

Lemma result_omits_empty_matches_witness :
  let data : Dict.t (DataFrame (RT := latin1)) :=
    [(py "es", [[(py "foro", PStr (py "CNN"))];
                [(py "foro", PStr (py "bbc"))]]);
     (py "en", [[(py "foro", PStr (py "bbc"))]])] in
  let patterns := [(py "noticias", [(py "foro", [PStr (py "cnn")])])] in
  let after :=
    apply_patterns
      {| processed_patterns := []; results := []; column_mapping := [] |}
      data patterns in
  map (fun rule =>
         (fst rule,
          map (fun entry => (fst entry, List.length (snd entry))) (snd rule)))
    (results after)
  = [(py "noticias", [(py "es", 1%nat)])]
  /\ (Dict.get (py "noticias") (results after) = None
      <-> ~ In (py "noticias") (Dict.keys patterns)).
Proof.
  intros data patterns after. split; [vm_compute; reflexivity|].
  apply (result_omits_empty_matches latin1
           {| processed_patterns := []; results := []; column_mapping := [] |}
           data patterns (py "noticias")).
  - vm_compute. repeat constructor; simpl; intuition discriminate.
  - vm_compute. repeat constructor; simpl; intuition discriminate.
Defined.

(* ================================================================== *)
(** * Deduplication                                                     *)
(* ================================================================== *)

Section MergerFacts.
Context {cell : Type}.
Variable cell_eq_dec : forall x y : cell, {x = y} + {x <> y}.
Variable nan : cell.

Local Abbreviation Row := (@Merger.Row cell).
Local Abbreviation key := (Merger.key nan).
Local Abbreviation key_eqb := (Merger.key_eqb cell_eq_dec).
Local Abbreviation kept := (Merger.kept cell_eq_dec nan).

Lemma key_eqb_eq (k1 k2 : list cell) : key_eqb k1 k2 = true <-> k1 = k2.
Proof.
  unfold Merger.key_eqb.
  destruct (list_eq_dec cell_eq_dec k1 k2); split; congruence.
Qed.

Lemma seen_In (k : list cell) (seen : list (list cell)) :
  existsb (key_eqb k) seen = true <-> In k seen.
Proof.
  rewrite existsb_exists. split.
  - intros (k' & Hin & E). apply key_eqb_eq in E. subst. exact Hin.
  - intros H. exists k. split; [exact H | apply key_eqb_eq; reflexivity].
Qed.

Lemma kept_cons (subset : list str) (seen : list (list cell)) (r : Row)
    (rs : list Row) :
  kept subset seen (r :: rs)
  = if existsb (key_eqb (key subset r)) seen
    then kept subset (key subset r :: seen) rs
    else r :: kept subset (key subset r :: seen) rs.
Proof.
  unfold Merger.kept. simpl.
  destruct (existsb (key_eqb (key subset r)) seen); reflexivity.
Qed.

Lemma kept_sublist (subset : list str) (rs : list Row) :
  forall seen, Sublist (kept subset seen rs) rs.
Proof.
  induction rs as [|r rs IH]; intros seen.
  - constructor.
  - rewrite kept_cons.
    destruct (existsb (key_eqb (key subset r)) seen);
      constructor; apply IH.
Qed.

(** No row is kept whose key has been seen. *)
Lemma kept_seen (subset : list str) (k0 : list cell) (rs : list Row) :
  forall seen,
    In k0 seen ->
    filter (fun x => key_eqb (key subset x) k0) (kept subset seen rs) = [].
Proof.
  induction rs as [|r rs IH]; intros seen Hin; [reflexivity|].
  rewrite kept_cons.
  destruct (existsb (key_eqb (key subset r)) seen) eqn:E.
  - apply IH. right. exact Hin.
  - simpl. destruct (key_eqb (key subset r) k0) eqn:K.
    + apply key_eqb_eq in K. subst k0.
      apply seen_In in Hin. congruence.
    + apply IH. right. exact Hin.
Qed.

(** Of the rows with a key that has not been seen, the first is kept, and
    only it. *)
Lemma kept_first (subset : list str) (k0 : list cell) (rs : list Row) :
  forall seen r,
    ~ In k0 seen -> In r rs -> key subset r = k0 ->
    exists before first after,
      rs = before ++ first :: after
      /\ key subset first = k0
      /\ (forall x, In x before -> key subset x <> k0)
      /\ filter (fun x => key_eqb (key subset x) k0) (kept subset seen rs)
         = [first].
Proof.
  induction rs as [|h rs IH]; intros seen r Hseen Hin Hk; [contradiction|].
  rewrite kept_cons.
  destruct (list_eq_dec cell_eq_dec (key subset h) k0) as [Eh | Nh].
  - exists [], h, rs. split; [reflexivity|]. split; [exact Eh|].
    split; [intros x []|].
    assert (E : existsb (key_eqb (key subset h)) seen = false).
    { destruct (existsb (key_eqb (key subset h)) seen) eqn:E;
        [|reflexivity].
      apply seen_In in E. rewrite Eh in E. contradiction. }
    rewrite E. simpl.
    assert (K : key_eqb (key subset h) k0 = true)
      by (apply key_eqb_eq, Eh).
    rewrite K. f_equal. apply kept_seen. left. exact Eh.
  - assert (Hr : In r rs).
    { destruct Hin as [-> | Hin]; [contradiction | exact Hin]. }
    destruct (IH (key subset h :: seen) r) as
        (before & first & after & -> & Hf & Hb & Hfilter);
      [intros [E | E]; [exact (Nh E) | exact (Hseen E)] | exact Hr
       | exact Hk |].
    exists (h :: before), first, after.
    split; [reflexivity|]. split; [exact Hf|]. split.
    + intros x [<- | Hx]; [exact Nh | apply Hb, Hx].
    + assert (K : key_eqb (key subset h) k0 = false).
      { destruct (key_eqb (key subset h) k0) eqn:K; [|reflexivity].
        apply key_eqb_eq in K. contradiction. }
      destruct (existsb (key_eqb (key subset h)) seen);
        [exact Hfilter|].
      simpl. rewrite K. exact Hfilter.
Qed.

Lemma cell_at_reindex (cols : list str) (row : Row) (c : str) :
  In c cols ->
  Merger.cell_at nan c (Merger.reindex nan cols row)
  = Merger.cell_at nan c row.
Proof.
  induction cols as [|a cols IH]; intros Hin; [contradiction|].
  simpl. destruct (str_eqb a c) eqn:E.
  - apply str_eqb_eq in E. subst. reflexivity.
  - apply str_eqb_neq in E. destruct Hin as [-> | Hin]; [congruence|].
    apply IH, Hin.
Qed.

Lemma key_reindex (cols subset : list str) (row : Row) :
  incl subset cols ->
  key subset (Merger.reindex nan cols row) = key subset row.
Proof.
  intros Hincl. unfold Merger.key. apply map_ext_in.
  intros c Hc. apply cell_at_reindex, Hincl, Hc.
Qed.

Lemma key_agree (subset : list str) (r1 r2 : Row) :
  (forall c, In c subset ->
     Merger.cell_at nan c r1 = Merger.cell_at nan c r2) ->
  key subset r1 = key subset r2.
Proof. intros H. unfold Merger.key. apply map_ext_in, H. Qed.

Lemma non_metadata_incl (df : @Merger.DataFrame cell) :
  incl (Merger.non_metadata_columns df) (Merger.columns df).
Proof.
  intros c Hc. unfold Merger.non_metadata_columns in Hc.
  apply filter_In in Hc. tauto.
Qed.

Lemma remove_duplicates_rows (df : @Merger.DataFrame cell) :
  Merger.rows (Merger.remove_duplicates cell_eq_dec nan df)
  = kept (Merger.non_metadata_columns df) [] (Merger.rows df).
Proof. reflexivity. Qed.

End MergerFacts.

(** C9: when two collections of rows are merged and a row of the first and
    a row of the second have the same cells in every column but the four
    provenance columns, the deduplicated frame keeps the columns, its rows
    are rows of the combined frame in their order, and exactly one of them
    has these cells: the first row of the combined frame that has them. *)
Theorem remove_duplicates_keeps_first {cell : Type}
    (cell_eq_dec : forall x y : cell, {x = y} + {x <> y}) (nan : cell)
    (df1 df2 : @Merger.DataFrame cell) (r1 r2 : @Merger.Row cell) :
  In r1 (Merger.rows df1) -> In r2 (Merger.rows df2) ->
  let combined := Merger.combine_data nan [df1; df2] in
  let subset := Merger.non_metadata_columns combined in
  let out := Merger.remove_duplicates cell_eq_dec nan combined in
  let shared := Merger.key nan subset r1 in
  subset <> [] ->
  (forall c, In c subset -> Merger.cell_at nan c r1 = Merger.cell_at nan c r2) ->
  Merger.columns out = Merger.columns combined
  /\ Sublist (Merger.rows out) (Merger.rows combined)
  /\ (exists i1 i2,
         In i1 (Merger.rows combined) /\ In i2 (Merger.rows combined)
         /\ i1 = Merger.reindex nan (Merger.columns combined) r1
         /\ i2 = Merger.reindex nan (Merger.columns combined) r2
         /\ Merger.key nan subset i1 = shared
         /\ Merger.key nan subset i2 = shared)
  /\ exists before first after,
       Merger.rows combined = before ++ first :: after
       /\ Merger.key nan subset first = shared
       /\ (forall x, In x before -> Merger.key nan subset x <> shared)
       /\ filter
            (fun x =>
               Merger.key_eqb cell_eq_dec (Merger.key nan subset x) shared)
            (Merger.rows out)
          = [first].
Proof.
  intros H1 H2 combined subset out shared Hsubset Hagree.
  pose proof (non_metadata_incl combined) as Hincl. fold subset in Hincl.
  set (cols := Merger.columns combined).
  assert (K1 : Merger.key nan subset (Merger.reindex nan cols r1) = shared)
    by (apply key_reindex, Hincl).
  assert (K2 : Merger.key nan subset (Merger.reindex nan cols r2) = shared).
  { rewrite (key_reindex nan cols subset r2 Hincl). symmetry.
    apply key_agree, Hagree. }
  assert (I1 : In (Merger.reindex nan cols r1) (Merger.rows combined)).
  { unfold combined, Merger.combine_data, Merger.concat. simpl Merger.rows.
    apply in_map. rewrite app_nil_r. apply in_or_app. left. exact H1. }
  assert (I2 : In (Merger.reindex nan cols r2) (Merger.rows combined)).
  { unfold combined, Merger.combine_data, Merger.concat. simpl Merger.rows.
    apply in_map. rewrite app_nil_r. apply in_or_app. right. exact H2. }
  split; [reflexivity|].
  split; [unfold out; rewrite remove_duplicates_rows; apply kept_sublist|].
  split.
  - exists (Merger.reindex nan cols r1), (Merger.reindex nan cols r2).
    repeat split; assumption.
  - unfold out. rewrite remove_duplicates_rows.
    apply (kept_first cell_eq_dec nan subset shared (Merger.rows combined)
             [] (Merger.reindex nan cols r1)).
    + intros [].
    + exact I1.
    + exact K1.
Qed.

Lemma remove_duplicates_keeps_first_witness :
  let a : @Merger.Row text_cell :=
    [(py "mensaje", Some (py "hola")); (py "_source_file", Some (py "a.xlsx"))]
  in
  let b : @Merger.Row text_cell :=
    [(py "mensaje", Some (py "bye")); (py "_source_file", Some (py "a.xlsx"))]
  in
  let c : @Merger.Row text_cell :=
    [(py "mensaje", Some (py "hola")); (py "_source_file", Some (py "b.xlsx"))]
  in
  let cols := [py "mensaje"; py "_source_file"] in
  let df1 := {| Merger.columns := cols; Merger.rows := [b; a] |} in
  let df2 := {| Merger.columns := cols; Merger.rows := [c; b] |} in
  Merger.rows
    (Merger.remove_duplicates text_cell_eq_dec None
       (Merger.combine_data None [df1; df2]))
  = [b; a]
  /\ Merger.columns
       (Merger.remove_duplicates text_cell_eq_dec None
          (Merger.combine_data None [df1; df2]))
     = Merger.columns (Merger.combine_data None [df1; df2]).
Proof.
  intros a b c cols df1 df2. split; [vm_compute; reflexivity|].
  apply (remove_duplicates_keeps_first text_cell_eq_dec None df1 df2 a c).
  - right. left. reflexivity.
  - left. reflexivity.
  - vm_compute. discriminate.
  - vm_compute. intros x [<- | []]. reflexivity.
Defined.

(* ================================================================== *)
(** * The other examples of the specification                           *)
(* ================================================================== *)

Example numeric_rule_example :
  let pattern :=
    process_pattern (RT := latin1) [(py "seguidores", [PStr (py ">1000")])] in
  matches [(py "seguidores", PInt 1500)] pattern = Ok true
  /\ matches [(py "seguidores", PInt 999)] pattern = Ok false
  /\ matches [(py "seguidores", PStr (py "n/a"))] pattern = Ok false.
Proof. intros. repeat split; vm_compute; reflexivity. Qed.

Example date_rule_example :
  let pattern :=
    process_pattern (RT := latin1) [(py "fecha", [PStr (py ">2024-01-01")])] in
  matches [(py "fecha", PStr (py "2024-06-15"))] pattern = Ok true
  /\ matches [(py "fecha", PStr (py "2023-12-31"))] pattern = Ok false.
Proof. intros. repeat split; vm_compute; reflexivity. Qed.

Example end_to_end_example :
  let row1 : Row (RT := latin1) :=
    [(py "foro", PStr (py "CNN")); (py "mensaje", PStr (py "Hola mundo"))] in
  let row2 : Row (RT := latin1) :=
    [(py "foro", PStr (py "bbc")); (py "mensaje", PStr (py "bye"))] in
  let row3 : Row (RT := latin1) :=
    [(py "foro", PStr (py "cnn news")); (py "mensaje", PStr (py "saludos"))] in
  let pattern :=
    process_pattern (RT := latin1) [(py "foro", [PStr (py "cnn")])] in
  matches row1 pattern = Ok true
  /\ matches row2 pattern = Ok false
  /\ matches row3 pattern = Ok true.
Proof. intros. repeat split; vm_compute; reflexivity. Qed.

(** A label that occurs twice in a row: the evaluation of its column raises,
    and the row is passed over. *)
Example repeated_label_example :
  let pattern :=
    process_pattern (RT := latin1) [(py "foro", [PStr (py "cnn")])] in
  let row : Row (RT := latin1) :=
    [(py "foro", PStr (py "cnn")); (py "foro", PStr (py "cnn"))] in
  matches row pattern = Raise
  /\ matching_rows [(py "regla", pattern)] [row] (py "regla") = [].
Proof. intros. repeat split; vm_compute; reflexivity. Qed.

(* ================================================================== *)
(** * Further properties: the conjunctive match                         *)
(* ================================================================== *)

Section ConjunctionFacts.
Context {RT : PyRuntime}.

Lemma set_add_length (x : str) (s : list str) :
  (List.length (set_add x s) <= S (List.length s))%nat.
Proof.
  unfold set_add. destruct (str_mem x s); [lia|].
  rewrite length_app. simpl. lia.
Qed.

Lemma set_add_new (x : str) (s : list str) :
  ~ In x s -> set_add x s = s ++ [x].
Proof.
  intros H. unfold set_add. apply str_mem_not_In in H. rewrite H.
  reflexivity.
Qed.

Lemma check_column_next {C : Type} (check : value -> C -> result bool)
    (row : Row) (m : list str) (t : nat) (field : str * C)
    (st' : progress) :
  check_column check row (m, t) field = Next st' ->
  exists actual_column b,
    find_column_case_insensitive (fst field) (row_index row)
    = Some actual_column
    /\ check (row_getitem row actual_column) (snd field) = Ok b
    /\ st' = (if b then set_add (fst field) m else m, S t).
Proof.
  destruct field as [col conds]. unfold check_column. simpl.
  destruct (find_column_case_insensitive col (row_index row)) as [actual|];
    [|discriminate].
  destruct (check (row_getitem row actual) conds) as [[|]|] eqn:E;
    [| |discriminate]; intros H; inversion H; subst;
    [exists actual, true | exists actual, false]; auto.
Qed.

(** What a loop that reaches the next loop has done: it has counted every
    column of the bucket, and recorded names of the bucket only, one more
    name at most for each column that is satisfied. *)
Lemma loop_next {C : Type} (check : value -> C -> result bool) (row : Row)
    (fields : Dict.t C) :
  forall (m : list str) (t : nat) (m' : list str) (t' : nat),
    for_each (check_column check row) fields (m, t) = Next (m', t') ->
    t' = (t + List.length fields)%nat
    /\ (List.length m' <= List.length m + List.length fields)%nat
    /\ (List.length m' = (List.length m + List.length fields)%nat ->
        Forall (satisfied check row) fields)
    /\ incl m' (m ++ Dict.keys fields)
    /\ (NoDup m -> NoDup m').
Proof.
  induction fields as [|field fields IH]; intros m t m' t' H.
  - simpl in H. inversion H; subst. simpl.
    repeat split; auto; try lia.
    rewrite app_nil_r. apply incl_refl.
  - change (for_each (check_column check row) (field :: fields) (m, t))
      with (match check_column check row (m, t) field with
            | Next s' => for_each (check_column check row) fields s'
            | Return b => Return b
            | Raised => Raised
            end) in H.
    destruct (check_column check row (m, t) field) as [st1| |] eqn:E;
      [|discriminate H|discriminate H].
    destruct (check_column_next _ _ _ _ _ _ E)
      as (actual & b & Hfind & Hcheck & ->).
    apply IH in H. destruct H as (Ht & Hlen & Hall & Hincl & Hnd).
    pose proof (set_add_length (fst field) m) as Hadd.
    simpl List.length. split; [lia|].
    split; [destruct b; lia|]. split; [|split].
    + intros Heq. destruct b; [|exfalso; lia].
      constructor; [exists actual; auto | apply Hall; lia].
    + intros x Hx. apply Hincl in Hx. simpl.
      rewrite in_app_iff in Hx |- *. simpl.
      destruct Hx as [Hx | Hx]; [|tauto].
      destruct b; [|tauto].
      apply set_add_In in Hx. destruct Hx as [-> | Hx]; tauto.
    + intros Hm. apply Hnd. destruct b; [|exact Hm].
      apply set_add_NoDup, Hm.
Qed.

(** A loop over a bucket whose columns are all satisfied and new. *)
Lemma loop_all_satisfied {C : Type} (check : value -> C -> result bool)
    (row : Row) (fields : Dict.t C) :
  Forall (satisfied check row) fields ->
  forall (m : list str) (t : nat),
    NoDup (m ++ Dict.keys fields) ->
    for_each (check_column check row) fields (m, t)
    = Next (m ++ Dict.keys fields, (t + List.length fields)%nat).
Proof.
  induction 1 as [|[col conds] fields (actual & Hfind & Hcheck) Hall IH];
    intros m t Hnd; simpl.
  - rewrite app_nil_r, Nat.add_0_r. reflexivity.
  - simpl in Hfind, Hcheck. unfold check_column at 1.
    rewrite Hfind, Hcheck.
    assert (Hnew : ~ In col m).
    { intros Hin. apply NoDup_remove_2 in Hnd. apply Hnd.
      apply in_or_app. left. exact Hin. }
    rewrite (set_add_new col m Hnew).
    rewrite IH; [|rewrite <- app_assoc; exact Hnd].
    rewrite <- app_assoc. simpl. f_equal. f_equal. lia.
Qed.

Lemma matches_true_inv (row : Row) (pattern : processed_pattern) :
  matches row pattern = Ok true ->
  exists m1 t1 m2 t2 m3 t3 m4 t4,
    for_each (check_column _check_string_condition row)
      (string_fields pattern) ([], O) = Next (m1, t1)
    /\ for_each (check_column _check_numeric_condition row)
         (numeric_fields pattern) (m1, t1) = Next (m2, t2)
    /\ for_each (check_column _check_date_condition row)
         (date_fields pattern) (m2, t2) = Next (m3, t3)
    /\ for_each (check_column _check_boolean_condition row)
         (boolean_fields pattern) (m3, t3) = Next (m4, t4)
    /\ List.length m4 = t4.
Proof.
  unfold matches. intros H.
  destruct (for_each (check_column _check_string_condition row)
              (string_fields pattern) ([], O)) as [[m1 t1] | b1 |] eqn:L1;
    simpl bind_flow in H;
    [| apply loop_return_false in L1; subst; discriminate | discriminate].
  destruct (for_each (check_column _check_numeric_condition row)
              (numeric_fields pattern) (m1, t1)) as [[m2 t2] | b2 |] eqn:L2;
    simpl bind_flow in H;
    [| apply loop_return_false in L2; subst; discriminate | discriminate].
  destruct (for_each (check_column _check_date_condition row)
              (date_fields pattern) (m2, t2)) as [[m3 t3] | b3 |] eqn:L3;
    simpl bind_flow in H;
    [| apply loop_return_false in L3; subst; discriminate | discriminate].
  destruct (for_each (check_column _check_boolean_condition row)
              (boolean_fields pattern) (m3, t3)) as [[m4 t4] | b4 |] eqn:L4;
    [| apply loop_return_false in L4; subst; discriminate | discriminate].
  exists m1, t1, m2, t2, m3, t3, m4, t4.
  repeat split; auto. inversion H as [Heq]. apply Nat.eqb_eq in Heq.
  exact Heq.
Qed.

End ConjunctionFacts.

Lemma matches_true_sound (RT : PyRuntime) (row : Row)
    (pattern : processed_pattern) :
  matches row pattern = Ok true ->
  NoDup (all_keys pattern) /\ all_satisfied row pattern.
Proof.
  intros H.
  destruct (matches_true_inv row pattern H)
    as (m1 & t1 & m2 & t2 & m3 & t3 & m4 & t4 & L1 & L2 & L3 & L4 & Hlen).
  apply loop_next in L1. destruct L1 as (T1 & N1 & A1 & I1 & D1).
  apply loop_next in L2. destruct L2 as (T2 & N2 & A2 & I2 & D2).
  apply loop_next in L3. destruct L3 as (T3 & N3 & A3 & I3 & D3).
  apply loop_next in L4. destruct L4 as (T4 & N4 & A4 & I4 & D4).
  simpl in T1, N1, A1, I1. split.
  + assert (Hnd : NoDup m4) by (apply D4, D3, D2, D1; constructor).
    assert (Hincl : incl m4 (all_keys pattern)).
    { unfold all_keys. intros x Hx. apply I4 in Hx.
      rewrite !in_app_iff in *. destruct Hx as [Hx | Hx]; [|tauto].
      apply I3 in Hx. rewrite in_app_iff in Hx.
      destruct Hx as [Hx | Hx]; [|tauto].
      apply I2 in Hx. rewrite in_app_iff in Hx.
      destruct Hx as [Hx | Hx]; [|tauto].
      apply I1 in Hx. tauto. }
    apply (@NoDup_incl_NoDup _ m4 (all_keys pattern) Hnd); [|exact Hincl].
    unfold all_keys, Dict.keys. rewrite !length_app, !length_map. lia.
  + unfold all_satisfied.
    repeat split; [apply A1 | apply A2 | apply A3 | apply A4]; lia.
Qed.

Lemma matches_complete (RT : PyRuntime) (row : Row)
    (pattern : processed_pattern) :
  NoDup (all_keys pattern) -> all_satisfied row pattern ->
  matches row pattern = Ok true.
Proof.
  intros Hnd (S1 & S2 & S3 & S4). unfold matches, all_keys in *.
  rewrite (loop_all_satisfied _ row _ S1 [] O);
    [|simpl; apply (NoDup_app_remove_r _ _ Hnd)].
  simpl bind_flow.
  rewrite (loop_all_satisfied _ row _ S2);
    [|rewrite app_assoc in Hnd; apply (NoDup_app_remove_r _ _ Hnd)].
  simpl bind_flow.
  rewrite (loop_all_satisfied _ row _ S3);
    [|rewrite !app_assoc in Hnd; apply (NoDup_app_remove_r _ _ Hnd)].
  simpl bind_flow.
  rewrite (loop_all_satisfied _ row _ S4);
    [|rewrite <- !app_assoc; exact Hnd].
  f_equal. apply Nat.eqb_eq. unfold Dict.keys.
  rewrite !length_app, !length_map. simpl. lia.
Qed.

(** X1: a row matches a compiled rule exactly when every column of every
    bucket has a column in the row on whose cell the evaluator of the bucket
    returns [True], and no column name occurs twice among the buckets. *)
Theorem matches_iff_all_satisfied (RT : PyRuntime) (row : Row)
    (pattern : processed_pattern) :
  matches row pattern = Ok true
  <-> NoDup (all_keys pattern) /\ all_satisfied row pattern.
Proof.
  split.
  - apply matches_true_sound.
  - intros [Hnd Hall]. apply matches_complete; assumption.
Qed.

(* ================================================================== *)
(** * Further properties: compiled conditions                           *)
(* ================================================================== *)

Lemma NoDup_app_disjoint {A : Type} (l1 l2 : list A) (x : A) :
  NoDup (l1 ++ l2) -> In x l1 -> In x l2 -> False.
Proof.
  induction l1 as [|a l1 IH]; simpl; intros Hnd H1 H2; [contradiction|].
  inversion Hnd as [|? ? Hnotin Hnd']; subst.
  destruct H1 as [-> | H1].
  - apply Hnotin. apply in_or_app. right. exact H2.
  - apply IH; assumption.
Qed.

Lemma dict_mem_keys {V : Type} (k : str) (d : Dict.t V) :
  Dict.mem k d = true <-> In k (Dict.keys d).
Proof. unfold Dict.mem. apply str_mem_In. Qed.

Section ContentFacts.
Context {RT : PyRuntime}.

Lemma has_values_nonempty (column_name : str) (values : list pyval) :
  has_values (column_name, values) = true <-> values <> [].
Proof.
  unfold has_values. simpl. destruct values; split; congruence.
Qed.

(** What compiling one column changes in the entries of the buckets. *)
Lemma process_column_entry (processed : processed_pattern)
    (item : str * list pyval) (k : kind) (column : str) :
  bucket_entry (process_column processed item) k column
  = if has_values item && kind_eqb k (bucket_of_values (snd item))
       && str_eqb column (_normalize_column_name (fst item))
    then Some (compile_values (snd item))
    else bucket_entry processed k column.
Proof.
  destruct item as [column_name values]. unfold has_values. simpl.
  destruct values as [|first rest]; [reflexivity|].
  unfold compile_values, bucket_of_values, _is_boolean_field.
  destruct (_is_date_field (py_str first));
    [|destruct (_is_numeric_field (py_str first));
      [|destruct (forallb is_bool (first :: rest))]];
    destruct k; simpl; rewrite ?dict_get_set;
    try reflexivity;
    destruct (str_eqb column (_normalize_column_name column_name));
    reflexivity.
Qed.

Lemma fold_process_column_other (items : raw_pattern) (k : kind)
    (column : str) :
  (forall item, In item items -> has_values item = true ->
     _normalize_column_name (fst item) <> column) ->
  forall processed,
    bucket_entry (fold_left process_column items processed) k column
    = bucket_entry processed k column.
Proof.
  induction items as [|item items IH]; intros Hother processed;
    [reflexivity|].
  simpl. rewrite IH; [|intros i Hi; apply Hother; right; exact Hi].
  rewrite process_column_entry.
  destruct (has_values item) eqn:Hv; [|reflexivity].
  assert (Hne : str_eqb column (_normalize_column_name (fst item)) = false).
  { apply str_eqb_neq. intros E.
    apply (Hother item (or_introl eq_refl) Hv). symmetry. exact E. }
  rewrite Hne, andb_false_r. reflexivity.
Qed.

Lemma fold_process_column_entry (items : raw_pattern) (column_name : str)
    (values : list pyval) :
  NoDup (compiled_columns items) ->
  In (column_name, values) items -> values <> [] ->
  forall processed,
    bucket_entry (fold_left process_column items processed)
      (bucket_of_values values) (_normalize_column_name column_name)
    = Some (compile_values values).
Proof.
  unfold compiled_columns, Dict.keys.
  induction items as [|item items IH]; intros Hnd Hin Hv processed;
    [contradiction|].
  simpl fold_left. destruct Hin as [-> | Hin].
  - assert (Hhas : has_values (column_name, values) = true)
      by (apply has_values_nonempty, Hv).
    simpl in Hnd. rewrite Hhas in Hnd. simpl in Hnd.
    inversion Hnd as [|? ? Hnotin Hnd']; subst.
    rewrite fold_process_column_other.
    + rewrite process_column_entry, Hhas. simpl snd. simpl fst.
      rewrite str_eqb_refl.
      replace (kind_eqb (bucket_of_values values) (bucket_of_values values))
        with true by (symmetry; apply kind_eqb_eq; reflexivity).
      reflexivity.
    + intros i Hi Hiv E. apply Hnotin. rewrite <- E.
      rewrite map_map. apply (in_map (fun x => _normalize_column_name (fst x))).
      apply filter_In. auto.
  - apply IH; [|exact Hin|exact Hv].
    simpl in Hnd. destruct (has_values item); [|exact Hnd].
    simpl in Hnd. inversion Hnd; assumption.
Qed.

Lemma bools_of_all (values : list pyval) :
  forallb is_bool values = true -> map PBool (bools_of values) = values.
Proof.
  induction values as [|v values IH]; simpl; [reflexivity|].
  rewrite andb_true_iff. intros [Hv Hall].
  destruct v; try discriminate. simpl. rewrite IH by exact Hall.
  reflexivity.
Qed.

End ContentFacts.

(** X2: when the columns of a raw rule that have values have distinct
    normalized names, the compiled rule holds for each of them, under its
    normalized name and in the bucket that its values designate, exactly
    the conditions compiled from its own values; in the boolean bucket
    these are the values themselves. *)
Theorem compiled_column_contents (RT : PyRuntime) (pattern_data : raw_pattern)
    (column_name : str) (values : list pyval) :
  NoDup (compiled_columns pattern_data) ->
  In (column_name, values) pattern_data -> values <> [] ->
  bucket_entry (process_pattern pattern_data) (bucket_of_values values)
    (_normalize_column_name column_name)
  = Some (compile_values values)
  /\ (bucket_of_values values = KBoolean ->
      map PBool (bools_of values) = values).
Proof.
  intros Hnd Hin Hv. split.
  - apply fold_process_column_entry; assumption.
  - unfold bucket_of_values. destruct values as [|first rest]; [congruence|].
    destruct (_is_date_field (py_str first)); [discriminate|].
    destruct (_is_numeric_field (py_str first)); [discriminate|].
    destruct (forallb is_bool (first :: rest)) eqn:E; [|discriminate].
    intros _. apply bools_of_all, E.
Qed.

Lemma compiled_column_contents_witness :
  bucket_entry
    (process_pattern (RT := latin1)
       [(py "Foro", [PStr (py " CNN! "); PStr (py "bbc")]);
        (py "verificado", [PBool true; PBool false])])
    KString (py "foro")
  = Some (CString [py "CNN"; py "bbc"]).
Proof.
  apply (proj1 (compiled_column_contents latin1
                  [(py "Foro", [PStr (py " CNN! "); PStr (py "bbc")]);
                   (py "verificado", [PBool true; PBool false])]
                  (py "Foro") [PStr (py " CNN! "); PStr (py "bbc")]
                  ltac:(vm_compute; repeat constructor; simpl;
                        intuition discriminate)
                  ltac:(left; reflexivity)
                  ltac:(discriminate))).
Defined.

Section NeverMatchFacts.
Context {RT : PyRuntime}.

Lemma in_bucket_keys (pattern : processed_pattern) (k : kind)
    (column : str) :
  in_bucket pattern k column = true ->
  In column
     match k with
     | KString => Dict.keys (string_fields pattern)
     | KNumeric => Dict.keys (numeric_fields pattern)
     | KDate => Dict.keys (date_fields pattern)
     | KBoolean => Dict.keys (boolean_fields pattern)
     end.
Proof. destruct k; apply dict_mem_keys. Qed.

(** A name that is in two buckets occurs twice among the columns. *)
Lemma two_buckets_not_NoDup (pattern : processed_pattern) (k1 k2 : kind)
    (column : str) :
  k1 <> k2 ->
  in_bucket pattern k1 column = true ->
  in_bucket pattern k2 column = true ->
  ~ NoDup (all_keys pattern).
Proof.
  intros Hne H1 H2 Hnd. apply in_bucket_keys in H1, H2.
  unfold all_keys in Hnd.
  pose proof (NoDup_app_disjoint _ _ column Hnd) as D1.
  pose proof (NoDup_app_disjoint _ _ column
                (NoDup_app_remove_l _ _ Hnd)) as D2.
  pose proof (NoDup_app_disjoint _ _ column
                (NoDup_app_remove_l _ _ (NoDup_app_remove_l _ _ Hnd)))
    as D3.
  rewrite !in_app_iff in D1. rewrite in_app_iff in D2.
  destruct k1, k2; try congruence; tauto.
Qed.

(** No evaluator returns [True] on an empty list of conditions. *)
Lemma string_condition_empty (v : value) :
  _check_string_condition v [] <> Ok true.
Proof.
  destruct v as [cell|]; simpl; [|discriminate].
  destruct (pd_isna cell); discriminate.
Qed.

Lemma numeric_condition_empty (v : value) :
  _check_numeric_condition v [] <> Ok true.
Proof.
  destruct v as [cell|]; simpl; [|discriminate].
  destruct (pd_isna cell); [discriminate|].
  destruct (py_float cell); discriminate.
Qed.

Lemma date_condition_empty (v : value) :
  _check_date_condition v [] <> Ok true.
Proof.
  destruct v as [cell|]; simpl; [|discriminate].
  destruct (pd_isna cell); [discriminate|].
  destruct cell; try discriminate.
  destruct (strptime_ymd s); discriminate.
Qed.

Lemma boolean_condition_empty (v : value) :
  _check_boolean_condition v [] <> Ok true.
Proof.
  destruct v as [cell|]; simpl; [|discriminate].
  destruct (pd_isna cell); [discriminate|].
  destruct cell; discriminate.
Qed.

Lemma satisfied_In {C : Type} (check : value -> C -> result bool)
    (row : Row) (fields : Dict.t C) (column : str) (conditions : C) :
  Forall (satisfied check row) fields ->
  In (column, conditions) fields ->
  exists v, check v conditions = Ok true.
Proof.
  intros Hall Hin. rewrite Forall_forall in Hall.
  destruct (Hall _ Hin) as (actual & _ & Hc). simpl in Hc. eauto.
Qed.

Lemma dict_get_In {V : Type} (k : str) (v : V) (d : Dict.t V) :
  Dict.get k d = Some v -> In (k, v) d.
Proof.
  induction d as [|[k' v'] d IH]; simpl; [discriminate|].
  destruct (str_eqb k k') eqn:E.
  - apply str_eqb_eq in E. intros H. inversion H; subst. left. reflexivity.
  - intros H. right. apply IH, H.
Qed.

Lemma process_numeric_values_none (values : list pyval) :
  Forall unparsable_number values -> _process_numeric_values values = [].
Proof.
  unfold _process_numeric_values.
  induction 1 as [|v values Hv Hall IH]; simpl; [reflexivity|].
  rewrite IH. unfold unparsable_number in Hv.
  destruct (match_operator (py_str v)) as [[op num_str]|]; rewrite Hv;
    reflexivity.
Qed.

Lemma process_date_values_none (values : list pyval) :
  Forall unparsable_date values -> _process_date_values values = [].
Proof.
  unfold _process_date_values.
  induction 1 as [|v values Hv Hall IH]; simpl; [reflexivity|].
  rewrite IH. unfold unparsable_date in Hv.
  destruct (match_operator (py_str v)) as [[op date_str]|].
  - rewrite Hv. reflexivity.
  - destruct v; try reflexivity. rewrite Hv. reflexivity.
Qed.

Lemma empty_conditions_never_match (row : Row)
    (pattern : processed_pattern) (column : str) :
  In (column, []) (string_fields pattern)
  \/ In (column, []) (numeric_fields pattern)
  \/ In (column, []) (date_fields pattern)
  \/ In (column, []) (boolean_fields pattern) ->
  matches row pattern <> Ok true.
Proof.
  intros Hin H. apply matches_true_sound in H.
  destruct H as [_ (S1 & S2 & S3 & S4)].
  destruct Hin as [Hin | [Hin | [Hin | Hin]]].
  - destruct (satisfied_In _ _ _ _ _ S1 Hin) as [v Hv].
    exact (string_condition_empty v Hv).
  - destruct (satisfied_In _ _ _ _ _ S2 Hin) as [v Hv].
    exact (numeric_condition_empty v Hv).
  - destruct (satisfied_In _ _ _ _ _ S3 Hin) as [v Hv].
    exact (date_condition_empty v Hv).
  - destruct (satisfied_In _ _ _ _ _ S4 Hin) as [v Hv].
    exact (boolean_condition_empty v Hv).
Qed.

End NeverMatchFacts.

(** X3: a raw rule in which two columns that have values have the same
    normalized name and designate different buckets compiles to a rule that
    matches no row: the name is counted once among the matched columns and
    twice in the total. *)
Theorem colliding_columns_never_match (RT : PyRuntime)
    (pattern_data : raw_pattern) (column1 column2 : str)
    (values1 values2 : list pyval) (row : Row) :
  In (column1, values1) pattern_data -> values1 <> [] ->
  In (column2, values2) pattern_data -> values2 <> [] ->
  _normalize_column_name column1 = _normalize_column_name column2 ->
  bucket_of_values values1 <> bucket_of_values values2 ->
  matches row (process_pattern pattern_data) <> Ok true.
Proof.
  intros H1 V1 H2 V2 Hname Hkind H.
  apply matches_true_sound in H. destruct H as [Hnd _].
  apply (two_buckets_not_NoDup (process_pattern pattern_data)
           (bucket_of_values values1) (bucket_of_values values2)
           (_normalize_column_name column1) Hkind); [| |exact Hnd].
  - apply in_bucket_process_pattern. exists column1, values1. auto.
  - apply in_bucket_process_pattern. exists column2, values2. auto.
Qed.

Lemma colliding_columns_never_match_witness :
  matches (RT := latin1) [(py "Tweet ID", PStr (py "1"))]
    (process_pattern
       [(py "tweet id", [PStr (py "1")]); (py "tweet_id", [PBool true])])
  <> Ok true.
Proof.
  apply (colliding_columns_never_match latin1
           [(py "tweet id", [PStr (py "1")]); (py "tweet_id", [PBool true])]
           (py "tweet id") (py "tweet_id") [PStr (py "1")] [PBool true]).
  - left. reflexivity.
  - discriminate.
  - right. left. reflexivity.
  - discriminate.
  - vm_compute. reflexivity.
  - vm_compute. discriminate.
Defined.

(** X4: a compiled rule that holds a column with an empty list of
    conditions matches no row.  When the columns of a raw rule that have
    values have distinct normalized names, this is what becomes of a
    numeric or date column none of whose values can be converted, each such
    value being dropped at compilation: the rule matches no row.  (Without
    distinct names a later column of the same normalized name and bucket
    replaces the empty list.) *)
Theorem unparsable_column_never_matches (RT : PyRuntime) :
  (forall (row : Row) (pattern : processed_pattern) (column : str),
      In (column, []) (string_fields pattern)
      \/ In (column, []) (numeric_fields pattern)
      \/ In (column, []) (date_fields pattern)
      \/ In (column, []) (boolean_fields pattern) ->
      matches row pattern <> Ok true)
  /\ (forall (pattern_data : raw_pattern) (column_name : str)
             (values : list pyval) (row : Row),
         NoDup (compiled_columns pattern_data) ->
         In (column_name, values) pattern_data -> values <> [] ->
         (bucket_of_values values = KNumeric
          /\ Forall unparsable_number values)
         \/ (bucket_of_values values = KDate
             /\ Forall unparsable_date values) ->
         matches row (process_pattern pattern_data) <> Ok true).
Proof.
  split; [intros row pattern column; apply empty_conditions_never_match|].
  intros pattern_data column_name values row Hnd Hin Hv Hcase.
  pose proof (fold_process_column_entry pattern_data column_name values
                Hnd Hin Hv (empty_processed pattern_data)) as E.
  fold (process_pattern pattern_data) in E.
  apply (empty_conditions_never_match row _
           (_normalize_column_name column_name)).
  unfold compile_values in E.
  destruct Hcase as [[K Hall] | [K Hall]]; rewrite K in E; simpl in E.
  - rewrite (process_numeric_values_none values Hall) in E.
    destruct (Dict.get (_normalize_column_name column_name)
                (numeric_fields (process_pattern pattern_data)))
      as [conds|] eqn:G; [|discriminate].
    inversion E; subst conds. right. left. apply dict_get_In, G.
  - rewrite (process_date_values_none values Hall) in E.
    destruct (Dict.get (_normalize_column_name column_name)
                (date_fields (process_pattern pattern_data)))
      as [conds|] eqn:G; [|discriminate].
    inversion E; subst conds. right. right. left. apply dict_get_In, G.
Qed.

Lemma unparsable_column_never_matches_witness :
  matches (RT := latin1) [(py "seguidores", PInt 7)]
    (process_pattern [(py "seguidores", [PStr (py ">5x")])])
  <> Ok true.
Proof.
  apply (proj2 (unparsable_column_never_matches latin1)
           [(py "seguidores", [PStr (py ">5x")])]
           (py "seguidores") [PStr (py ">5x")]).
  - vm_compute. repeat constructor; simpl; intuition discriminate.
  - left. reflexivity.
  - discriminate.
  - left. split; [vm_compute; reflexivity|].
    constructor; [vm_compute; reflexivity | constructor].
Defined.

(** Without distinct normalized names the column may match after all: the
    second column replaces the empty list of the first. *)
Example replaced_empty_column_matches :
  matches (RT := latin1) [(py "seguidores", PInt 7)]
    (process_pattern
       [(py "seguidores", [PStr (py ">5x")]);
        (py "seguidores ", [PStr (py ">5")])])
  = Ok true.
Proof. vm_compute. reflexivity. Qed.

(* ================================================================== *)
(** * Further properties: the result of a run                           *)
(* ================================================================== *)

Lemma str_eqb_comm (a b : str) : str_eqb a b = str_eqb b a.
Proof.
  destruct (str_eqb a b) eqn:E; symmetry.
  - apply str_eqb_eq in E. subst. apply str_eqb_refl.
  - apply str_eqb_neq. apply str_eqb_neq in E. congruence.
Qed.

Lemma dict_set_new {V : Type} (k : str) (v : V) (d : Dict.t V) :
  ~ In k (Dict.keys d) -> Dict.set k v d = d ++ [(k, v)].
Proof.
  induction d as [|[k' v'] d IH]; simpl; intros H; [reflexivity|].
  destruct (str_eqb k k') eqn:E.
  - apply str_eqb_eq in E. subst. tauto.
  - rewrite IH by tauto. reflexivity.
Qed.

Lemma dict_set_set {V : Type} (k : str) (v : V) (d : Dict.t V) :
  Dict.set k v (Dict.set k v d) = Dict.set k v d.
Proof.
  induction d as [|[k' v'] d IH]; simpl.
  - rewrite str_eqb_refl. reflexivity.
  - destruct (str_eqb k k') eqn:E; simpl; rewrite E; [reflexivity|].
    rewrite IH. reflexivity.
Qed.

Lemma dict_keys_map_snd {V W : Type} (f : str * V -> W) (d : Dict.t V) :
  Dict.keys (map (fun e => (fst e, f e)) d) = Dict.keys d.
Proof.
  unfold Dict.keys. rewrite map_map. apply map_ext. reflexivity.
Qed.

Section ResultFacts.
Context {RT : PyRuntime}.
Variable processed : Dict.t processed_pattern.

(** The assignment [results[pattern_name][language] = rows] touches the
    entry of the rule only. *)
Lemma store_result_map (res : Dict.t (Dict.t DataFrame))
    (pattern_name language : str) (rows : DataFrame) :
  NoDup (Dict.keys res) ->
  store_result res pattern_name language rows
  = map (fun e =>
           (fst e,
            if str_eqb (fst e) pattern_name
            then Dict.set language rows (snd e) else snd e))
      res.
Proof.
  unfold store_result.
  induction res as [|[k inner] res IH]; intros Hnd; [reflexivity|].
  simpl in Hnd. inversion Hnd as [|? ? Hnotin Hnd']; subst.
  simpl Dict.get. rewrite (str_eqb_comm pattern_name k).
  simpl map. destruct (str_eqb k pattern_name) eqn:E.
  - apply str_eqb_eq in E. subst k. simpl. rewrite str_eqb_refl.
    f_equal. clear IH Hnd Hnd'.
    induction res as [|[k' inner'] res IH]; [reflexivity|].
    simpl in Hnotin. simpl.
    destruct (str_eqb k' pattern_name) eqn:E'.
    + apply str_eqb_eq in E'. tauto.
    + rewrite <- IH by tauto. reflexivity.
  - specialize (IH Hnd').
    destruct (Dict.get pattern_name res) as [by_language|] eqn:G.
    + simpl. rewrite (str_eqb_comm pattern_name k), E.
      rewrite IH. reflexivity.
    + rewrite <- IH. reflexivity.
Qed.

Lemma update_entry_twice (language : str) (df : DataFrame)
    (pattern_name : str) (by_language : Dict.t DataFrame) :
  update_entry processed language df pattern_name
    (update_entry processed language df pattern_name by_language)
  = update_entry processed language df pattern_name by_language.
Proof.
  unfold update_entry.
  destruct (matching_rows processed df pattern_name); [reflexivity|].
  apply dict_set_set.
Qed.

Lemma apply_language_map (pattern_names : list str) (language : str)
    (df : DataFrame) :
  forall res : Dict.t (Dict.t DataFrame),
    NoDup (Dict.keys res) ->
    apply_language processed pattern_names res (language, df)
    = map (fun e =>
             (fst e,
              if str_mem (fst e) pattern_names
              then update_entry processed language df (fst e) (snd e)
              else snd e))
        res.
Proof.
  unfold apply_language.
  induction pattern_names as [|name names IH]; intros res Hnd.
  - simpl. rewrite <- (map_id res) at 1. apply map_ext.
    intros [k inner]. reflexivity.
  - simpl fold_left.
    assert (Hstep :
              match matching_rows processed df name with
              | [] => res
              | r :: rs => store_result res name language (r :: rs)
              end
              = map (fun e =>
                       (fst e,
                        if str_eqb (fst e) name
                        then update_entry processed language df (fst e)
                               (snd e)
                        else snd e))
                  res).
    { destruct (matching_rows processed df name) as [|r rs] eqn:M.
      - rewrite <- (map_id res) at 1. apply map_ext.
        intros [k inner]. simpl. destruct (str_eqb k name) eqn:E;
          [|reflexivity].
        apply str_eqb_eq in E. subst k. unfold update_entry. rewrite M.
        reflexivity.
      - rewrite (store_result_map res name language (r :: rs) Hnd).
        apply map_ext. intros [k inner]. simpl.
        destruct (str_eqb k name) eqn:E; [|reflexivity].
        apply str_eqb_eq in E. subst k. unfold update_entry. rewrite M.
        reflexivity. }
    rewrite Hstep, IH by (rewrite dict_keys_map_snd; exact Hnd).
    rewrite map_map. apply map_ext. intros [k inner]. simpl.
    destruct (str_eqb k name) eqn:E; simpl.
    + destruct (str_mem k names); [|reflexivity].
      rewrite update_entry_twice. reflexivity.
    + reflexivity.
Qed.

(** The entry of a rule after all the languages, from the entry
    [by_language] whose keys are not languages of the data. *)
Lemma fold_update_entry (pattern_name : str) :
  forall (data : Dict.t DataFrame) (by_language : Dict.t DataFrame),
    NoDup (Dict.keys by_language ++ Dict.keys data) ->
    fold_left
      (fun inner entry =>
         update_entry processed (fst entry) (snd entry) pattern_name inner)
      data by_language
    = by_language ++ flat_map (language_entry processed pattern_name) data.
Proof.
  induction data as [|[language df] data IH]; intros by_language Hnd.
  - simpl. rewrite app_nil_r. reflexivity.
  - simpl fold_left. simpl flat_map.
    unfold update_entry at 2, language_entry at 1. simpl fst. simpl snd.
    simpl in Hnd.
    destruct (matching_rows processed df pattern_name) as [|r rs].
    + apply IH. apply NoDup_remove_1 in Hnd. exact Hnd.
    + rewrite dict_set_new.
      * rewrite IH.
        -- rewrite <- app_assoc. reflexivity.
        -- unfold Dict.keys. rewrite map_app. simpl.
           rewrite <- app_assoc. exact Hnd.
      * apply NoDup_remove_2 in Hnd. intros Hin. apply Hnd.
        apply in_or_app. left. exact Hin.
Qed.

Lemma apply_data_map (pattern_names : list str) :
  forall (data : Dict.t DataFrame) (res : Dict.t (Dict.t DataFrame)),
    NoDup (Dict.keys res) ->
    fold_left (apply_language processed pattern_names) data res
    = map (fun e =>
             (fst e,
              if str_mem (fst e) pattern_names
              then fold_left
                     (fun inner entry =>
                        update_entry processed (fst entry) (snd entry)
                          (fst e) inner)
                     data (snd e)
              else snd e))
        res.
Proof.
  induction data as [|[language df] data IH]; intros res Hnd.
  - simpl. rewrite <- (map_id res) at 1. apply map_ext.
    intros [k inner]. simpl. destruct (str_mem k pattern_names);
      reflexivity.
  - cbn [fold_left].
    rewrite (apply_language_map pattern_names language df res Hnd).
    rewrite IH by (rewrite dict_keys_map_snd; exact Hnd).
    rewrite map_map. apply map_ext. intros [k inner]. simpl.
    destruct (str_mem k pattern_names); reflexivity.
Qed.

Lemma initial_results_map (pattern_names : list str) :
  forall acc : Dict.t (Dict.t DataFrame),
    NoDup (Dict.keys acc ++ pattern_names) ->
    fold_left (fun res name => Dict.set name Dict.empty res)
      pattern_names acc
    = acc ++ map (fun name => (name, Dict.empty)) pattern_names.
Proof.
  induction pattern_names as [|name names IH]; intros acc Hnd; simpl.
  - rewrite app_nil_r. reflexivity.
  - rewrite dict_set_new.
    + rewrite IH.
      * rewrite <- app_assoc. reflexivity.
      * unfold Dict.keys. rewrite map_app. simpl. rewrite <- app_assoc.
        exact Hnd.
    + apply NoDup_remove_2 in Hnd. intros Hin. apply Hnd.
      apply in_or_app. left. exact Hin.
Qed.

End ResultFacts.

(** The result of a run over languages and rules with distinct names. *)
Lemma results_of_run {RT : PyRuntime} (self : analyzer)
    (data : Dict.t DataFrame) (patterns : Dict.t raw_pattern) :
  NoDup (Dict.keys data) ->
  NoDup (Dict.keys patterns) ->
  results (apply_patterns self data patterns)
  = map (fun pattern_name =>
           (pattern_name,
            flat_map
              (language_entry
                 (_process_patterns (processed_patterns self) patterns)
                 pattern_name)
              data))
      (Dict.keys patterns).
Proof.
  intros Hdata Hpatterns. unfold apply_patterns. cbn [results].
  rewrite (initial_results_map (Dict.keys patterns) Dict.empty)
    by exact Hpatterns.
  cbn [app Dict.empty].
  rewrite apply_data_map.
  - rewrite map_map. apply map_ext_in. intros name Hin. cbn [fst snd].
    rewrite (proj2 (str_mem_In name (Dict.keys patterns)) Hin).
    rewrite fold_update_entry by exact Hdata. reflexivity.
  - unfold Dict.keys at 1. rewrite map_map. cbn [fst]. rewrite map_id.
    exact Hpatterns.
Qed.

(** X5 (Analyzer.apply_patterns).  The result of a run, in full: one entry
    per rule, in the order of the rules; the entry of a rule holds, in the
    order of the languages, each language that has a matching row with its
    matching rows in data order, and no other language.  (The keys of a
    Python dictionary are distinct; an association list needs that said.) *)
Theorem apply_patterns_results_exact {RT : PyRuntime} (self : analyzer)
    (data : Dict.t DataFrame) (patterns : Dict.t raw_pattern) :
  NoDup (Dict.keys data) ->
  NoDup (Dict.keys patterns) ->
  results (apply_patterns self data patterns)
  = map (fun pattern_name =>
           (pattern_name,
            flat_map
              (language_entry
                 (_process_patterns (processed_patterns self) patterns)
                 pattern_name)
              data))
      (Dict.keys patterns).
Proof.
  exact (results_of_run self data patterns).
Qed.

Lemma apply_patterns_results_exact_witness :
  let data : Dict.t (DataFrame (RT := latin1)) :=
    [(py "es", [[(py "foro", PStr (py "CNN"))];
                [(py "foro", PStr (py "bbc"))]]);
     (py "en", [[(py "foro", PStr (py "bbc"))]])] in
  let patterns :=
    [(py "noticias", [(py "foro", [PStr (py "cnn")])]);
     (py "radio", [(py "foro", [PStr (py "bbc")])])] in
  let self :=
    {| processed_patterns := []; results := []; column_mapping := [] |} in
  results (apply_patterns self data patterns)
  = map (fun pattern_name =>
           (pattern_name,
            flat_map
              (language_entry
                 (_process_patterns (processed_patterns self) patterns)
                 pattern_name)
              data))
      (Dict.keys patterns).
Proof.
  intros data patterns self.
  apply (apply_patterns_results_exact (RT := latin1) self data patterns).
  - vm_compute. repeat constructor; simpl; intuition discriminate.
  - vm_compute. repeat constructor; simpl; intuition discriminate.
Defined.

(* ================================================================== *)
(** * Further properties: the summary of a run                          *)
(* ================================================================== *)

Section SummaryFacts.
Context {RT : PyRuntime}.

Lemma count_language_fold (language_results : Dict.t DataFrame) :
  forall (by_language : Dict.t nat) (rows_of_rule rows_of_all : nat)
         (searched : list str),
    fold_left count_language language_results
      (by_language, rows_of_rule, rows_of_all, searched)
    = (fold_left
         (fun d entry => Dict.set (fst entry) (List.length (snd entry)) d)
         language_results by_language,
       (rows_of_rule + rows_in language_results)%nat,
       (rows_of_all + rows_in language_results)%nat,
       fold_left (fun s entry => set_add (fst entry) s)
         language_results searched).
Proof.
  unfold rows_in.
  induction language_results as [|[language df] rest IH];
    intros by_language rows_of_rule rows_of_all searched.
  - cbn. rewrite !Nat.add_0_r. reflexivity.
  - cbn [fold_left count_language]. rewrite IH. cbn [map list_sum fold_right fst snd].
    rewrite !Nat.add_assoc. reflexivity.
Qed.

Lemma count_pattern_fold (res : Dict.t (Dict.t DataFrame)) :
  forall (by_pattern : Dict.t pattern_summary) (rows_of_all : nat)
         (searched : list str),
    snd (fst (fold_left count_pattern res
                (by_pattern, rows_of_all, searched)))
    = (rows_of_all
       + list_sum (map (fun rule => rows_in (snd rule)) res))%nat
    /\ snd (fold_left count_pattern res (by_pattern, rows_of_all, searched))
       = fold_left
           (fun s rule =>
              fold_left (fun s entry => set_add (fst entry) s) (snd rule) s)
           res searched.
Proof.
  induction res as [|[pattern_name language_results] rest IH];
    intros by_pattern rows_of_all searched.
  - cbn. rewrite Nat.add_0_r. split; reflexivity.
  - cbn [fold_left count_pattern]. rewrite count_language_fold.
    destruct (IH (Dict.set pattern_name
                    {| languages := Dict.keys language_results;
                       total_rows := (0 + rows_in language_results)%nat;
                       rows_by_language :=
                         fold_left
                           (fun d entry =>
                              Dict.set (fst entry)
                                (List.length (snd entry)) d)
                           language_results Dict.empty |}
                    by_pattern)
                (rows_of_all + rows_in language_results)%nat
                (fold_left (fun s entry => set_add (fst entry) s)
                   language_results searched))
      as [Hrows Hsearched].
    rewrite Hrows, Hsearched. cbn [map list_sum fold_right snd].
    rewrite Nat.add_assoc. split; reflexivity.
Qed.

Lemma summary_patterns (self : analyzer) :
  total_patterns (get_summary self) = List.length (results self).
Proof.
  unfold get_summary.
  destruct (fold_left count_pattern (results self) (Dict.empty, O, []))
    as [[by_pattern rows_of_all] searched].
  reflexivity.
Qed.

Lemma summary_rows (self : analyzer) :
  total_matching_rows (get_summary self)
  = list_sum (map (fun rule => rows_in (snd rule)) (results self)).
Proof.
  unfold get_summary.
  pose proof (count_pattern_fold (results self) Dict.empty O [])
    as [Hrows _].
  destruct (fold_left count_pattern (results self) (Dict.empty, O, []))
    as [[by_pattern rows_of_all] searched].
  cbn in Hrows |- *. exact Hrows.
Qed.

Lemma summary_searched (self : analyzer) :
  languages_searched (get_summary self)
  = fold_left
      (fun s rule =>
         fold_left (fun s entry => set_add (fst entry) s) (snd rule) s)
      (results self) [].
Proof.
  unfold get_summary.
  pose proof (count_pattern_fold (results self) Dict.empty O [])
    as [_ Hsearched].
  destruct (fold_left count_pattern (results self) (Dict.empty, O, []))
    as [[by_pattern rows_of_all] searched].
  cbn in Hsearched |- *. exact Hsearched.
Qed.

Lemma searched_entry_In (language_results : Dict.t DataFrame) (l : str) :
  forall searched : list str,
    In l (fold_left (fun s entry => set_add (fst entry) s)
            language_results searched)
    <-> In l searched \/ In l (Dict.keys language_results).
Proof.
  induction language_results as [|[language df] rest IH]; intros searched.
  - simpl. tauto.
  - cbn [fold_left]. rewrite IH, set_add_In. simpl. intuition congruence.
Qed.

Lemma searched_In (res : Dict.t (Dict.t DataFrame)) (l : str) :
  forall searched : list str,
    In l (fold_left
            (fun s rule =>
               fold_left (fun s entry => set_add (fst entry) s)
                 (snd rule) s)
            res searched)
    <-> In l searched
        \/ exists rule, In rule res /\ In l (Dict.keys (snd rule)).
Proof.
  induction res as [|rule rest IH]; intros searched.
  - simpl. split; [tauto|]. intros [H | (rule & [] & _)]. exact H.
  - cbn [fold_left]. rewrite IH, searched_entry_In. split.
    + intros [[H | H] | (rule' & Hin & H)].
      * left. exact H.
      * right. exists rule. split; [left; reflexivity | exact H].
      * right. exists rule'. split; [right; exact Hin | exact H].
    + intros [H | (rule' & [<- | Hin] & H)].
      * left. left. exact H.
      * left. right. exact H.
      * right. exists rule'. split; assumption.
Qed.

Variable processed : Dict.t processed_pattern.

Lemma rows_in_language_entries (pattern_name : str)
    (data : Dict.t DataFrame) :
  rows_in (flat_map (language_entry processed pattern_name) data)
  = list_sum
      (map (fun entry =>
              List.length
                (matching_rows processed (snd entry) pattern_name))
         data).
Proof.
  induction data as [|[language df] data IH]; [reflexivity|].
  change (rows_in
            (language_entry processed pattern_name (language, df)
             ++ flat_map (language_entry processed pattern_name) data)
          = (List.length (matching_rows processed df pattern_name)
             + list_sum
                 (map (fun entry =>
                         List.length
                           (matching_rows processed (snd entry)
                              pattern_name))
                    data))%nat).
  rewrite <- IH. unfold rows_in. rewrite map_app, list_sum_app.
  f_equal. unfold language_entry. cbn [fst snd].
  destruct (matching_rows processed df pattern_name) as [|r rs];
    [reflexivity|].
  cbn [map list_sum fold_right snd]. apply Nat.add_0_r.
Qed.

Lemma language_entries_keys (pattern_name : str) (data : Dict.t DataFrame)
    (l : str) :
  In l (Dict.keys (flat_map (language_entry processed pattern_name) data))
  <-> exists df, In (l, df) data
                 /\ matching_rows processed df pattern_name <> [].
Proof.
  unfold Dict.keys. rewrite in_map_iff. split.
  - intros ([l' rows] & <- & Hin). apply in_flat_map in Hin.
    destruct Hin as ([language df] & Hin & Hentry).
    unfold language_entry in Hentry. cbn [fst snd] in Hentry.
    destruct (matching_rows processed df pattern_name) as [|r rs] eqn:M;
      [destruct Hentry|].
    destruct Hentry as [E | []]. inversion E; subst.
    exists df. split; [exact Hin|]. rewrite M. discriminate.
  - intros (df & Hin & Hm).
    exists (l, matching_rows processed df pattern_name). split;
      [reflexivity|].
    apply in_flat_map. exists (l, df). split; [exact Hin|].
    unfold language_entry. cbn [fst snd].
    destruct (matching_rows processed df pattern_name) as [|r rs];
      [congruence | left; reflexivity].
Qed.

End SummaryFacts.

(** X6 (Analyzer.get_summary after Analyzer.apply_patterns).  After a run,
    the summary counts one pattern per rule, and its total of matching rows
    is the number of matching rows of every language under every rule,
    added up: a row counts once for each rule it matches. *)
Theorem summary_totals_after_run {RT : PyRuntime} (self : analyzer)
    (data : Dict.t DataFrame) (patterns : Dict.t raw_pattern) :
  NoDup (Dict.keys data) ->
  NoDup (Dict.keys patterns) ->
  let after := apply_patterns self data patterns in
  total_patterns (get_summary after) = List.length patterns
  /\ total_matching_rows (get_summary after)
     = list_sum
         (map (fun pattern_name =>
                 list_sum
                   (map (fun entry =>
                           List.length
                             (matching_rows (processed_patterns after)
                                (snd entry) pattern_name))
                      data))
            (Dict.keys patterns)).
Proof.
  intros Hdata Hpatterns after. split.
  - rewrite summary_patterns. unfold after. rewrite (results_of_run self data patterns Hdata Hpatterns).
    unfold Dict.keys. rewrite !length_map. reflexivity.
  - rewrite summary_rows. unfold after.
    rewrite (results_of_run self data patterns Hdata Hpatterns).
    rewrite map_map. f_equal. apply map_ext. intros pattern_name.
    cbn [snd]. apply rows_in_language_entries.
Qed.

Lemma summary_totals_after_run_witness :
  let data : Dict.t (DataFrame (RT := latin1)) :=
    [(py "es", [[(py "foro", PStr (py "CNN"))];
                [(py "foro", PStr (py "bbc"))]]);
     (py "en", [[(py "foro", PStr (py "bbc"))]])] in
  let patterns :=
    [(py "noticias", [(py "foro", [PStr (py "cnn")])]);
     (py "radio", [(py "foro", [PStr (py "bbc")])])] in
  let self :=
    {| processed_patterns := []; results := []; column_mapping := [] |} in
  let after := apply_patterns self data patterns in
  total_patterns (get_summary after) = 2%nat
  /\ total_matching_rows (get_summary after)
     = list_sum
         (map (fun pattern_name =>
                 list_sum
                   (map (fun entry =>
                           List.length
                             (matching_rows (processed_patterns after)
                                (snd entry) pattern_name))
                      data))
            (Dict.keys patterns)).
Proof.
  intros data patterns self.
  apply (summary_totals_after_run (RT := latin1) self data patterns).
  - vm_compute. repeat constructor; simpl; intuition discriminate.
  - vm_compute. repeat constructor; simpl; intuition discriminate.
Defined.

(** X7 (Analyzer.get_summary after Analyzer.apply_patterns).  After a run,
    [languages_searched] holds the languages in which some rule has a
    matching row, and no other: a language that was read and searched
    without any match is not listed. *)
Theorem summary_languages_after_run {RT : PyRuntime} (self : analyzer)
    (data : Dict.t DataFrame) (patterns : Dict.t raw_pattern) (l : str) :
  NoDup (Dict.keys data) ->
  NoDup (Dict.keys patterns) ->
  let after := apply_patterns self data patterns in
  In l (languages_searched (get_summary after))
  <-> exists pattern_name df,
        In pattern_name (Dict.keys patterns)
        /\ In (l, df) data
        /\ matching_rows (processed_patterns after) df pattern_name <> [].
Proof.
  intros Hdata Hpatterns after. rewrite summary_searched, searched_In.
  unfold after. rewrite (results_of_run self data patterns Hdata Hpatterns).
  split.
  - intros [[] | ([name entries] & Hin & Hl)].
    apply in_map_iff in Hin. destruct Hin as (pattern_name & E & Hin).
    inversion E; subst. cbn [snd] in Hl.
    apply language_entries_keys in Hl. destruct Hl as (df & Hdf & Hm).
    exists name, df. repeat split; assumption.
  - intros (pattern_name & df & Hin & Hdf & Hm). right.
    eexists. split.
    + apply in_map_iff. exists pattern_name. split; [reflexivity | exact Hin].
    + cbn [snd]. apply language_entries_keys. exists df.
      split; assumption.
Qed.

Lemma summary_languages_after_run_witness :
  let data : Dict.t (DataFrame (RT := latin1)) :=
    [(py "es", [[(py "foro", PStr (py "CNN"))]]);
     (py "en", [[(py "foro", PStr (py "bbc"))]])] in
  let patterns := [(py "noticias", [(py "foro", [PStr (py "cnn")])])] in
  let self :=
    {| processed_patterns := []; results := []; column_mapping := [] |} in
  let after := apply_patterns self data patterns in
  In (py "es") (languages_searched (get_summary after)).
Proof.
  intros data patterns self.
  apply (summary_languages_after_run (RT := latin1) self data patterns
           (py "es")).
  - vm_compute. repeat constructor; simpl; intuition discriminate.
  - vm_compute. repeat constructor; simpl; intuition discriminate.
  - exists (py "noticias"), [[(py "foro", PStr (py "CNN"))]].
    split; [left; reflexivity|]. split; [left; reflexivity|].
    intros E. apply (f_equal (@List.length _)) in E.
    vm_compute in E. discriminate E.
Defined.

(* ================================================================== *)
(** * Further properties: the state kept between two runs               *)
(* ================================================================== *)

Lemma fold_set_other {V A : Type} (key : A -> str) (val : A -> V)
    (name : str) (items : list A) :
  ~ In name (map key items) ->
  forall acc : Dict.t V,
    Dict.get name
      (fold_left (fun d item => Dict.set (key item) (val item) d) items acc)
    = Dict.get name acc.
Proof.
  induction items as [|item items IH]; intros Hnotin acc; [reflexivity|].
  simpl in Hnotin. cbn [fold_left]. rewrite IH by tauto.
  apply dict_get_set_other. intros E. apply Hnotin. left. congruence.
Qed.

(** X8 (Analyzer.apply_patterns, Analyzer._process_patterns,
    Analyzer.get_summary).  A run starts its results afresh but adds to
    the compiled rules and to the column mappings of the analyzer: a rule
    of an earlier run that the new run does not name keeps its compiled
    form and its column mapping, is still listed by the summary as
    processed, and has no entry in the results, whatever results the
    analyzer held before. *)
Theorem earlier_rules_survive_a_run {RT : PyRuntime} (self : analyzer)
    (data : Dict.t DataFrame) (patterns : Dict.t raw_pattern)
    (pattern_name : str) :
  ~ In pattern_name (Dict.keys patterns) ->
  let after := apply_patterns self data patterns in
  Dict.get pattern_name (processed_patterns after)
  = Dict.get pattern_name (processed_patterns self)
  /\ Dict.get pattern_name (column_mapping after)
     = Dict.get pattern_name (column_mapping self)
  /\ Dict.get pattern_name (results after) = None
  /\ (In pattern_name (Dict.keys (processed_patterns self)) ->
      In pattern_name (patterns_processed (get_summary after))).
Proof.
  intros Hnotin after.
  assert (Hprocessed :
            Dict.get pattern_name (processed_patterns after)
            = Dict.get pattern_name (processed_patterns self)).
  { unfold after, apply_patterns, _process_patterns. cbn [processed_patterns].
    apply (fold_set_other fst (fun item => process_pattern (snd item))).
    exact Hnotin. }
  split; [exact Hprocessed|]. split; [|split].
  - unfold after, apply_patterns. cbn [column_mapping].
    apply (fold_set_other fst
             (fun item =>
                map _normalize_column_name (Dict.keys (snd item)))).
    exact Hnotin.
  - unfold after, apply_patterns. cbn [results].
    apply apply_data_keys. rewrite initial_results.
    apply str_mem_not_In in Hnotin. rewrite Hnotin. reflexivity.
  - intros Hin.
    assert (E : patterns_processed (get_summary after)
                = Dict.keys (processed_patterns after)).
    { unfold get_summary.
      destruct (fold_left count_pattern (results after) (Dict.empty, O, []))
        as [[by_pattern rows_of_all] searched].
      reflexivity. }
    rewrite E.
    destruct (Dict.get pattern_name (processed_patterns after)) eqn:G.
    + apply dict_get_In in G.
      apply (in_map fst) in G. exact G.
    + symmetry in Hprocessed. apply dict_get_none in Hprocessed. tauto.
Qed.

Lemma earlier_rules_survive_a_run_witness :
  let data : Dict.t (DataFrame (RT := latin1)) :=
    [(py "es", [[(py "foro", PStr (py "CNN"))]])] in
  let first := [(py "noticias", [(py "foro", [PStr (py "cnn")])])] in
  let second := [(py "radio", [(py "foro", [PStr (py "bbc")])])] in
  let self :=
    apply_patterns
      {| processed_patterns := []; results := []; column_mapping := [] |}
      data first in
  let after := apply_patterns self data second in
  Dict.get (py "noticias") (processed_patterns after)
  = Dict.get (py "noticias") (processed_patterns self)
  /\ Dict.get (py "noticias") (column_mapping after)
     = Dict.get (py "noticias") (column_mapping self)
  /\ Dict.get (py "noticias") (results after) = None
  /\ (In (py "noticias") (Dict.keys (processed_patterns self)) ->
      In (py "noticias") (patterns_processed (get_summary after))).
Proof.
  intros data first second self.
  apply (earlier_rules_survive_a_run (RT := latin1) self data second
           (py "noticias")).
  vm_compute. intuition discriminate.
Defined.

(* ================================================================== *)
(** * Further properties: sheet names                                   *)
(* ================================================================== *)

Lemma firstn_In {A : Type} (n : nat) (l : list A) (x : A) :
  In x (firstn n l) -> In x l.
Proof.
  intros H. rewrite <- (firstn_skipn n l). apply in_or_app. left. exact H.
Qed.

Section SheetNameFacts.

Lemma replace_invalid_map (s : str) : replace_invalid s = map clean_char s.
Proof.
  unfold replace_invalid.
  change invalid_chars with [92; 47; 42; 63; 58; 91; 93].
  cbn [fold_left]. unfold replace. rewrite !map_map. apply map_ext.
  intros c. unfold clean_char.
  change invalid_chars with [92; 47; 42; 63; 58; 91; 93].
  cbn [existsb].
  destruct (N.eqb_spec c 92) as [->|H1]; [reflexivity|].
  destruct (N.eqb_spec c 47) as [->|H2]; [reflexivity|].
  destruct (N.eqb_spec c 42) as [->|H3]; [reflexivity|].
  destruct (N.eqb_spec c 63) as [->|H4]; [reflexivity|].
  destruct (N.eqb_spec c 58) as [->|H5]; [reflexivity|].
  destruct (N.eqb_spec c 91) as [->|H6]; [reflexivity|].
  destruct (N.eqb_spec c 93) as [->|H7]; reflexivity.
Qed.

Lemma invalid_existsb (c : N) :
  existsb (N.eqb c) invalid_chars = true <-> In c invalid_chars.
Proof.
  rewrite existsb_exists. split.
  - intros (x & Hin & E). apply N.eqb_eq in E. subst. exact Hin.
  - intros H. exists c. split; [exact H | apply N.eqb_refl].
Qed.

Lemma clean_char_valid (c : N) : ~ In (clean_char c) invalid_chars.
Proof.
  unfold clean_char.
  destruct (existsb (N.eqb c) invalid_chars) eqn:E.
  - vm_compute. intuition discriminate.
  - intros H. apply invalid_existsb in H. congruence.
Qed.

Lemma replace_invalid_length (s : str) :
  List.length (replace_invalid s) = List.length s.
Proof. rewrite replace_invalid_map. apply length_map. Qed.

Lemma replace_invalid_valid (s : str) (c : N) :
  In c (replace_invalid s) -> ~ In c invalid_chars.
Proof.
  rewrite replace_invalid_map, in_map_iff. intros (x & <- & _).
  apply clean_char_valid.
Qed.

Lemma replace_invalid_firstn (n : nat) (s : str) :
  replace_invalid (firstn n s) = firstn n (replace_invalid s).
Proof. rewrite !replace_invalid_map. symmetry. apply firstn_map. Qed.

(** Replacing leaves a text alone exactly when it holds no invalid
    character. *)
Lemma replace_invalid_fixed (s : str) :
  replace_invalid s = s <-> forall c, In c s -> ~ In c invalid_chars.
Proof.
  rewrite replace_invalid_map. induction s as [|x s IH]; simpl.
  - split; [intros _ c [] | reflexivity].
  - split.
    + intros E. injection E as Hx Hs.
      intros c [<- | Hin].
      * rewrite <- Hx. apply clean_char_valid.
      * apply (proj1 IH Hs c Hin).
    + intros H. f_equal.
      * unfold clean_char.
        destruct (existsb (N.eqb x) invalid_chars) eqn:E; [|reflexivity].
        apply invalid_existsb in E. exfalso. apply (H x); [left|];
          (reflexivity || exact E).
      * apply IH. intros c Hin. apply H. right. exact Hin.
Qed.

End SheetNameFacts.

(** X9 (Writter._sanitize_sheet_name, analyzer).  The name given to the
    sheet of a rule has at most 31 characters and none of the characters
    that a sheet name may not hold; a name that already is of that kind is
    left as it is, and every other name is changed. *)
Theorem analyzer_sheet_name_valid (name : str) :
  valid_sheet_name (Writter._sanitize_sheet_name name)
  /\ (Writter._sanitize_sheet_name name = name <-> valid_sheet_name name).
Proof.
  unfold Writter._sanitize_sheet_name, valid_sheet_name.
  destruct (Nat.ltb_spec 31 (List.length (replace_invalid name)))
    as [Hlong | Hshort].
  - split; [split|].
    + rewrite length_app, firstn_length_le by lia. simpl. lia.
    + intros c Hin. apply in_app_or in Hin. destruct Hin as [Hin | Hin].
      * apply (replace_invalid_valid name). apply (firstn_In 28), Hin.
      * vm_compute in Hin. vm_compute.
        intuition (subst; discriminate).
    + rewrite replace_invalid_length in Hlong. split.
      * intros E. apply (f_equal (@List.length N)) in E.
        rewrite length_app, firstn_length_le in E
          by (rewrite replace_invalid_length; lia).
        simpl in E. lia.
      * intros [Hlen _]. lia.
  - split; [split|].
    + exact Hshort.
    + apply replace_invalid_valid.
    + rewrite replace_invalid_length in Hshort.
      rewrite replace_invalid_fixed. tauto.
Qed.

(** X10 (DataWriter._sanitize_sheet_name, merger).  The name given to the
    sheet of a language has at most 31 characters and none of the
    characters that a sheet name may not hold; a name that already is of
    that kind is left as it is, and every other name is changed. *)
Theorem merger_sheet_name_valid (sheet_name : str) :
  valid_sheet_name (DataWriter._sanitize_sheet_name sheet_name)
  /\ (DataWriter._sanitize_sheet_name sheet_name = sheet_name
      <-> valid_sheet_name sheet_name).
Proof.
  unfold DataWriter._sanitize_sheet_name, valid_sheet_name.
  destruct (Nat.ltb_spec 31 (List.length sheet_name)) as [Hlong | Hshort].
  - split; [split|].
    + rewrite replace_invalid_length, firstn_length_le by lia. lia.
    + apply replace_invalid_valid.
    + split.
      * intros E. apply (f_equal (@List.length N)) in E.
        rewrite replace_invalid_length, firstn_length_le in E by lia. lia.
      * intros [Hlen _]. lia.
  - split; [split|].
    + rewrite replace_invalid_length. exact Hshort.
    + apply replace_invalid_valid.
    + rewrite replace_invalid_fixed. tauto.
Qed.

(** X11 (Writter._sanitize_sheet_name and DataWriter._sanitize_sheet_name).
    The analyzer and the merger name a sheet alike when the name has at
    most 31 characters.  For a longer name they agree on the first 28
    characters only: the analyzer ends the name with three dots, the merger
    keeps the next three characters. *)
Theorem sheet_names_of_the_two_writers (name : str) :
  firstn 28 (Writter._sanitize_sheet_name name)
  = firstn 28 (DataWriter._sanitize_sheet_name name)
  /\ ((List.length name <= 31)%nat ->
      Writter._sanitize_sheet_name name
      = DataWriter._sanitize_sheet_name name)
  /\ ((31 < List.length name)%nat ->
      Writter._sanitize_sheet_name name
      = firstn 28 (replace_invalid name) ++ py "..."
      /\ DataWriter._sanitize_sheet_name name
         = firstn 31 (replace_invalid name)).
Proof.
  unfold Writter._sanitize_sheet_name, DataWriter._sanitize_sheet_name.
  rewrite replace_invalid_length.
  destruct (Nat.ltb_spec 31 (List.length name)) as [Hlong | Hshort].
  - rewrite replace_invalid_firstn. split; [|split].
    + rewrite firstn_app, firstn_firstn, firstn_firstn.
      rewrite firstn_length_le by (rewrite replace_invalid_length; lia).
      rewrite Nat.sub_diag. cbn [firstn Nat.min]. rewrite app_nil_r.
      reflexivity.
    + lia.
    + intros _. split; reflexivity.
  - split; [reflexivity|]. split; [reflexivity | lia].
Qed.

Lemma sheet_names_of_the_two_writers_witness :
  Writter._sanitize_sheet_name (py "precio/2024")
  = DataWriter._sanitize_sheet_name (py "precio/2024").
Proof.
  apply (proj1 (proj2 (sheet_names_of_the_two_writers (py "precio/2024")))).
  vm_compute. lia.
Defined.

(* ================================================================== *)
(** * Further properties: the order of the columns that are written     *)
(* ================================================================== *)

Lemma fold_append_filter {A : Type} (keep : A -> bool) (xs : list A) :
  forall acc : list A,
    fold_left (fun acc x => if keep x then acc ++ [x] else acc) xs acc
    = acc ++ filter keep xs.
Proof.
  induction xs as [|x xs IH]; intros acc; simpl.
  - rewrite app_nil_r. reflexivity.
  - rewrite IH. destruct (keep x); [|reflexivity].
    rewrite <- app_assoc. reflexivity.
Qed.

Lemma fold_add_new (xs : list str) :
  forall acc : list str,
    NoDup acc ->
    let out :=
      fold_left
        (fun acc x => if negb (str_mem x acc) then acc ++ [x] else acc)
        xs acc in
    NoDup out
    /\ (forall c, In c out <-> In c acc \/ In c xs)
    /\ exists rest, out = acc ++ rest
                    /\ forall c, In c rest -> ~ In c acc.
Proof.
  induction xs as [|x xs IH]; intros acc Hnd; cbn [fold_left].
  - split; [exact Hnd|]. split; [simpl; tauto|].
    exists []. rewrite app_nil_r. split; [reflexivity | intros c []].
  - destruct (str_mem x acc) eqn:E; cbn [negb].
    + apply str_mem_In in E. destruct (IH acc Hnd) as (Hn & Hi & rest & Hr).
      split; [exact Hn|]. split.
      * intros c. rewrite Hi. simpl. intuition (subst; auto).
      * exists rest. exact Hr.
    + apply str_mem_not_In in E.
      assert (Hnd' : NoDup (acc ++ [x])).
      { apply NoDup_app; [exact Hnd | repeat constructor; intros [] |].
        intros c Hc [<- | []]. exact (E Hc). }
      destruct (IH (acc ++ [x]) Hnd') as (Hn & Hi & rest & Hr & Hnew).
      split; [exact Hn|]. split.
      * intros c. rewrite Hi, in_app_iff. simpl. intuition (subst; auto).
      * exists (x :: rest). split.
        -- rewrite Hr, <- app_assoc. reflexivity.
        -- intros c [<- | Hc]; [exact E|].
           intros Hacc. apply (Hnew c Hc). apply in_or_app. left. exact Hacc.
Qed.

(** X12 (Writter.write_analysis_results).  The sheet of a rule has every
    column of the matching rows exactly once: first the columns of the rule
    that the rows have, in the order of the rule, then the other columns.
    (The columns of the rule are the keys of a dictionary, hence
    distinct.) *)
Theorem sheet_columns_of_a_rule (original_columns df_columns : list str) :
  NoDup original_columns ->
  let columns := final_columns original_columns df_columns in
  NoDup columns
  /\ (forall c, In c columns <-> In c df_columns)
  /\ exists others,
       columns
       = filter (fun col => str_mem col df_columns) original_columns
         ++ others
       /\ forall c, In c others -> ~ In c original_columns.
Proof.
  intros Hnd columns. unfold columns, final_columns.
  rewrite fold_append_filter. cbn [app].
  set (first := filter (fun col => str_mem col df_columns) original_columns).
  assert (Hfirst : NoDup first) by (apply NoDup_filter, Hnd).
  destruct (fold_add_new df_columns first Hfirst)
    as (Hn & Hi & rest & Hr & Hnew).
  split; [exact Hn|]. split.
  - intros c. rewrite Hi. split; [|tauto].
    intros [Hc | Hc]; [|exact Hc].
    apply filter_In in Hc. apply str_mem_In, Hc.
  - exists rest. split; [exact Hr|].
    intros c Hc Horig.
    assert (Hdf : In c df_columns).
    { destruct (proj1 (Hi c)) as [H | H].
      - rewrite Hr. apply in_or_app. right. exact Hc.
      - apply filter_In in H. apply str_mem_In, H.
      - exact H. }
    apply (Hnew c Hc). apply filter_In. split; [exact Horig|].
    apply str_mem_In, Hdf.
Qed.

Lemma sheet_columns_of_a_rule_witness :
  final_columns [py "foro"; py "idioma"; py "pais"]
    [py "id"; py "pais"; py "foro"; py "_language"]
  = [py "foro"; py "pais"; py "id"; py "_language"]
  /\ NoDup (final_columns [py "foro"; py "idioma"; py "pais"]
              [py "id"; py "pais"; py "foro"; py "_language"]).
Proof.
  split; [vm_compute; reflexivity|].
  refine (proj1 (sheet_columns_of_a_rule [py "foro"; py "idioma"; py "pais"]
                   [py "id"; py "pais"; py "foro"; py "_language"] _)).
  vm_compute. repeat constructor; simpl; intuition discriminate.
Defined.

(** X13 (Analyzer.save_results).  The file saved for a rule and a language
    has the columns of the matching rows and no other, the columns of the
    rule first; a column is written twice exactly when the column mapping
    of the rule lists twice a column that the rows have. *)
Theorem saved_columns_of_a_rule (pattern_columns df_columns : list str) :
  NoDup df_columns ->
  let columns := save_columns pattern_columns df_columns in
  (forall c, In c columns <-> In c df_columns)
  /\ (NoDup columns
      <-> NoDup (filter (fun col => str_mem col df_columns) pattern_columns)).
Proof.
  intros Hnd columns. unfold columns, save_columns. split.
  - intros c. rewrite in_app_iff, !filter_In, negb_true_iff.
    rewrite str_mem_In, str_mem_not_In. split; [tauto|].
    intros Hc. destruct (str_mem c pattern_columns) eqn:E.
    + left. apply str_mem_In in E. tauto.
    + right. apply str_mem_not_In in E. tauto.
  - split.
    + intros H. apply NoDup_app_remove_r in H. exact H.
    + intros H. apply NoDup_app; [exact H | apply NoDup_filter, Hnd |].
      intros c Hc Ho. apply filter_In in Hc, Ho.
      destruct Ho as [_ Ho]. apply negb_true_iff, str_mem_not_In in Ho.
      tauto.
Qed.

Lemma saved_columns_of_a_rule_witness :
  save_columns [py "foro"; py "foro"] [py "id"; py "foro"]
  = [py "foro"; py "foro"; py "id"]
  /\ ~ NoDup (save_columns [py "foro"; py "foro"] [py "id"; py "foro"]).
Proof.
  split; [vm_compute; reflexivity|].
  intros H.
  apply (saved_columns_of_a_rule [py "foro"; py "foro"]
           [py "id"; py "foro"]) in H.
  - vm_compute in H. inversion H as [|x l Hnotin _]. apply Hnotin. left.
    reflexivity.
  - vm_compute. repeat constructor; simpl; intuition discriminate.
Defined.

(* ================================================================== *)
(** * Further properties: the merger                                    *)
(* ================================================================== *)

Lemma Sublist_length {A : Type} (l1 l2 : list A) :
  Sublist l1 l2 -> (List.length l1 <= List.length l2)%nat.
Proof. induction 1; simpl; lia. Qed.

Lemma Sublist_In {A : Type} (l1 l2 : list A) (x : A) :
  Sublist l1 l2 -> In x l1 -> In x l2.
Proof.
  induction 1 as [|y l1 l2 _ IH|y l1 l2 _ IH]; simpl; [tauto | tauto |].
  intros [-> | H]; [left; reflexivity | right; apply IH, H].
Qed.

Section DedupFacts.
Context {cell : Type}.
Variable cell_eq_dec : forall x y : cell, {x = y} + {x <> y}.
Variable nan : cell.

Local Abbreviation Row := (@Merger.Row cell).
Local Abbreviation key := (Merger.key nan).
Local Abbreviation key_eqb := (Merger.key_eqb cell_eq_dec).
Local Abbreviation kept := (Merger.kept cell_eq_dec nan).

Lemma seen_not_In (k : list cell) (seen : list (list cell)) :
  existsb (key_eqb k) seen = false <-> ~ In k seen.
Proof.
  rewrite <- (seen_In cell_eq_dec).
  destruct (existsb (key_eqb k) seen); split; congruence.
Qed.

(** The rows kept have keys that were not seen, each key once. *)
Lemma kept_keys_NoDup (subset : list str) (rs : list Row) :
  forall seen,
    NoDup (map (key subset) (kept subset seen rs))
    /\ forall r, In r (kept subset seen rs) -> ~ In (key subset r) seen.
Proof.
  induction rs as [|h rs IH]; intros seen.
  - split; [constructor | intros r []].
  - rewrite (kept_cons cell_eq_dec).
    destruct (IH (key subset h :: seen)) as [Hnd Hnew].
    destruct (existsb (key_eqb (key subset h)) seen) eqn:E.
    + split; [exact Hnd|]. intros r Hr Hin.
      apply (Hnew r Hr). right. exact Hin.
    + apply seen_not_In in E. split.
      * cbn [map]. constructor; [|exact Hnd].
        intros Hin. apply in_map_iff in Hin.
        destruct Hin as (r & Hk & Hr). apply (Hnew r Hr). left.
        symmetry. exact Hk.
      * intros r [<- | Hr]; [exact E|].
        intros Hin. apply (Hnew r Hr). right. exact Hin.
Qed.

(** The key of every row has been seen or is the key of a row kept. *)
Lemma kept_covers (subset : list str) (rs : list Row) :
  forall seen r,
    In r rs ->
    In (key subset r) seen
    \/ In (key subset r) (map (key subset) (kept subset seen rs)).
Proof.
  induction rs as [|h rs IH]; intros seen r Hin; [contradiction|].
  rewrite (kept_cons cell_eq_dec).
  destruct (existsb (key_eqb (key subset h)) seen) eqn:E.
  - apply (seen_In cell_eq_dec) in E. destruct Hin as [<- | Hin].
    + left. exact E.
    + destruct (IH (key subset h :: seen) r Hin) as [[<- | H] | H].
      * left. exact E.
      * left. exact H.
      * right. exact H.
  - destruct Hin as [<- | Hin].
    + right. left. reflexivity.
    + destruct (IH (key subset h :: seen) r Hin) as [[Hk | H] | H].
      * right. left. exact Hk.
      * left. exact H.
      * right. right. exact H.
Qed.

(** Rows whose keys are new and distinct are all kept. *)
Lemma kept_fixed (subset : list str) (rs : list Row) :
  forall seen,
    NoDup (map (key subset) rs) ->
    (forall r, In r rs -> ~ In (key subset r) seen) ->
    kept subset seen rs = rs.
Proof.
  induction rs as [|h rs IH]; intros seen Hnd Hnew; [reflexivity|].
  rewrite (kept_cons cell_eq_dec).
  cbn [map] in Hnd. inversion Hnd as [|k ks Hh Hnd']; subst.
  assert (E : existsb (key_eqb (key subset h)) seen = false).
  { apply seen_not_In. apply Hnew. left. reflexivity. }
  rewrite E. f_equal. apply IH; [exact Hnd'|].
  intros r Hr [Hk | Hin].
  - apply Hh. rewrite Hk. apply in_map, Hr.
  - apply (Hnew r); [right; exact Hr | exact Hin].
Qed.

Lemma kept_length_pos (subset : list str) (r : Row) (rs : list Row) :
  (0 < List.length (kept subset [] (r :: rs)))%nat.
Proof. rewrite (kept_cons cell_eq_dec). simpl. lia. Qed.

End DedupFacts.

(** X14 (DataReader.remove_duplicates).  After the removal no two rows
    have the same cells in the columns that are compared, no row has
    appeared that was not there, and no combination of cells has been
    lost: every row of the combined data has its cells in some row that
    is kept. *)
Theorem remove_duplicates_distinct_keys {cell : Type}
    (cell_eq_dec : forall x y : cell, {x = y} + {x <> y}) (nan : cell)
    (combined_data : @Merger.DataFrame cell) :
  let subset := Merger.non_metadata_columns combined_data in
  let out := Merger.remove_duplicates cell_eq_dec nan combined_data in
  subset <> [] ->
  NoDup (map (Merger.key nan subset) (Merger.rows out))
  /\ (forall r, In r (Merger.rows out) -> In r (Merger.rows combined_data))
  /\ (forall r, In r (Merger.rows combined_data) ->
        exists r', In r' (Merger.rows out)
                   /\ Merger.key nan subset r' = Merger.key nan subset r).
Proof.
  intros subset out _. unfold out.
  rewrite (remove_duplicates_rows cell_eq_dec nan). fold subset.
  split; [|split].
  - apply (kept_keys_NoDup cell_eq_dec nan).
  - intros r. apply Sublist_In, (kept_sublist cell_eq_dec nan).
  - intros r Hin.
    destruct (kept_covers cell_eq_dec nan subset
                (Merger.rows combined_data) [] r Hin) as [[] | H].
    apply in_map_iff in H. destruct H as (r' & Hk & Hr').
    exists r'. split; assumption.
Qed.

Lemma remove_duplicates_distinct_keys_witness :
  let a : @Merger.Row text_cell :=
    [(py "mensaje", Some (py "hola")); (py "_source_file", Some (py "a.xlsx"))]
  in
  let c : @Merger.Row text_cell :=
    [(py "mensaje", Some (py "hola")); (py "_source_file", Some (py "b.xlsx"))]
  in
  let df :=
    {| Merger.columns := [py "mensaje"; py "_source_file"];
       Merger.rows := [a; c] |} in
  NoDup
    (map (Merger.key None (Merger.non_metadata_columns df))
       (Merger.rows (Merger.remove_duplicates text_cell_eq_dec None df))).
Proof.
  intros a c df.
  apply (remove_duplicates_distinct_keys text_cell_eq_dec None df).
  vm_compute. discriminate.
Defined.

(** X15 (DataReader.remove_duplicates).  Removing the duplicates a second
    time changes nothing. *)
Theorem remove_duplicates_idempotent {cell : Type}
    (cell_eq_dec : forall x y : cell, {x = y} + {x <> y}) (nan : cell)
    (combined_data : @Merger.DataFrame cell) :
  Merger.non_metadata_columns combined_data <> [] ->
  let out := Merger.remove_duplicates cell_eq_dec nan combined_data in
  Merger.remove_duplicates cell_eq_dec nan out = out.
Proof.
  intros _ out.
  assert (Hrows : Merger.rows (Merger.remove_duplicates cell_eq_dec nan out)
                  = Merger.rows out).
  { rewrite (remove_duplicates_rows cell_eq_dec nan out).
    change (Merger.non_metadata_columns out)
      with (Merger.non_metadata_columns combined_data).
    unfold out at 1. rewrite (remove_duplicates_rows cell_eq_dec nan).
    unfold out. rewrite (remove_duplicates_rows cell_eq_dec nan).
    destruct (kept_keys_NoDup cell_eq_dec nan
                (Merger.non_metadata_columns combined_data)
                (Merger.rows combined_data) []) as [Hnd _].
    apply (kept_fixed cell_eq_dec nan); [exact Hnd|].
    intros r _ []. }
  destruct (Merger.remove_duplicates cell_eq_dec nan out) as [cols rs] eqn:E.
  assert (Hcols : cols = Merger.columns out).
  { change cols with (Merger.columns {| Merger.columns := cols;
                                        Merger.rows := rs |}).
    rewrite <- E. reflexivity. }
  cbn [Merger.rows] in Hrows. subst cols rs.
  destruct out; reflexivity.
Qed.

Lemma remove_duplicates_idempotent_witness :
  let a : @Merger.Row text_cell :=
    [(py "mensaje", Some (py "hola")); (py "_source_file", Some (py "a.xlsx"))]
  in
  let c : @Merger.Row text_cell :=
    [(py "mensaje", Some (py "hola")); (py "_source_file", Some (py "b.xlsx"))]
  in
  let df :=
    {| Merger.columns := [py "mensaje"; py "_source_file"];
       Merger.rows := [a; c] |} in
  Merger.remove_duplicates text_cell_eq_dec None
    (Merger.remove_duplicates text_cell_eq_dec None df)
  = Merger.remove_duplicates text_cell_eq_dec None df.
Proof.
  intros a c df.
  apply (remove_duplicates_idempotent text_cell_eq_dec None df).
  vm_compute. discriminate.
Defined.

(** X16 (DataReader.remove_duplicates).  The numbers kept after the
    removal: the count of rows removed is never negative, the rows kept and
    the rows removed add up to the rows read, and at least one row is kept
    of combined data that has a row. *)
Theorem duplicate_stats_bounds {cell : Type}
    (cell_eq_dec : forall x y : cell, {x = y} + {x <> y}) (nan : cell)
    (combined_data : @Merger.DataFrame cell) :
  Merger.non_metadata_columns combined_data <> [] ->
  let stats := DataReader.duplicate_stats cell_eq_dec nan combined_data in
  (0 <= DataReader.duplicates_removed stats)%Z
  /\ (DataReader.final_rows stats + DataReader.duplicates_removed stats
      = DataReader.initial_rows stats)%Z
  /\ ((0 < DataReader.initial_rows stats)%Z ->
      (0 < DataReader.final_rows stats)%Z).
Proof.
  intros _ stats. unfold stats, DataReader.duplicate_stats.
  cbn [DataReader.duplicates_removed DataReader.final_rows
         DataReader.initial_rows].
  rewrite (remove_duplicates_rows cell_eq_dec nan).
  pose proof (Sublist_length _ _
                (kept_sublist cell_eq_dec nan
                   (Merger.non_metadata_columns combined_data)
                   (Merger.rows combined_data) [])) as Hle.
  split; [lia|]. split; [lia|].
  destruct (Merger.rows combined_data) as [|r rs]; [simpl; lia|].
  intros _.
  pose proof (kept_length_pos cell_eq_dec nan
                (Merger.non_metadata_columns combined_data) r rs).
  lia.
Qed.

Lemma duplicate_stats_bounds_witness :
  let a : @Merger.Row text_cell :=
    [(py "mensaje", Some (py "hola")); (py "_source_file", Some (py "a.xlsx"))]
  in
  let c : @Merger.Row text_cell :=
    [(py "mensaje", Some (py "hola")); (py "_source_file", Some (py "b.xlsx"))]
  in
  let df :=
    {| Merger.columns := [py "mensaje"; py "_source_file"];
       Merger.rows := [a; c] |} in
  let stats := DataReader.duplicate_stats text_cell_eq_dec None df in
  DataReader.duplicates_removed stats = 1%Z
  /\ (0 <= DataReader.duplicates_removed stats)%Z.
Proof.
  intros a c df stats. split; [vm_compute; reflexivity|].
  apply (duplicate_stats_bounds text_cell_eq_dec None df).
  vm_compute. discriminate.
Defined.

(* ================================================================== *)
(** * Further properties: the sheets written by the merger              *)
(* ================================================================== *)

Lemma filter_all {A : Type} (keep : A -> bool) (l : list A) :
  (forall x, In x l -> keep x = true) -> filter keep l = l.
Proof.
  induction l as [|x l IH]; intros H; [reflexivity|]. simpl.
  rewrite (H x) by (left; reflexivity). f_equal. apply IH.
  intros y Hy. apply H. right. exact Hy.
Qed.

Section WriterFacts.
Context {cell : Type}.
Variable nan : cell.
Variable text : str -> cell.

Local Abbreviation DataFrame := (@Merger.DataFrame cell).
Local Abbreviation cell_at := (Merger.cell_at nan).
Local Abbreviation prepare_dataframe_for_writing :=
  (DataWriter.prepare_dataframe_for_writing nan text).

Lemma cell_at_app (c : str) (r1 r2 : @Merger.Row cell) :
  cell_at c (r1 ++ r2)
  = if str_mem c (map fst r1) then cell_at c r1 else cell_at c r2.
Proof.
  induction r1 as [|[l v] r1 IH]; [reflexivity|].
  cbn [app Merger.cell_at map fst].
  change (str_mem c (l :: map fst r1))
    with (str_eqb c l || str_mem c (map fst r1)).
  rewrite (str_eqb_comm c l).
  destruct (str_eqb l c); [reflexivity | exact IH].
Qed.

Lemma cell_at_added (c : str) (added : list str) :
  cell_at c (map (fun col => (col, text [])) added)
  = if str_mem c added then text [] else nan.
Proof.
  induction added as [|a added IH]; [reflexivity|].
  cbn [map Merger.cell_at].
  change (str_mem c (a :: added)) with (str_eqb c a || str_mem c added).
  rewrite (str_eqb_comm c a).
  destruct (str_eqb a c); [reflexivity | exact IH].
Qed.

(** The loop that adds the missing columns. *)
Lemma add_missing_columns (column_order : list str) :
  forall df : DataFrame,
  exists added,
    fold_left
      (fun prepared_df col =>
         if negb (str_mem col (Merger.columns prepared_df))
         then DataWriter.add_column col (text []) prepared_df
         else prepared_df)
      column_order df
    = {| Merger.columns := Merger.columns df ++ added;
         Merger.rows :=
           map (fun row => row ++ map (fun col => (col, text [])) added)
             (Merger.rows df) |}
    /\ forall c, In c added
                 <-> In c column_order /\ ~ In c (Merger.columns df).
Proof.
  induction column_order as [|col order IH]; intros df.
  - exists []. split.
    + destruct df as [cols rs]. cbn. rewrite app_nil_r. f_equal.
      rewrite <- (map_id rs) at 1. apply map_ext. intros r.
      rewrite app_nil_r. reflexivity.
    + intros c. simpl. tauto.
  - cbn [fold_left].
    destruct (str_mem col (Merger.columns df)) eqn:E; cbn [negb].
    + apply str_mem_In in E. destruct (IH df) as (added & Hfold & Hin).
      exists added. split; [exact Hfold|].
      intros c. rewrite Hin. simpl. split; [tauto|].
      intros [[<- | Hc] Hn]; tauto.
    + apply str_mem_not_In in E.
      destruct (IH (DataWriter.add_column col (text []) df))
        as (added & Hfold & Hin).
      exists (col :: added). split.
      * rewrite Hfold. cbn [DataWriter.add_column Merger.columns
                              Merger.rows].
        rewrite <- app_assoc. f_equal. rewrite map_map.
        apply map_ext. intros r. rewrite <- app_assoc. reflexivity.
      * intros c. cbn [In]. rewrite Hin.
        cbn [DataWriter.add_column Merger.columns]. rewrite in_app_iff.
        simpl. split.
        -- intros [<- | [Hc Hn]]; [tauto|]. split; tauto.
        -- intros [[<- | Hc] Hn]; [tauto|].
           destruct (str_eqb col c) eqn:Ec.
           ++ apply str_eqb_eq in Ec. tauto.
           ++ apply str_eqb_neq in Ec. right. split; [exact Hc|].
              intros [H | [H | []]]; tauto.
Qed.

(** The frame that is written: its columns and its rows. *)
Lemma prepared_frame (df : DataFrame) (column_order : list str) :
  exists added,
    prepare_dataframe_for_writing df column_order
    = {| Merger.columns := column_order;
         Merger.rows :=
           map (fun row =>
                  Merger.reindex nan column_order
                    (row ++ map (fun col => (col, text [])) added))
             (Merger.rows df) |}
    /\ forall c, In c added
                 <-> In c column_order /\ ~ In c (Merger.columns df).
Proof.
  unfold DataWriter.prepare_dataframe_for_writing.
  destruct (add_missing_columns column_order df) as (added & Hfold & Hin).
  exists added. split; [|exact Hin].
  rewrite Hfold. cbn [Merger.columns]. unfold DataWriter.select.
  cbn [Merger.rows Merger.columns].
  rewrite filter_all.
  - rewrite map_map. reflexivity.
  - intros c Hc. apply str_mem_In, in_or_app.
    destruct (str_mem c (Merger.columns df)) eqn:E.
    + left. apply str_mem_In, E.
    + right. apply Hin. split; [exact Hc|]. apply str_mem_not_In, E.
Qed.

Lemma prepared_columns (df : DataFrame) (column_order : list str) :
  Merger.columns (prepare_dataframe_for_writing df column_order)
  = column_order.
Proof.
  destruct (prepared_frame df column_order) as (added & -> & _).
  reflexivity.
Qed.

Lemma prepared_length (df : DataFrame) (column_order : list str) :
  List.length (Merger.rows (prepare_dataframe_for_writing df column_order))
  = List.length (Merger.rows df).
Proof.
  destruct (prepared_frame df column_order) as (added & -> & _).
  apply length_map.
Qed.

Lemma all_dfs_rows (language_data : Dict.t DataFrame) :
  list_sum
    (map (fun df => List.length (Merger.rows df))
       (DataWriter.all_dfs text language_data))
  = list_sum
      (map (fun entry => List.length (Merger.rows (snd entry)))
         (filter (fun entry => negb (DataWriter.empty (snd entry)))
            language_data)).
Proof.
  induction language_data as [|[language df] rest IH]; [reflexivity|].
  cbn [DataWriter.all_dfs flat_map filter snd].
  fold (DataWriter.all_dfs text rest).
  destruct (DataWriter.empty df); cbn [negb]; [exact IH|].
  cbn [app map list_sum fold_right snd].
  change (fold_right Nat.add 0%nat ?l) with (list_sum l).
  rewrite IH. f_equal.
  destruct (str_mem (py "_language") (Merger.columns df)); cbn [negb];
    [reflexivity|].
  apply length_map.
Qed.

Lemma all_dfs_nil (language_data : Dict.t DataFrame) :
  DataWriter.all_dfs text language_data = []
  <-> existsb (fun entry => negb (DataWriter.empty (snd entry)))
        language_data = false.
Proof.
  induction language_data as [|[language df] rest IH]; [tauto|].
  cbn [DataWriter.all_dfs flat_map existsb snd].
  fold (DataWriter.all_dfs text rest).
  destruct (DataWriter.empty df); cbn [negb orb app]; [exact IH|].
  split; discriminate.
Qed.

Lemma concat_length (dfs : list DataFrame) :
  List.length (Merger.rows (Merger.concat nan dfs))
  = list_sum (map (fun df => List.length (Merger.rows df)) dfs).
Proof.
  unfold Merger.concat. cbn [Merger.rows]. rewrite length_map.
  induction dfs as [|df dfs IH]; [reflexivity|].
  cbn [flat_map map list_sum fold_right]. rewrite length_app, IH.
  reflexivity.
Qed.

Lemma column_order_nonempty (language_data : Dict.t DataFrame) :
  language_data <> [] -> DataWriter.get_column_order language_data <> [].
Proof.
  destruct language_data as [|[first_language first_df] rest];
    [congruence|].
  intros _ E. cbn [DataWriter.get_column_order] in E.
  apply app_eq_nil in E. destruct E as [_ E].
  vm_compute in E. discriminate E.
Qed.

Lemma tabs_columns (column_order : list str)
    (language_data : Dict.t DataFrame) (sheet : str * DataFrame) :
  In sheet (DataWriter.language_tabs nan text language_data column_order)
  -> Merger.columns (snd sheet) = column_order.
Proof.
  unfold DataWriter.language_tabs. intros Hin. apply in_flat_map in Hin.
  destruct Hin as ([language df] & _ & Hin).
  destruct (DataWriter.empty df); [destruct Hin|].
  destruct Hin as [<- | []]. apply prepared_columns.
Qed.

Lemma tabs_rows (column_order : list str)
    (language_data : Dict.t DataFrame) :
  map (fun sheet : str * DataFrame =>
         (fst sheet, List.length (Merger.rows (snd sheet))))
    (DataWriter.language_tabs nan text language_data column_order)
  = map (fun entry : str * DataFrame =>
           (DataWriter._sanitize_sheet_name (fst entry),
            List.length (Merger.rows (snd entry))))
      (filter (fun entry => negb (DataWriter.empty (snd entry)))
         language_data).
Proof.
  unfold DataWriter.language_tabs.
  induction language_data as [|[language df] data IH]; [reflexivity|].
  cbn [flat_map filter snd].
  destruct (DataWriter.empty df); cbn [negb]; [exact IH|].
  cbn [app map fst snd]. rewrite IH, prepared_length. reflexivity.
Qed.

Lemma existsb_filter_nil {A : Type} (keep : A -> bool) (l : list A) :
  existsb keep l = false <-> filter keep l = [].
Proof.
  induction l as [|x l IH]; [tauto|]. simpl.
  destruct (keep x); simpl; [split; discriminate | exact IH].
Qed.

(** Sheets are written exactly when some frame is not empty. *)
Lemma sheets_nil (column_order : list str)
    (language_data : Dict.t DataFrame) (include_all_tab : bool) :
  DataWriter.language_tabs nan text language_data column_order
  ++ (if include_all_tab
      then DataWriter._write_all_tab nan text language_data column_order
      else [])
  = []
  <-> existsb (fun entry => negb (DataWriter.empty (snd entry)))
        language_data = false.
Proof.
  split.
  - intros E. apply app_eq_nil in E. destruct E as [E _].
    apply (f_equal
             (map (fun sheet : str * DataFrame =>
                     (fst sheet, List.length (Merger.rows (snd sheet))))))
      in E.
    rewrite tabs_rows in E. cbn [map] in E. apply map_eq_nil in E.
    apply existsb_filter_nil, E.
  - intros E.
    assert (Htabs :
              DataWriter.language_tabs nan text language_data column_order
              = []).
    { apply (map_eq_nil
               (fun sheet : str * DataFrame =>
                  (fst sheet, List.length (Merger.rows (snd sheet))))).
      rewrite tabs_rows. apply existsb_filter_nil in E. rewrite E.
      reflexivity. }
    rewrite Htabs. cbn [app]. destruct include_all_tab; [|reflexivity].
    unfold DataWriter._write_all_tab.
    rewrite (proj2 (all_dfs_nil language_data) E). reflexivity.
Qed.

Lemma all_tab_columns (column_order : list str)
    (language_data : Dict.t DataFrame) (sheet : str * DataFrame) :
  In sheet (DataWriter._write_all_tab nan text language_data column_order)
  -> Merger.columns (snd sheet) = column_order.
Proof.
  unfold DataWriter._write_all_tab.
  destruct (DataWriter.all_dfs text language_data); intros Hin;
    [destruct Hin|].
  destruct Hin as [<- | []]. apply prepared_columns.
Qed.

Lemma all_tab_rows (column_order : list str)
    (language_data : Dict.t DataFrame) :
  map (fun sheet : str * DataFrame =>
         (fst sheet, List.length (Merger.rows (snd sheet))))
    (DataWriter._write_all_tab nan text language_data column_order)
  = if existsb (fun entry => negb (DataWriter.empty (snd entry)))
         language_data
    then [(py "all",
           list_sum
             (map (fun entry : str * DataFrame =>
                     List.length (Merger.rows (snd entry)))
                (filter (fun entry => negb (DataWriter.empty (snd entry)))
                   language_data)))]
    else [].
Proof.
  unfold DataWriter._write_all_tab.
  pose proof (all_dfs_nil language_data) as Hnil.
  pose proof (all_dfs_rows language_data) as Hrows.
  destruct (DataWriter.all_dfs text language_data) as [|df dfs].
  - rewrite (proj1 Hnil eq_refl). reflexivity.
  - destruct (existsb _ language_data).
    + cbn [map fst snd]. rewrite prepared_length, concat_length, Hrows.
      reflexivity.
    + destruct Hnil as [_ Hnil]. discriminate (Hnil eq_refl).
Qed.

End WriterFacts.

(** X17 (DataWriter.prepare_dataframe_for_writing).  The frame prepared
    for a sheet has the columns of the column order exactly, whatever the
    columns of the data: a column of the data that the order does not list
    is dropped.  It has one row for each row of the data; under a column
    of the order the row has the cell of the data when the data has the
    column, and the empty text when it has not. *)
Theorem prepared_frame_follows_column_order {cell : Type} (nan : cell)
    (text : str -> cell) (df : @Merger.DataFrame cell)
    (column_order : list str) :
  Forall (fun row => map fst row = Merger.columns df) (Merger.rows df) ->
  let prepared :=
    DataWriter.prepare_dataframe_for_writing nan text df column_order in
  Merger.columns prepared = column_order
  /\ Forall2
       (fun row row' =>
          map fst row' = column_order
          /\ forall c, In c column_order ->
               Merger.cell_at nan c row'
               = if str_mem c (Merger.columns df)
                 then Merger.cell_at nan c row
                 else text [])
       (Merger.rows df) (Merger.rows prepared).
Proof.
  intros Hwf prepared. unfold prepared.
  destruct (prepared_frame nan text df column_order) as (added & -> & Hin).
  cbn [Merger.columns Merger.rows]. split; [reflexivity|].
  induction (Merger.rows df) as [|r rs IH]; [constructor|].
  inversion Hwf as [|? ? Hr Hrs]; subst.
  cbn [map]. constructor; [|apply IH, Hrs]. split.
  - unfold Merger.reindex. rewrite map_map. cbn [fst]. apply map_id.
  - intros c Hc. rewrite (cell_at_reindex nan) by exact Hc.
    rewrite cell_at_app, Hr.
    destruct (str_mem c (Merger.columns df)) eqn:E; [reflexivity|].
    rewrite cell_at_added.
    assert (Ha : In c added)
      by (apply Hin; split; [exact Hc | apply str_mem_not_In, E]).
    apply str_mem_In in Ha. rewrite Ha. reflexivity.
Qed.

Lemma prepared_frame_follows_column_order_witness :
  let df : @Merger.DataFrame text_cell :=
    {| Merger.columns := [py "extra"; py "mensaje"];
       Merger.rows := [[(py "extra", Some (py "x"));
                        (py "mensaje", Some (py "hola"))]] |} in
  let prepared :=
    DataWriter.prepare_dataframe_for_writing None Some df
      [py "mensaje"; py "_language"] in
  Merger.columns prepared = [py "mensaje"; py "_language"]
  /\ Merger.rows prepared
     = [[(py "mensaje", Some (py "hola")); (py "_language", Some [])]].
Proof.
  intros df prepared. split; [|vm_compute; reflexivity].
  apply (prepared_frame_follows_column_order None Some df
           [py "mensaje"; py "_language"]).
  repeat constructor.
Defined.

(** X18 (DataWriter.write_to_excel, DataWriter._write_all_tab,
    DataWriter.get_column_order).  When every frame is empty, or there is
    no language, the merger writes no sheet and returns without a file.
    When some frame is not empty it writes: one sheet for each language
    whose frame is not empty, in the order of the languages, under the
    sanitized name of the language and with as many rows as the frame;
    then, when it is asked for, the sheet [all] with as many rows as these
    frames have together, so that a row read twice is written twice.
    Every sheet has the same columns: the columns of the frame of the
    first language that are not provenance columns, then the four
    provenance columns. *)
Theorem sheets_of_the_merger {cell : Type} (nan : cell) (text : str -> cell)
    (language_data : Dict.t (@Merger.DataFrame cell))
    (include_all_tab : bool) :
  let written (entry : str * @Merger.DataFrame cell) :=
    negb (DataWriter.empty (snd entry)) in
  (existsb written language_data = false ->
   DataWriter.write_to_excel nan text language_data include_all_tab = None)
  /\ (existsb written language_data = true ->
      exists sheets,
        DataWriter.write_to_excel nan text language_data include_all_tab
        = Some sheets
        /\ (forall sheet, In sheet sheets ->
              Merger.columns (snd sheet)
              = DataWriter.get_column_order language_data)
        /\ map (fun sheet =>
                  (fst sheet, List.length (Merger.rows (snd sheet))))
             sheets
           = map (fun entry =>
                    (DataWriter._sanitize_sheet_name (fst entry),
                     List.length (Merger.rows (snd entry))))
               (filter written language_data)
             ++ (if include_all_tab
                 then [(py "all",
                        list_sum
                          (map (fun entry =>
                                  List.length (Merger.rows (snd entry)))
                             (filter written language_data)))]
                 else [])).
Proof.
  intros written. unfold DataWriter.write_to_excel. split.
  - intros Hnone.
    destruct language_data as [|entry rest] eqn:Edata; [reflexivity|].
    rewrite <- Edata in *.
    destruct (DataWriter.get_column_order language_data)
      as [|col order]; [reflexivity|].
    cbv zeta.
    rewrite (proj2 (sheets_nil nan text (col :: order) language_data
                      include_all_tab) Hnone).
    reflexivity.
  - intros Hsome.
    assert (Hdata : language_data <> [])
      by (intros E; rewrite E in Hsome; discriminate Hsome).
    pose proof (column_order_nonempty language_data Hdata) as Horder.
    destruct language_data as [|entry rest] eqn:Edata; [congruence|].
    rewrite <- Edata in *. clear Hdata.
    destruct (DataWriter.get_column_order language_data)
      as [|col order] eqn:Eorder; [congruence|].
    cbv zeta.
    destruct (DataWriter.language_tabs nan text language_data (col :: order)
              ++ (if include_all_tab
                  then DataWriter._write_all_tab nan text language_data
                         (col :: order)
                  else []))
      as [|sheet sheets] eqn:Esheets.
    + apply (sheets_nil nan text) in Esheets. fold written in Esheets.
      congruence.
    + exists (sheet :: sheets). split; [reflexivity|].
      rewrite <- Esheets. clear Esheets. split.
      * intros s Hin. apply in_app_or in Hin. destruct Hin as [Hin | Hin].
        -- apply (tabs_columns nan text _ _ _ Hin).
        -- destruct include_all_tab; [|destruct Hin].
           apply (all_tab_columns nan text _ _ _ Hin).
      * rewrite map_app, (tabs_rows nan text). f_equal.
        destruct include_all_tab; [|reflexivity].
        rewrite (all_tab_rows nan text). fold written. rewrite Hsome.
        reflexivity.
Qed.

Lemma sheets_of_the_merger_witness :
  let row : @Merger.Row text_cell := [(py "mensaje", Some (py "hola"))] in
  let language_data : Dict.t (@Merger.DataFrame text_cell) :=
    [(py "es", {| Merger.columns := [py "mensaje"];
                  Merger.rows := [row; row] |});
     (py "en", {| Merger.columns := [py "mensaje"];
                  Merger.rows := [row] |})] in
  let no_rows : Dict.t (@Merger.DataFrame text_cell) :=
    [(py "es", {| Merger.columns := [py "mensaje"]; Merger.rows := [] |})] in
  (exists sheets,
      DataWriter.write_to_excel None Some language_data true = Some sheets
      /\ map (fun sheet =>
                (fst sheet, List.length (Merger.rows (snd sheet))))
           sheets
         = [(py "es", 2%nat); (py "en", 1%nat); (py "all", 3%nat)])
  /\ DataWriter.write_to_excel None Some no_rows true = None.
Proof.
  intros row language_data no_rows. split.
  - destruct (proj2 (sheets_of_the_merger None Some language_data true))
      as (sheets & Hwrite & _ & Hrows).
    + reflexivity.
    + exists sheets. split; [exact Hwrite|]. rewrite Hrows.
      vm_compute. reflexivity.
  - apply (proj1 (sheets_of_the_merger None Some no_rows true)).
    reflexivity.
Defined.
